(** * Shodan reporters: classification, escalation and new-bug watermark

    A shallow embedding of the three reporters of the repository

      - [pkg/operator/reporters/blockers-new/blockers_reporter.go]
      - [pkg/operator/reporters/escalation/escalation_reporter.go]
      - the new-bug reporter (package [new])

    Go's [int] is modelled by [Z].  The only arithmetic the reporters do on
    it is counting list elements, comparing identifiers and subtracting a
    small constant from a length, none of which can leave the 64-bit range,
    so no wrap-around is written out.  Go maps are [gmap]s; where the code
    ranges over a map (an order Go leaves unspecified) the model ranges over
    [map_to_list].  A [[]*bugzilla.Bug] is a [list Bug]: the reporters never
    mutate a bug, so sharing is not observable. *)

From Stdlib Require Import ZArith List Bool Ascii String.
From Stdlib Require Import Floats.SpecFloat.
From stdpp Require Import base option list gmap strings pretty fin_maps.

Local Open Scope Z_scope.
Local Open Scope string_scope.
Local Open Scope list_scope.

(** ** The tracker's data (package [bugzilla]) *)

Record Flag := mkFlag {
  Flag_Name : string;
  Flag_Status : string
}.

(** [bugzilla.ExternalBug]: only [Type.Type] is read by the reporters. *)
Record ExternalBug := mkExternalBug {
  ExternalBug_Type : string
}.

Record Bug := mkBug {
  ID : Z;
  AssignedTo : string;
  Component : list string;
  Keywords : list string;
  Whiteboard : string;
  Severity : string;
  Priority : string;
  TargetRelease : list string;
  Status : string;
  Flags : list Flag;
  Escalation : string;
  ExternalBugs : list ExternalBug;
  Summary : string
}.

Record AdvancedQuery := mkAdvancedQuery {
  Field : string;
  Op : string;
  Value : string
}.

(** [bugzilla.Query], with the fields the reporters set.  A field left out of
    a Go composite literal is its zero value, the empty list. *)
Record Query := mkQuery {
  Classification : list string;
  Product : list string;
  Q_Status : list string;
  Q_Severity : list string;
  Q_Priority : list string;
  Q_Component : list string;
  Q_TargetRelease : list string;
  Advanced : list AdvancedQuery;
  IncludeFields : list string
}.

(** Go's [(T, error)] results. *)
Inductive result (E A : Type) : Type :=
| Ok (a : A)
| Err (e : E).
Arguments Ok {E A} a.
Arguments Err {E A} e.

(** ** Strings *)

(** [strings.Contains s sub]. *)
Fixpoint strings_Contains (s sub : string) : bool :=
  String.prefix sub s ||
  match s with
  | EmptyString => false
  | String _ s' => strings_Contains s' sub
  end.

(** [strings.Join]. *)
Fixpoint strings_Join (l : list string) (sep : string) : string :=
  match l with
  | [] => ""
  | [x] => x
  | x :: xs => x +:+ sep +:+ strings_Join xs sep
  end.

(** The newline of Go's ["\n"]. *)
Definition nl : string := String "010"%char EmptyString.

(** *** UTF-8 (package [unicode/utf8])

    A Go string is a sequence of bytes; [%q] and the verbs of a format read
    it rune by rune. *)

Definition byte_of (c : ascii) : Z := Z.of_N (N_of_ascii c).

Definition RuneError : Z := 65533.

(** The low six bits of a continuation byte that lies within [lo, hi]. *)
Definition continuation (lo hi : Z) (c : ascii) : option Z :=
  let b := byte_of c in
  if Z.leb lo b && Z.leb b hi then Some (Z.land b 63) else None.

(** The length of the encoding that a first byte announces and the range its
    second byte must lie in; length 0 for a byte that starts no encoding. *)
Definition firstByte (b0 : Z) : nat * Z * Z :=
  if Z.leb 194 b0 && Z.leb b0 223 then (2%nat, 128, 191)
  else if Z.eqb b0 224 then (3%nat, 160, 191)
  else if Z.eqb b0 237 then (3%nat, 128, 159)
  else if Z.leb 225 b0 && Z.leb b0 239 then (3%nat, 128, 191)
  else if Z.eqb b0 240 then (4%nat, 144, 191)
  else if Z.leb 241 b0 && Z.leb b0 243 then (4%nat, 128, 191)
  else if Z.eqb b0 244 then (4%nat, 128, 143)
  else (0%nat, 0, 0).

(** [utf8.DecodeRuneInString] on the string [String c0 rest]: the rune and
    the number of bytes of its encoding, [RuneError] and 1 where the bytes
    are no well-formed encoding. *)
Definition DecodeRuneInString (c0 : ascii) (rest : string) : Z * nat :=
  let b0 := byte_of c0 in
  let invalid := (RuneError, 1%nat) in
  if Z.ltb b0 128 then (b0, 1%nat)
  else
    let '(sz, lo, hi) := firstByte b0 in
    match sz, rest with
    | 2%nat, String c1 _ =>
      match continuation lo hi c1 with
      | Some v1 => (Z.lor (Z.shiftl (Z.land b0 31) 6) v1, 2%nat)
      | None => invalid
      end
    | 3%nat, String c1 (String c2 _) =>
      match continuation lo hi c1, continuation 128 191 c2 with
      | Some v1, Some v2 =>
        (Z.lor (Z.lor (Z.shiftl (Z.land b0 15) 12) (Z.shiftl v1 6)) v2, 3%nat)
      | _, _ => invalid
      end
    | 4%nat, String c1 (String c2 (String c3 _)) =>
      match continuation lo hi c1, continuation 128 191 c2, continuation 128 191 c3 with
      | Some v1, Some v2, Some v3 =>
        (Z.lor (Z.lor (Z.lor (Z.shiftl (Z.land b0 7) 18) (Z.shiftl v1 12))
                  (Z.shiftl v2 6)) v3, 4%nat)
      | _, _, _ => invalid
      end
    | _, _ => invalid
    end.

(** What is left of a string after its first [n] bytes. *)
Fixpoint skip (n : nat) (s : string) : string :=
  match n, s with
  | S n', String _ s' => skip n' s'
  | _, _ => s
  end.

(** *** [strconv.Quote], which is also the verb [%q] *)

Definition lowerhex (n : Z) : ascii :=
  nth (Z.to_nat n) (list_ascii_of_string "0123456789abcdef") "0"%char.

(** The low [digits] hexadecimal digits of [r], the most significant
    first. *)
Definition hex (digits : nat) (r : Z) : string :=
  string_of_list_ascii
    (map (fun i => lowerhex (Z.land (Z.shiftr r (4 * Z.of_nat i)) 15)) (rev (seq 0 digits))).

(** [strconv.IsPrint].  Up to U+00FF this is the test of the package; above,
    the package consults its tables of the Unicode letters, marks, numbers,
    punctuation and symbols, which are not reproduced here: a rune above
    U+00FF is taken to be printable. *)
Definition IsPrint (r : Z) : bool :=
  if Z.leb r 255
  then (Z.leb 32 r && Z.leb r 126) || (Z.leb 161 r && Z.leb r 255 && negb (Z.eqb r 173))
  else true.

(** [appendEscapedRune] with the double quote as the quote character:
    [bytes] is the encoding of [r]. *)
Definition appendEscapedRune (r : Z) (bytes : string) : string :=
  if Z.eqb r 34 || Z.eqb r 92 then String "092"%char bytes
  else if IsPrint r then bytes
  else if Z.eqb r 7 then "\a"
  else if Z.eqb r 8 then "\b"
  else if Z.eqb r 12 then "\f"
  else if Z.eqb r 10 then "\n"
  else if Z.eqb r 13 then "\r"
  else if Z.eqb r 9 then "\t"
  else if Z.eqb r 11 then "\v"
  else if Z.ltb r 32 || Z.eqb r 127 then "\x" +:+ hex 2 r
  else if Z.ltb r 65536 then "\u" +:+ hex 4 r
  else "\U" +:+ hex 8 r.

(** The loop of [appendQuotedWith]: [pending] counts the bytes that belong
    to a rune already written. *)
Fixpoint appendQuoted (pending : nat) (s : string) : string :=
  match s with
  | EmptyString => EmptyString
  | String c rest =>
    match pending with
    | S n => appendQuoted n rest
    | O =>
      let '(r, width) := DecodeRuneInString c rest in
      (if Nat.eqb width 1 && Z.eqb r RuneError then "\x" +:+ hex 2 (byte_of c)
       else appendEscapedRune r (substring 0 width s))
      +:+ appendQuoted (width - 1) rest
    end
  end.

(** [%q] and [strconv.Quote]: the string between double quotes, with quotes
    and backslashes escaped and what cannot be printed written as an escape
    sequence. *)
Definition quoted (s : string) : string :=
  String "034"%char (appendQuoted 0 s) +:+ String "034"%char EmptyString.

(** *** [fmt.Sprintf] of a format without operands

    [Warningf(reason, err.Error())] hands the text of an error to the
    formatter as its format.  With no operand to print, text is copied as
    far as the next [%]; then flags, an argument index, a width and a
    precision are read and the verb is written as missing, [%%] apart. *)

Definition isFlag (c : ascii) : bool :=
  match c with
  | "#"%char | "0"%char | "+"%char | "-"%char | " "%char => true
  | _ => false
  end.

Fixpoint skipFlags (s : string) : string :=
  match s with
  | String c s' => if isFlag c then skipFlags s' else s
  | EmptyString => s
  end.

Definition isDigit (c : ascii) : bool :=
  Z.leb 48 (byte_of c) && Z.leb (byte_of c) 57.

Definition tooLarge (x : Z) : bool := Z.gtb x 1000000 || Z.ltb x (-1000000).

(** [parsenum] on the range that [s] is: the number at its head, whether
    there was one, and what follows it.  A number that grows too large is
    given up and the whole range is skipped. *)
Fixpoint parsenum (s : string) (num : Z) (isnum : bool) : Z * bool * string :=
  match s with
  | String c s' =>
    if isDigit c then
      if tooLarge num then (0, false, EmptyString)
      else parsenum s' (num * 10 + (byte_of c - 48)) true
    else (num, isnum, s)
  | EmptyString => (num, isnum, s)
  end.

(** The number of bytes before the first [']']. *)
Fixpoint closing (s : string) : option nat :=
  match s with
  | EmptyString => None
  | String c s' => if Ascii.eqb c "]" then Some 0%nat else S <$> closing s'
  end.

(** [parseArgNumber] on a string that starts with ['[']: the number of
    bytes of the index and whether it is a well-formed one. *)
Definition parseArgNumber (s : string) : nat * bool :=
  if Nat.ltb (String.length s) 3 then (1%nat, false)
  else match closing (skip 1 s) with
       | Some k =>
         let '(_, ok, rest) := parsenum (substring 1 k s) 0 false in
         (S (S k), ok && Nat.eqb (String.length rest) 0)
       | None => (1%nat, false)
       end.

(** [argNumber] when there is no operand: what follows the index, whether a
    well-formed index was found, and whether the argument number went bad,
    which any index does. *)
Definition argNumber (s : string) : string * bool * bool :=
  match s with
  | String "["%char _ =>
    let '(wid, ok) := parseArgNumber s in (skip wid s, ok, true)
  | _ => (s, false, false)
  end.

(** The verb at the head of a string that is not empty, as [writeRune]
    writes it, and what follows it. *)
Definition verbOf (c : ascii) (rest : string) : string * string :=
  let '(r, size) := DecodeRuneInString c rest in
  if Nat.eqb size 1 && Z.eqb r RuneError
  then (String "239"%char (String "191"%char (String "189"%char EmptyString)), rest)
  else (substring 0 size (String c rest), skip (size - 1) rest).

(** One pass of the loop of [doPrintf] from behind a [%]: what is written
    and what is left of the format. *)
Definition directive (s : string) : string * string :=
  let s := skipFlags s in
  let '(s, afterIndex, bad1) := argNumber s in
  let '(s, afterIndex, badWidth, bad2) :=
    match s with
    | String "*"%char s' => (s', false, "%!(BADWIDTH)", false)
    | _ => let '(_, widPresent, s') := parsenum s 0 false in
           (s', afterIndex, "", afterIndex && widPresent)
    end in
  let '(s, afterIndex, badPrec, bad3) :=
    match s with
    | String "."%char s' =>
      let '(s', afterIndex', bad) := argNumber s' in
      match s' with
      | String "*"%char s'' => (s'', false, "%!(BADPREC)", afterIndex || bad)
      | _ => let '(_, _, s'') := parsenum s' 0 false in
             (s'', afterIndex', "", afterIndex || bad)
      end
    | _ => (s, afterIndex, "", false)
    end in
  let '(s, bad4) :=
    if afterIndex then (s, false)
    else let '(s', _, bad) := argNumber s in (s', bad) in
  let goodArgNum := negb (bad1 || bad2 || bad3 || bad4) in
  match s with
  | EmptyString => (badWidth +:+ badPrec +:+ "%!(NOVERB)", EmptyString)
  | String c rest =>
    let '(verb, s') := verbOf c rest in
    (badWidth +:+ badPrec +:+
     (if String.eqb verb "%" then "%"
      else if goodArgNum then "%!" +:+ verb +:+ "(MISSING)"
      else "%!" +:+ verb +:+ "(BADINDEX)"),
     s')
  end.

(** The loop of [doPrintf]: [pending] counts the bytes that the last
    directive has read already. *)
Fixpoint doPrintf (pending : nat) (format : string) : string :=
  match format with
  | EmptyString => EmptyString
  | String c rest =>
    match pending with
    | S n => doPrintf n rest
    | O =>
      if Ascii.eqb c "%" then
        let '(out, remaining) := directive rest in
        out +:+ doPrintf (String.length rest - String.length remaining) rest
      else String c (doPrintf 0 rest)
    end
  end.

(** [fmt.Sprintf(format)]. *)
Definition Sprintf (format : string) : string := doPrintf 0 format.

(** [fmt.Sprintf("%d", n)] and [strconv.Itoa]. *)
Definition Itoa (n : Z) : string := pretty n.

(** [sets.NewString(l...).Has(x)]. *)
Definition NewString (l : list string) : gset string := list_to_set l.
Definition Has (s : gset string) (x : string) : bool := bool_decide (x ∈ s).

(** [len] of a slice, as a Go [int]. *)
Definition len {A} (l : list A) : Z := Z.of_nat (length l).

(** [m[k]] on a map of slices: a missing key reads as the nil slice. *)
Definition at_key {A} (m : gmap string (list A)) (k : string) : list A :=
  default [] (m !! k).

(** [m[k] = append(m[k], x)]. *)
Definition append_at {A} (m : gmap string (list A)) (k : string) (x : A)
  : gmap string (list A) :=
  <[k := at_key m k ++ [x]]> m.

(** [m[k]++] on a map of counters. *)
Definition incr_at (m : gmap string Z) (k : string) : gmap string Z :=
  <[k := default 0 (m !! k) + 1]> m.

(** [sets.String.List()]: the elements in increasing (byte-wise) order. *)
Fixpoint insert_sorted (x : string) (l : list string) : list string :=
  match l with
  | [] => [x]
  | y :: ys => if String.leb x y then x :: l else y :: insert_sorted x ys
  end.

Definition sorted_List (s : gset string) : list string :=
  foldr insert_sorted [] (elements s).

(** ** The reporters' surroundings

    A reporter talks to the tracker, to the persistent key/value store and
    to the chat service.  What these answer is given by an [Env]; what the
    reporter asks of them is recorded, in order, in the [trace] of the
    [World], next to the contents of the store. *)

Definition error := string.

Inductive Event :=
| EvSearch (q : Query)
| EvGetPersistentValue (key : string)
| EvSetPersistentValue (key value : string)
| EvMessageChannel (text : string)
| EvMessageAdminChannel (text : string)
| EvMessageEmail (person text : string)
| EvWarning (reason message : string).

Record Env := mkEnv {
  tracker : Query -> result error (list Bug);
  getFailure : string -> option error;
  setFailure : string -> string -> option error;
  channelFailure : string -> option error;
  emailFailure : string -> string -> option error
}.

Record World := mkWorld {
  store : gmap string string;
  trace : list Event
}.

Definition M (A : Type) : Type := World -> A * World.

#[global] Instance M_ret : MRet M := fun A a w => (a, w).

#[global] Instance M_bind : MBind M := fun A B k m w =>
  let '(a, w') := m w in k a w'.

Definition emit (e : Event) : M unit :=
  fun w => (tt, {| store := store w; trace := trace w ++ [e] |}).

Definition get_store : M (gmap string string) :=
  fun w => (store w, w).

Definition put_store (st : gmap string string) : M unit :=
  fun w => (tt, {| store := st; trace := trace w |}).

(** [for _, x := range l { body x }], for a body that only acts on the world. *)
Fixpoint for_each {A} (l : list A) (body : A -> M unit) : M unit :=
  match l with
  | [] => mret tt
  | x :: xs => body x;; for_each xs body
  end.

(** [client.Search(q)]. *)
Definition Search (env : Env) (q : Query) : M (result error (list Bug)) :=
  emit (EvSearch q);; mret (tracker env q).

(** [GetPersistentValue]: a key never written reads as the empty string. *)
Definition GetPersistentValue (env : Env) (key : string) : M (result error string) :=
  emit (EvGetPersistentValue key);;
  st ← get_store;
  mret (match getFailure env key with
        | Some e => Err e
        | None => Ok (default "" (st !! key))
        end).

(** [SetPersistentValue]: a failed write leaves the store as it was. *)
Definition SetPersistentValue (env : Env) (key value : string) : M (option error) :=
  emit (EvSetPersistentValue key value);;
  match setFailure env key value with
  | Some e => mret (Some e)
  | None => st ← get_store; put_store (<[key := value]> st);; mret None
  end.

Definition MessageChannel (env : Env) (text : string) : M (option error) :=
  emit (EvMessageChannel text);; mret (channelFailure env text).

Definition MessageAdminChannel (text : string) : M unit :=
  emit (EvMessageAdminChannel text).

Definition MessageEmail (env : Env) (person text : string) : M (option error) :=
  emit (EvMessageEmail person text);; mret (emailFailure env person text).

(** [recorder.Warningf] and [klog.Warningf]: [message] is the format with
    its operands filled in. *)
Definition Warningf (reason message : string) : M unit :=
  emit (EvWarning reason message).

(** ** Configuration (package [config]) *)

Record ComponentConfig := mkComponent {
  Lead : string;
  Developers : list string
}.

Record ReleaseConfig := mkRelease {
  CurrentTargetRelease : string;
  TargetReleases : list string
}.

Record OperatorConfig := mkConfig {
  Release : ReleaseConfig;
  Components : gmap string ComponentConfig;
  Groups : gmap string (list string)
}.

(** * The blockers reporter *)

Module Blockers.
Section Blockers.

(** [bugutil.FormatBugMessage], from a package outside the sources at hand. *)
Variable FormatBugMessage : Bug -> string.

Definition seriousKeywords : list string :=
  ["ServiceDeliveryBlocker"; "TestBlocker"; "UpgradeBlocker"].

Record bugSummary := mkBugSummary {
  seriousIDs : gmap string (list Z);
  blockerPlus : list string;
  blockerPlusIDs : list Z;
  blockerQuestionmark : list string;
  blockerQuestionmarkIDs : list Z;
  toTriage : list string;
  toTriageIDs : list Z;
  needUpcomingSprint : list string;
  needUpcomingSprintIDs : list Z;
  urgentIDs : list Z;
  urgent : list string;
  staleCount : Z;
  priorityCount : gmap string Z;
  severityCount : gmap string Z;
  currentReleaseCount : Z
}.

Definition hasFlag (bug : Bug) (name value : string) : bool :=
  existsb (fun f => String.eqb (Flag_Name f) name && String.eqb (Flag_Status f) value)
          (Flags bug).

(** The release an issue is slated against: the first target release, or
    ["---"] when it has none. *)
Definition targetReleaseOf (bug : Bug) : string :=
  match TargetRelease bug with
  | [] => "---"
  | t :: _ => t
  end.

(** [append(l, x)] when [c] holds, [l] otherwise. *)
Definition append_if {A} (c : bool) (l : list A) (x : A) : list A :=
  if c then l ++ [x] else l.

(** The body of the loop of [summarizeBugs]. *)
Definition summarizeBug (currentTargetRelease : string) (r : bugSummary) (bug : Bug)
  : bugSummary :=
  let keywords := NewString (Keywords bug) in
  let serious1 :=
    fold_left (fun m keyword =>
                 if Has keywords keyword then append_at m keyword (ID bug) else m)
              seriousKeywords (seriousIDs r) in
  let stale := strings_Contains (Whiteboard bug) "LifecycleStale" in
  let isUrgent := String.eqb (Priority bug) "urgent" || String.eqb (Severity bug) "urgent" in
  let noSprint := negb (Has keywords "UpcomingSprint") in
  let targetRelease := targetReleaseOf bug in
  let inRelease :=
    String.eqb targetRelease currentTargetRelease || String.eqb targetRelease "---" in
  let isPlus := hasFlag bug "blocker" "+" && inRelease in
  let isQuestion := hasFlag bug "blocker" "?" && inRelease in
  let serious2 := if isPlus then append_at serious1 "blocker+" (ID bug) else serious1 in
  let serious3 := if isQuestion then append_at serious2 "blocker?" (ID bug) else serious2 in
  let triageState := NewString ["NEW"; ""] in
  let isTriage :=
    (String.eqb targetRelease currentTargetRelease && Has triageState (Status bug))
    || String.eqb targetRelease "---"
    || String.eqb (Priority bug) "unspecified" || String.eqb (Priority bug) ""
    || String.eqb (Severity bug) "unspecified" || String.eqb (Severity bug) "" in
  {| seriousIDs := serious3;
     blockerPlus := append_if isPlus (blockerPlus r) (FormatBugMessage bug);
     blockerPlusIDs := append_if isPlus (blockerPlusIDs r) (ID bug);
     blockerQuestionmark := append_if isQuestion (blockerQuestionmark r) (FormatBugMessage bug);
     blockerQuestionmarkIDs := append_if isQuestion (blockerQuestionmarkIDs r) (ID bug);
     toTriage := append_if isTriage (toTriage r) (FormatBugMessage bug);
     toTriageIDs := append_if isTriage (toTriageIDs r) (ID bug);
     needUpcomingSprint := append_if noSprint (needUpcomingSprint r) (FormatBugMessage bug);
     needUpcomingSprintIDs := append_if noSprint (needUpcomingSprintIDs r) (ID bug);
     urgentIDs := append_if isUrgent (urgentIDs r) (ID bug);
     urgent := append_if isUrgent (urgent r) (FormatBugMessage bug);
     staleCount := if stale then staleCount r + 1 else staleCount r;
     priorityCount := incr_at (priorityCount r) (Priority bug);
     severityCount := incr_at (severityCount r) (Severity bug);
     currentReleaseCount :=
       if inRelease then currentReleaseCount r + 1 else currentReleaseCount r |}.

Definition emptySummary : bugSummary :=
  {| seriousIDs := ∅;
     blockerPlus := []; blockerPlusIDs := [];
     blockerQuestionmark := []; blockerQuestionmarkIDs := [];
     toTriage := []; toTriageIDs := [];
     needUpcomingSprint := []; needUpcomingSprintIDs := [];
     urgentIDs := []; urgent := [];
     staleCount := 0;
     priorityCount := ∅; severityCount := ∅;
     currentReleaseCount := 0 |}.

Definition summarizeBugs (currentTargetRelease : string) (bugs : list Bug) : bugSummary :=
  fold_left (summarizeBug currentTargetRelease) bugs emptySummary.

(** *** Per-person grouping and notification ([sync]) *)

(** The loop of the [perPerson] closure of [sync].  [lines[i]] on a slice
    that is too short is a run-time panic, [None] here. *)
Fixpoint perPerson_loop (byID : gmap Z Bug) (lines : list string) (i : nat) (ids : list Z)
    (perPersonIDs : gmap string (list Z)) (perPersonLines : gmap string (list string))
  : option (gmap string (list Z) * gmap string (list string)) :=
  match ids with
  | [] => Some (perPersonIDs, perPersonLines)
  | id :: rest =>
    match byID !! id with
    | None => perPerson_loop byID lines (S i) rest perPersonIDs perPersonLines
    | Some b =>
      match lines !! i with
      | None => None
      | Some line =>
        perPerson_loop byID lines (S i) rest
          (append_at perPersonIDs (AssignedTo b) id)
          (append_at perPersonLines (AssignedTo b) line)
      end
    end
  end.

Definition perPerson (byID : gmap Z Bug) (ids : list Z) (lines : list string)
  : option (gmap string (list Z) * gmap string (list string)) :=
  perPerson_loop byID lines 0 ids ∅ ∅.

(** [byID[b.ID] = b] for every bug of the list. *)
Definition indexByID (bugs : list Bug) : gmap Z Bug :=
  fold_left (fun byID b => <[ID b := b]> byID) bugs ∅.

Record grouping := mkGrouping {
  perPersonToTriageIDs : gmap string (list Z);
  perPersonToTriage : gmap string (list string);
  perPersonBlockerPlusIDs : gmap string (list Z);
  perPersonBlockerPlus : gmap string (list string);
  perPersonUrgentIDs : gmap string (list Z);
  perPersonUrgent : gmap string (list string)
}.

(** The three calls of [perPerson] in [sync], on the bugs and the summary
    that [Report] returned. *)
Definition groupPerPerson (bugs : list Bug) (summary : bugSummary) : option grouping :=
  let byID := indexByID bugs in
  '(toTriageIDs', toTriage') ← perPerson byID (toTriageIDs summary) (toTriage summary);
  '(blockerPlusIDs', blockerPlus') ← perPerson byID (toTriageIDs summary) (toTriage summary);
  '(urgentIDs', urgent') ← perPerson byID (urgentIDs summary) (urgent summary);
  Some {| perPersonToTriageIDs := toTriageIDs';
          perPersonToTriage := toTriage';
          perPersonBlockerPlusIDs := blockerPlusIDs';
          perPersonBlockerPlus := blockerPlus';
          perPersonUrgentIDs := urgentIDs';
          perPersonUrgent := urgent' |}.

Definition urgentIntro (n : Z) (suffix : string) : string :=
  "You have *" +:+ Itoa n +:+ " urgent bugs*" +:+ suffix +:+ ":" +:+ nl +:+ nl.
Definition urgentOutro : string :=
  nl +:+ nl +:+ "We are expected to actively work on these before anything else!".

Definition blockerIntro (n : Z) (suffix : string) : string :=
  "You have *" +:+ Itoa n +:+ " blocker+ bugs*" +:+ suffix +:+ ":" +:+ nl +:+ nl.
Definition blockerOutro : string :=
  nl +:+ nl +:+
  "Please keep eyes on these, they will risk the upcoming release if not finished in time!".

Definition triageIntro (n : Z) (suffix : string) : string :=
  "You have *" +:+ Itoa n +:+ " untriaged bugs*" +:+ suffix +:+ ":" +:+ nl +:+ nl.
Definition triageOutro : string :=
  nl +:+ nl +:+
  "Please make sure all these have the _Severity_, _Priority_ and _Target Release_ set, and move to ASSIGNED, so I can stop bothering you :-)"
  +:+ nl +:+ nl.

(** The [notifyPersons] closure of [sync]. *)
Definition notifyPersons (env : Env) (intro : Z -> string -> string) (suffix : string)
    (perPersonBugs : gmap string (list string)) (outro : string) : M unit :=
  for_each (map_to_list perPersonBugs) (fun '(person, lines) =>
    match lines with
    | [] => mret tt
    | _ =>
      let message := intro (len lines) suffix +:+ strings_Join lines nl +:+ outro in
      r ← MessageEmail env person message;
      match r with
      | Some err =>
        Warningf "DeliveryFailed"
          ("Failed to deliver:" +:+ nl +:+ nl +:+ message +:+ nl +:+ nl +:+ " to "
           +:+ quoted person +:+ ": " +:+ err)
      | None => mret tt
      end
    end).

(** [makeBugzillaLink]: the identifiers go, joined by an escaped comma, into
    the [v1] parameter, which [url.Values.Encode] puts last. *)
Definition makeBugzillaLink (hrefText : string) (ids : list Z) : string :=
  "<https://bugzilla.redhat.com/buglist.cgi?f1=bug_id&list_id=11100046&o1=anyexact&query_format=advanced&v1="
  +:+ strings_Join (map Itoa ids) "%2C" +:+ "|" +:+ hrefText +:+ ">".

Definition debugLines (what : string) (perPersonIDs : gmap string (list Z)) : list string :=
  flat_map (fun '(person, b) =>
              match b with
              | [] => []
              | _ => ["> " +:+ makeBugzillaLink person b +:+ ": " +:+ Itoa (len b) +:+ what]
              end)
           (map_to_list perPersonIDs).

Definition sendAdminDebugStats
    (perPersonBlockersIDs perPersonToTriageIDs perPersonUrgentIDs : gmap string (list Z))
  : M unit :=
  let messages :=
    debugLines " blocker+ bugs" perPersonBlockersIDs
    ++ debugLines " bugs that need triage" perPersonToTriageIDs
    ++ debugLines " urgent bugs" perPersonUrgentIDs in
  MessageAdminChannel (strings_Join messages nl).

(** *** The channel report ([Report]) *)

Definition getBugsQuery (components targetRelease : list string) : Query :=
  {| Classification := ["Red Hat"];
     Product := ["OpenShift Container Platform"];
     Q_Status := ["NEW"; "ASSIGNED"; "POST"; "ON_DEV"];
     Q_Severity := [];
     Q_Priority := [];
     Q_Component := components;
     Q_TargetRelease := targetRelease;
     Advanced :=
       [ {| Field := "bug_severity"; Op := "notequals"; Value := "low" |};
         {| Field := "priority"; Op := "notequals"; Value := "low" |} ];
     IncludeFields :=
       ["id"; "assigned_to"; "keywords"; "status"; "resolution"; "summary"; "changeddate";
        "severity"; "priority"; "target_release"; "whiteboard"; "flags"] |}.

(** The address of the tracker's list page for a query,
    ["https://bugzilla.redhat.com/buglist.cgi?" + q.Values().Encode()], whose
    encoding belongs to the tracker's client library. *)
Variable queryURL : Query -> string.

Definition breakdown (count : gmap string Z) : list string :=
  flat_map (fun p =>
              let n := default 0 (count !! p) in
              if Z.ltb 0 n then [Itoa n +:+ " _" +:+ p +:+ "_"] else [])
           ["urgent"; "high"; "medium"; "low"; "unspecified"].

Definition getStatsForChannel (targetRelease : string) (activeBugsCount : Z)
    (summary : bugSummary) (allReleasesQuery currentReleaseQuery : Query) : list string :=
  [ "> All active 4.x and 3.11 Bugs: <" +:+ queryURL allReleasesQuery +:+ "|"
      +:+ Itoa activeBugsCount +:+ ">";
    "> All active " +:+ targetRelease +:+ " Bugs: <" +:+ queryURL currentReleaseQuery +:+ "|"
      +:+ Itoa (currentReleaseCount summary) +:+ ">";
    "> Bugs Severity Breakdown: " +:+ strings_Join (breakdown (severityCount summary)) ", ";
    "> Bugs Priority Breakdown: " +:+ strings_Join (breakdown (priorityCount summary)) ", ";
    "> Bugs Marked as _LifecycleStale_: <https://bugzilla.redhat.com/buglist.cgi?cmdtype=dorem&remaction=run&namedcmd=openshift-group-b-lifecycle-stale&sharer_id=290313|"
      +:+ Itoa (staleCount summary) +:+ ">" ]
  ++ flat_map (fun '(keyword, ids) =>
                 match ids with
                 | [] => []
                 | _ => ["> Bugs with _" +:+ keyword +:+ "_: "
                         +:+ makeBugzillaLink (Itoa (len ids)) ids]
                 end)
              (map_to_list (seriousIDs summary)).

(** [Report]: the channel text, the summary and the list of bugs handed back
    to [sync]. *)
Definition Report (env : Env) (config : OperatorConfig) (components : list string)
  : M (result error (string * bugSummary * list Bug)) :=
  let current := CurrentTargetRelease (Release config) in
  let allReleasesQuery :=
    getBugsQuery components ("---" :: TargetReleases (Release config)) in
  let currentReleaseQeury := getBugsQuery components ["---"; current] in
  r ← Search env allReleasesQuery;
  match r with
  | Err err => Warningf "BugSearchFailed" (Sprintf err);; mret (Err err)
  | Ok bugs =>
    let summary := summarizeBugs current bugs in
    let channelStats :=
      getStatsForChannel current (len bugs) summary allReleasesQuery currentReleaseQeury in
    let report :=
      nl +:+ ":bug: *Today 4.x Bug Report:* :bug:" +:+ nl
      +:+ strings_Join channelStats nl +:+ nl in
    mret (Ok (report, summary, []))
  end.

(** How a call of [sync] ends. *)
Inductive outcome :=
| Returned (err : option error)
| Panicked.

Definition sync (env : Env) (config : OperatorConfig) (components : list string)
  : M outcome :=
  r ← Report env config components;
  match r with
  | Err err => mret (Returned (Some err))
  | Ok (channelReport, summary, bugs) =>
    match groupPerPerson bugs summary with
    | None => mret Panicked
    | Some g =>
      notifyPersons env triageIntro "" (perPersonToTriage g) triageOutro;;
      notifyPersons env blockerIntro
        ("for the " +:+ CurrentTargetRelease (Release config) +:+ " release")
        (perPersonBlockerPlus g) blockerOutro;;
      notifyPersons env urgentIntro "" (perPersonUrgent g) urgentOutro;;
      r ← MessageChannel env channelReport;
      match r with
      | Some err =>
        Warningf "DeliveryFailed" ("Failed to deliver stats to channel: " +:+ err)
      | None => mret tt
      end;;
      sendAdminDebugStats (perPersonBlockerPlusIDs g) (perPersonToTriageIDs g)
        (perPersonUrgentIDs g);;
      mret (Returned None)
    end
  end.

End Blockers.
End Blockers.

(** * The escalation reporter *)

Module Escalation.

(** ** Go's [float64], as far as the quota needs it

    IEEE 754 binary64 after the Standard Library's executable specification
    [SpecFloat], with 53 bits of precision and [emax = 1024]. *)

Definition float64 := spec_float.

(** [float64(n)]: the nearest binary64 value. *)
Definition float64_of_int (n : Z) : float64 := binary_normalize 53 1024 n 0 false.

(** The constant [0.2] as a [float64]: the nearest value is
    [7205759403792794 * 2^-55]. *)
Definition float64_0_2 : float64 := S754_finite false 7205759403792794 (-55).

Definition float64_mul (x y : float64) : float64 := SFmul 53 1024 x y.

(** [int(f)]: the fraction is discarded.  Go leaves the conversion of a value
    that is not finite to the implementation; on amd64 it is the least
    [int]. *)
Definition int_of_float64 (f : float64) : Z :=
  match f with
  | S754_zero _ => 0
  | S754_finite s m e =>
    let a := match e with
             | Zneg p => Z.pos m / 2 ^ Z.pos p
             | _ => Z.pos m * 2 ^ e
             end in
    if s then - a else a
  | _ => - 2 ^ 63
  end.

Definition max (x y : Z) : Z := if Z.gtb x y then x else y.

(** [max(1, int(float64(len(team))*0.2))] *)
Definition maxEscalations (teamSize : Z) : Z :=
  max 1 (int_of_float64 (float64_mul (float64_of_int teamSize) float64_0_2)).

Section Escalation.

(** [bugutil.GetBugURL] and [config.ExpandGroups], from packages outside the
    sources at hand. *)
Variable GetBugURL : Bug -> string.
Variable ExpandGroups : gmap string (list string) -> list string -> gset string.

Definition getSeverityUrgentBugsQuery (components : list string) : Query :=
  {| Classification := ["Red Hat"];
     Product := ["OpenShift Container Platform"];
     Q_Status := ["NEW"; "ASSIGNED"; "POST"; "ON_DEV"];
     Q_Severity := [];
     Q_Priority := [];
     Q_Component := components;
     Q_TargetRelease := [];
     Advanced := [];
     IncludeFields :=
       ["id"; "assigned_to"; "status"; "severity"; "priority"; "external_bugs";
        "component"; "summary"] |}.

Definition getSeverityUrgentBugs (env : Env) (components : list string)
  : M (result error (list Bug)) :=
  Search env (getSeverityUrgentBugsQuery components).

(** What the first loop of [Report] builds. *)
Record verdicts := mkVerdicts {
  assigned : gmap string (list Bug);
  silenced : list Bug;
  leadsBugs : gmap string (list Bug);
  missingComponents : gset string
}.

Definition noVerdicts : verdicts :=
  {| assigned := ∅; silenced := []; leadsBugs := ∅; missingComponents := ∅ |}.

Definition escalationFlag (b : Bug) : bool := String.eqb (Escalation b) "Yes".

Definition customerCases (b : Bug) : bool :=
  existsb (fun eb => String.eqb (ExternalBug_Type eb) "SFDC") (ExternalBugs b).

(** The condition of the [if] in the loop. *)
Definition escalated (b : Bug) : bool :=
  escalationFlag b
  || (customerCases b && String.eqb (Priority b) "urgent")
  || (customerCases b && String.eqb (Severity b) "urgent"
      && String.eqb (Priority b) "unspecified").

(** The condition of the [else if]. *)
Definition silencedCondition (b : Bug) : bool :=
  String.eqb (Severity b) "urgent" && negb (String.eqb (Priority b) "unspecified").

(** The body of the loop.  A component without an entry in the configuration
    reads as the zero [ComponentConfig], whose lead is empty. *)
Definition classify (cfg : OperatorConfig) (v : verdicts) (b : Bug) : verdicts :=
  if escalated b then
    let assigned' := append_at (assigned v) (AssignedTo b) b in
    match Component b with
    | [] =>
      {| assigned := assigned'; silenced := silenced v;
         leadsBugs := leadsBugs v; missingComponents := missingComponents v |}
    | c :: _ =>
      let comp := default {| Lead := ""; Developers := [] |} (Components cfg !! c) in
      {| assigned := assigned';
         silenced := silenced v;
         leadsBugs :=
           if String.eqb (Lead comp) "" then leadsBugs v
           else append_at (leadsBugs v) (Lead comp) b;
         missingComponents :=
           match Components cfg !! c with
           | None => {[ c ]} ∪ missingComponents v
           | Some _ => missingComponents v
           end |}
    end
  else if silencedCondition b then
    {| assigned := assigned v; silenced := silenced v ++ [b];
       leadsBugs := leadsBugs v; missingComponents := missingComponents v |}
  else v.

Definition classifyAll (cfg : OperatorConfig) (bugs : list Bug) : verdicts :=
  fold_left (classify cfg) bugs noVerdicts.

(** The developers of every component led by [lead]. *)
Definition roots (cfg : OperatorConfig) (lead : string) : gset string :=
  foldr (fun '(_, comp) acc =>
           if String.eqb (Lead comp) lead then acc ∪ NewString (Developers comp) else acc)
        ∅ (map_to_list (Components cfg)).

Definition team (cfg : OperatorConfig) (lead : string) : gset string :=
  ExpandGroups (Groups cfg) (sorted_List (roots cfg lead)).

Definition teamSize (cfg : OperatorConfig) (lead : string) : Z :=
  Z.of_nat (size (team cfg lead)).

(** The two shapes of a lead's headline. *)
Definition overQuotaLine (lead : string) (n quota : Z) : string :=
  ":red-siren: " +:+ lead +:+ "'s team with " +:+ Itoa n
  +:+ " bugs, above the quota of " +:+ Itoa quota.

Definition normalLine (lead : string) (n : Z) : string :=
  lead +:+ "'s team with " +:+ Itoa n +:+ " bug".

Definition leadHeadline (cfg : OperatorConfig) (lead : string) (bugs : list Bug) : string :=
  let maxEscalations := maxEscalations (teamSize cfg lead) in
  if Z.gtb (len bugs) maxEscalations
  then overQuotaLine lead (len bugs) maxEscalations
  else normalLine lead (len bugs).

Definition bugLine (b : Bug) : string :=
  "> " +:+ GetBugURL b +:+ " " +:+ Status b +:+ " @ " +:+ AssignedTo b +:+ ": "
  +:+ Summary b.

Definition leadLines (cfg : OperatorConfig) (leadsBugs : gmap string (list Bug))
  : list string :=
  flat_map (fun '(lead, bugs) => leadHeadline cfg lead bugs :: map bugLine bugs)
           (map_to_list leadsBugs).

(** The loop over [assigned]: the heading comes before the first assignee
    that is listed. *)
Definition assigneeLines (assigned : gmap string (list Bug)) : list string :=
  let listed :=
    flat_map (fun '(assignee, bugs) =>
                if Z.eqb (len bugs) 1 then []
                else ["> :red-siren: " +:+ assignee +:+ ": "
                      +:+ strings_Join (map GetBugURL bugs) " "])
             (map_to_list assigned) in
  match listed with
  | [] => []
  | _ => "" :: "Assignees with more than one escalation:" :: listed
  end.

Definition silencedLines (silenced : list Bug) : list string :=
  match silenced with
  | [] => []
  | _ =>
    let links := map GetBugURL silenced in
    [""; Itoa (len links) +:+ " silenced bugs :see_no_evil: : " +:+ strings_Join links " "]
  end.

(** [Report].  [slack] tells whether a chat client was passed ([slack != nil]). *)
Definition Report (env : Env) (slack : bool) (cfg : OperatorConfig)
    (components : list string) : M (result error string) :=
  r ← getSeverityUrgentBugs env components;
  match r with
  | Err err => Warningf "BugSearchFailed" (Sprintf err);; mret (Err err)
  | Ok urgentSeverityBugs =>
    let v := classifyAll cfg urgentSeverityBugs in
    (if Z.ltb 0 (Z.of_nat (size (missingComponents v))) && slack
     then MessageAdminChannel
            ("Missing components in config: "
             +:+ strings_Join (sorted_List (missingComponents v)) ", ")
     else mret tt);;
    if Z.eqb (Z.of_nat (size (leadsBugs v))) 0 && Z.eqb (len (silenced v)) 0
    then mret (Ok "")
    else
      let lines :=
        ["Escalation report:"; ""]
        ++ leadLines cfg (leadsBugs v)
        ++ assigneeLines (assigned v)
        ++ silencedLines (silenced v) in
      mret (Ok (strings_Join lines nl))
  end.

Definition sync (env : Env) (cfg : OperatorConfig) (components : list string)
  : M (option error) :=
  r ← Report env true cfg components;
  match r with
  | Err err => mret (Some err)
  | Ok report =>
    if Nat.eqb (String.length report) 0 then mret None
    else
      r ← MessageChannel env report;
      match r with
      | Some err =>
        Warningf "DeliveryFailed" ("Failed to deliver closed bug counts: " +:+ err);;
        mret (Some err)
      | None => mret None
      end
  end.

End Escalation.
End Escalation.

(** * The new-bug reporter *)

Module NewBugs.

(** ** [strconv.Atoi] *)

Definition digit_value (c : ascii) : option Z :=
  let n := Z.of_N (N_of_ascii c) in
  if Z.leb 48 n && Z.leb n 57 then Some (n - 48) else None.

(** The value of a string of decimal digits. *)
Fixpoint parse_digits (s : string) (acc : Z) : option Z :=
  match s with
  | EmptyString => Some acc
  | String c s' =>
    match digit_value c with
    | Some d => parse_digits s' (10 * acc + d)
    | None => None
    end
  end.

Definition syntaxError (s : string) : error :=
  "strconv.Atoi: parsing " +:+ quoted s +:+ ": invalid syntax".

Definition rangeError (s : string) : error :=
  "strconv.Atoi: parsing " +:+ quoted s +:+ ": value out of range".

(** The two errors of package [strconv]. *)
Inductive NumError := ErrSyntax | ErrRange.

Definition maxUint64 : Z := 2 ^ 64 - 1.

(** The loop of [strconv.ParseUint] for base 10 and 64 bits.  The bytes are
    read from the left: one that is no digit is a syntax error, and a value
    that leaves the range of [uint64] is a range error, whichever comes
    first. *)
Fixpoint ParseUint (s : string) (n : Z) : result NumError Z :=
  match s with
  | EmptyString => Ok n
  | String c s' =>
    match digit_value c with
    | None => Err ErrSyntax
    | Some d =>
      if Z.geb n (maxUint64 / 10 + 1) then Err ErrRange
      else
        let n1 := 10 * n + d in
        if Z.gtb n1 maxUint64 then Err ErrRange else ParseUint s' n1
    end
  end.

(** [strconv.Atoi]: an optional sign and at least one decimal digit,
    denoting a value of the 64-bit [int].  Its fast path for short strings
    and [ParseInt] agree wherever both apply. *)
Definition Atoi (s : string) : result error Z :=
  let '(neg, digits) :=
    match s with
    | String "-"%char r => (true, r)
    | String "+"%char r => (false, r)
    | _ => (false, s)
    end in
  match digits with
  | EmptyString => Err (syntaxError s)
  | _ =>
    match ParseUint digits 0 with
    | Err ErrSyntax => Err (syntaxError s)
    | Err ErrRange => Err (rangeError s)
    | Ok n =>
      let v := if neg then - n else n in
      if Z.leb (- 2 ^ 63) v && Z.ltb v (2 ^ 63) then Ok v else Err (rangeError s)
    end
  end.

Section NewBugs.

Variable FormatBugMessage : Bug -> string.

Definition stateKey (components : list string) : string :=
  "new-bug-reporter.state-" +:+ strings_Join components "-".

(** The predicate of the incremental query. *)
Definition incrementalPredicate (lastID : Z) : AdvancedQuery :=
  {| Field := "bug_id"; Op := "greaterthan"; Value := Itoa lastID |}.

(** The predicate of the bootstrap query: created within the last day. *)
Definition bootstrapPredicate : AdvancedQuery :=
  {| Field := "creation_ts"; Op := "greaterthaneq"; Value := "-24h" |}.

Definition getNewBugsQuery (components : list string) (lastID : Z) : Query :=
  let aq := if Z.eqb lastID 0 then bootstrapPredicate else incrementalPredicate lastID in
  {| Classification := ["Red Hat"];
     Product := ["OpenShift Container Platform"];
     Q_Status := ["NEW"];
     Q_Severity := [];
     Q_Priority := [];
     Q_Component := components;
     Q_TargetRelease := [];
     Advanced := [aq];
     IncludeFields := ["id"; "assigned_to"; "component"; "summary"] |}.

Definition getNewBugs (env : Env) (components : list string) (lastID : Z)
  : M (result error (list Bug)) :=
  Search env (getNewBugsQuery components lastID).

Definition bugLink (b : Bug) : string :=
  "<https://bugzilla.redhat.com/show_bug.cgi?id=" +:+ Itoa (ID b) +:+ "|#"
  +:+ Itoa (ID b) +:+ ">".

(** The loop of [sync] over [newBugs], from index [i] on: [total] is
    [len(newBugs)]; the [break] ends it after the bug of index 51. *)
Fixpoint scan (total : Z) (i : Z) (bugs : list Bug) (lastID : Z) (ids : list string)
  : Z * list string :=
  match bugs with
  | [] => (lastID, ids)
  | b :: rest =>
    let lastID := if Z.gtb (ID b) lastID then ID b else lastID in
    let ids := ids ++ [bugLink b] in
    if Z.gtb i 50
    then (lastID, ids ++ [" ... and " +:+ Itoa (total - 50) +:+ " more"])
    else scan total (i + 1) rest lastID ids
  end.

(** [sync] from the call of [getNewBugs] to its [return]: the error it
    returns and the value [lastID] has by then. *)
Definition cycle (env : Env) (components : list string) (lastID : Z)
  : M (option error * Z) :=
  r ← getNewBugs env components lastID;
  match r with
  | Err err => Warningf "BuglistFailed" (Sprintf err);; mret (Some err, lastID)
  | Ok newBugs =>
    let '(lastID, ids) := scan (len newBugs) 0 newBugs lastID [] in
    MessageAdminChannel ("Found new bugs: " +:+ strings_Join ids ", ");;
    mret (None, lastID)
  end.

(** The start of [sync]: the watermark read from the store. *)
Definition readState (key s : string) : M Z :=
  if String.eqb s "" then mret 0
  else match Atoi s with
       | Ok lastID => mret lastID
       | Err err =>
         Warningf "klog" ("Cannot parse state value for " +:+ key +:+ ": " +:+ err);;
         mret 0
       end.

(** [sync] from the [defer] statement on: the deferred function runs when
    [cycle] has returned, writes [lastID] and replaces a nil result by its
    own error. *)
Definition cycleThenPersist (env : Env) (components : list string) (lastID : Z)
  : M (option error) :=
  '(err, lastID) ← cycle env components lastID;
  persistErr ← SetPersistentValue env (stateKey components) (Itoa lastID);
  mret (match err with
        | Some _ => err
        | None => persistErr
        end).

(** [sync].  A failed read of the state returns before the deferred function
    is registered. *)
Definition sync (env : Env) (components : list string) : M (option error) :=
  r ← GetPersistentValue env (stateKey components);
  match r with
  | Err err => mret (Some err)
  | Ok s =>
    lastID ← readState (stateKey components) s;
    cycleThenPersist env components lastID
  end.

(** The loop of [Report]; the [break] ends it after the bug of index 21. *)
Fixpoint reportLines (total : Z) (i : Z) (bugs : list Bug) (lines : list string)
  : list string :=
  match bugs with
  | [] => lines
  | b :: rest =>
    let lines := lines ++ ["> " +:+ FormatBugMessage b] in
    if Z.gtb i 20
    then lines ++ [" ... and " +:+ Itoa (total - 20) +:+ " more"]
    else reportLines total (i + 1) rest lines
  end.

Definition Report (env : Env) (components : list string) : M (result error string) :=
  r ← getNewBugs env components 0;
  match r with
  | Err err => mret (Err err)
  | Ok newBugs =>
    let lines :=
      reportLines (len newBugs) 0 newBugs
        ["New bugs of the last week (excluding those already in a different state):"; ""] in
    mret (Ok (strings_Join lines nl))
  end.

End NewBugs.
End NewBugs.

(** * A tracker over a fixed list of bugs *)

Module Tracker.

(** The tracker behind [Search] is an outside service.  This one answers
    with the bugs of a fixed list that satisfy the status set, the severity
    and priority sets, the component set, the target-release set and every
    predicate of the query; a set left empty constrains nothing.  Predicates
    on fields that the model of a bug does not carry (the creation time) are
    taken to hold. *)

Definition one_of (allowed : list string) (x : string) : bool :=
  match allowed with
  | [] => true
  | _ => existsb (String.eqb x) allowed
  end.

Definition some_of (allowed : list string) (xs : list string) : bool :=
  match allowed with
  | [] => true
  | _ => existsb (fun x => existsb (String.eqb x) allowed) xs
  end.

Definition holds (aq : AdvancedQuery) (b : Bug) : bool :=
  let compare (x : string) :=
    if String.eqb (Op aq) "equals" then String.eqb x (Value aq)
    else if String.eqb (Op aq) "notequals" then negb (String.eqb x (Value aq))
    else true in
  if String.eqb (Field aq) "bug_severity" then compare (Severity b)
  else if String.eqb (Field aq) "priority" then compare (Priority b)
  else if String.eqb (Field aq) "bug_id" && String.eqb (Op aq) "greaterthan" then
    match NewBugs.Atoi (Value aq) with
    | Ok n => Z.gtb (ID b) n
    | Err _ => true
    end
  else true.

Definition matches (q : Query) (b : Bug) : bool :=
  one_of (Q_Status q) (Status b)
  && one_of (Q_Severity q) (Severity b)
  && one_of (Q_Priority q) (Priority b)
  && some_of (Q_Component q) (Component b)
  && some_of (Q_TargetRelease q)
       (match TargetRelease b with [] => ["---"] | l => l end)
  && forallb (fun aq => holds aq b) (Advanced q).

Definition search (db : list Bug) (q : Query) : result error (list Bug) :=
  Ok (filter (fun b => Is_true (matches q b)) db).

(** A tracker and services that never fail. *)
Definition reliable (db : list Bug) : Env :=
  {| tracker := search db;
     getFailure := fun _ => None;
     setFailure := fun _ _ => None;
     channelFailure := fun _ => None;
     emailFailure := fun _ _ => None |}.

Definition newWorld : World := {| store := ∅; trace := [] |}.

End Tracker.

(** * The rules, in the words of their description *)

Module Rules.

(** The issue carries a flag with this name and value. *)
Definition carriesFlag (bug : Bug) (name value : string) : Prop :=
  Exists (λ f, Flag_Name f = name ∧ Flag_Status f = value) (Flags bug).

(** The first target release, or the sentinel when there is none. *)
Definition resolvedRelease (bug : Bug) : string :=
  default "---" (head (TargetRelease bug)).

(** The gate of the blocker buckets, in the words of the classification
    rules. *)
Definition blockerGate (value reference : string) (bug : Bug) : Prop :=
  carriesFlag bug "blocker" value
  ∧ (resolvedRelease bug = reference ∨ resolvedRelease bug = "---").

#[global] Instance carriesFlag_dec bug name value : Decision (carriesFlag bug name value).
Proof. unfold carriesFlag. apply _. Defined.

#[global] Instance blockerGate_dec value reference bug :
  Decision (blockerGate value reference bug).
Proof. unfold blockerGate. apply _. Defined.

(** The same bug without a target release. *)
Definition withoutTargetRelease (bug : Bug) : Bug :=
  {| ID := ID bug; AssignedTo := AssignedTo bug; Component := Component bug;
     Keywords := Keywords bug; Whiteboard := Whiteboard bug; Severity := Severity bug;
     Priority := Priority bug; TargetRelease := []; Status := Status bug;
     Flags := Flags bug; Escalation := Escalation bug; ExternalBugs := ExternalBugs bug;
     Summary := Summary bug |}.

(** Escalation: the issue has an external case of the customer-case
    system. *)
Definition hasCustomerCase (b : Bug) : Prop :=
  Exists (λ eb, ExternalBug_Type eb = "SFDC") (ExternalBugs b).

Definition eligible (b : Bug) : Prop :=
  Escalation b = "Yes"
  ∨ (hasCustomerCase b ∧ Priority b = "urgent")
  ∨ (hasCustomerCase b ∧ Severity b = "urgent" ∧ Priority b = "unspecified").

(** Urgent by severity, with a priority that was set. *)
Definition downRanked (b : Bug) : Prop :=
  Severity b = "urgent" ∧ Priority b ≠ "unspecified".

#[global] Instance hasCustomerCase_dec b : Decision (hasCustomerCase b).
Proof. unfold hasCustomerCase. apply _. Defined.

#[global] Instance eligible_dec b : Decision (eligible b).
Proof. unfold eligible. apply _. Defined.

#[global] Instance downRanked_dec b : Decision (downRanked b).
Proof. unfold downRanked. apply _. Defined.

(** The quota of a team: a fifth of its size, rounded down, and at least
    one. *)
Definition quota (teamSize : Z) : Z := Z.max 1 (teamSize / 5).

(** The greatest of a watermark and the identifiers of a result set. *)
Definition maxID (watermark : Z) (bugs : list Bug) : Z :=
  foldr (λ b m, Z.max (ID b) m) watermark bugs.

(** The world after some more events. *)
Definition addEvents (w : World) (events : list Event) : World :=
  {| store := store w; trace := trace w ++ events |}.

(** What a run that started in [w] and ended in [w'] asked of its
    surroundings. *)
Definition newEvents (w w' : World) : list Event :=
  drop (length (trace w)) (trace w').

Definition isPersist (e : Event) : bool :=
  match e with
  | EvSetPersistentValue _ _ => true
  | _ => false
  end.

(** How often a write of the store was attempted. *)
Definition persistAttempts (events : list Event) : nat :=
  length (List.filter isPersist events).

(** The watermark that a stored string stands for: zero when there is none
    or when it is not a number. *)
Definition parsedState (s : string) : Z :=
  if String.eqb s "" then 0
  else match NewBugs.Atoi s with
       | Ok n => n
       | Err _ => 0
       end.

(** The first error wins: the cycle's, else the one of the write. *)
Definition firstError (cycleErr persistErr : option error) : option error :=
  match cycleErr with
  | Some e => Some e
  | None => persistErr
  end.

(** The same bug with another severity. *)
Definition withSeverity (severity : string) (bug : Bug) : Bug :=
  {| ID := ID bug; AssignedTo := AssignedTo bug; Component := Component bug;
     Keywords := Keywords bug; Whiteboard := Whiteboard bug; Severity := severity;
     Priority := Priority bug; TargetRelease := TargetRelease bug; Status := Status bug;
     Flags := Flags bug; Escalation := Escalation bug; ExternalBugs := ExternalBugs bug;
     Summary := Summary bug |}.

End Rules.

(** * Sample inputs *)

Module Samples.

Definition bug (id : Z) (assignee : string) : Bug :=
  {| ID := id; AssignedTo := assignee; Component := ["apiserver"]; Keywords := [];
     Whiteboard := ""; Severity := "high"; Priority := "high";
     TargetRelease := ["4.6"]; Status := "ASSIGNED"; Flags := []; Escalation := "";
     ExternalBugs := []; Summary := "" |}.

(** An untriaged bug of alice's, without a blocker flag. *)
Definition untriaged : Bug :=
  {| ID := 1; AssignedTo := "alice"; Component := ["apiserver"]; Keywords := [];
     Whiteboard := ""; Severity := "high"; Priority := "unspecified";
     TargetRelease := ["4.6"]; Status := "NEW"; Flags := []; Escalation := "";
     ExternalBugs := []; Summary := "untriaged" |}.

(** A triaged bug of bob's, flagged blocker+ for the current release. *)
Definition blocker : Bug :=
  {| ID := 2; AssignedTo := "bob"; Component := ["apiserver"]; Keywords := [];
     Whiteboard := ""; Severity := "high"; Priority := "high";
     TargetRelease := ["4.6"]; Status := "ASSIGNED";
     Flags := [ {| Flag_Name := "blocker"; Flag_Status := "+" |} ]; Escalation := "";
     ExternalBugs := []; Summary := "blocker" |}.

(** An escalated bug of high severity, in a component that the
    configuration does not know. *)
Definition escalatedHigh (id : Z) : Bug :=
  {| ID := id; AssignedTo := "alice"; Component := ["etcd"]; Keywords := [];
     Whiteboard := ""; Severity := "high"; Priority := "high";
     TargetRelease := ["4.6"]; Status := "NEW"; Flags := []; Escalation := "Yes";
     ExternalBugs := []; Summary := "escalated" |}.

(** A bug that was just filed. *)
Definition newBug (id : Z) : Bug :=
  {| ID := id; AssignedTo := "alice"; Component := ["apiserver"]; Keywords := [];
     Whiteboard := ""; Severity := "unspecified"; Priority := "unspecified";
     TargetRelease := []; Status := "NEW"; Flags := []; Escalation := "";
     ExternalBugs := []; Summary := "new" |}.

(** The new bugs with the identifiers [first], ..., [first + n - 1]. *)
Definition newBugsFrom (first : Z) (n : nat) : list Bug :=
  map (λ i, newBug (first + Z.of_nat i)) (seq 0 n).

(** A world whose store holds a watermark for the component [apiserver]. *)
Definition worldWithWatermark (s : string) : World :=
  {| store := {[ "new-bug-reporter.state-apiserver" := s ]}; trace := [] |}.

(** Services of which only the read of the store fails. *)
Definition failingRead : Env :=
  {| tracker := Tracker.search [];
     getFailure := λ _, Some "store unavailable";
     setFailure := λ _ _, None;
     channelFailure := λ _, None;
     emailFailure := λ _ _, None |}.

(** A tracker that is down and a store that refuses writes. *)
Definition allFailing : Env :=
  {| tracker := λ _, Err "tracker down";
     getFailure := λ _, None;
     setFailure := λ _ _, Some "store full";
     channelFailure := λ _, None;
     emailFailure := λ _ _, None |}.

(** A component led by carol, with seven developers. *)
Definition teamConfig : OperatorConfig :=
  {| Release := {| CurrentTargetRelease := "4.6"; TargetReleases := ["4.6"] |};
     Components :=
       {[ "etcd" := {| Lead := "carol";
                       Developers := ["d1"; "d2"; "d3"; "d4"; "d5"; "d6"; "d7"] |} ]};
     Groups := ∅ |}.

(** An expansion of groups for configurations without groups. *)
Definition noGroups (_ : gmap string (list string)) (roots : list string) : gset string :=
  list_to_set roots.

Definition config : OperatorConfig :=
  {| Release := {| CurrentTargetRelease := "4.6"; TargetReleases := ["4.6"; "4.5"] |};
     Components := ∅;
     Groups := ∅ |}.

End Samples.

(** * The guard of the chat commands ([auth]) *)

Module Auth.

(** What the event of a request carries: the name and the identifier of the
    user who sent it. *)
Record Request := mkRequest {
  Username : string;
  User : string
}.

(** What a guarded handler does to its surroundings. *)
Inductive Action :=
| Reply (text : string)
| GetUserInfo (user : string)
| LogError (err : error)
| LogDenied (email : string)
| Handled (what : string).

Section Auth.

(** [config.ExpandGroups] and [slack.SlackEmailToBugzilla], from packages
    outside the sources at hand, and the chat service's answer to
    [GetUserInfo]: the e-mail address of the profile, or an error. *)
Variable ExpandGroups : gmap string (list string) -> list string -> gset string.
Variable SlackEmailToBugzilla : OperatorConfig -> string -> string.
Variable userInfo : string -> result error string.

(** The [denied] closure. *)
Definition denied (req : Request) : Action :=
  Reply ("Permission denied: User " +:+ quoted (Username req) +:+ " ("
         +:+ quoted (User req) +:+ ") does not have permission to run this command").

(** [auth cfg handler restrictedTo...], applied to a request. *)
Definition auth (cfg : OperatorConfig) (handler : Request -> list Action)
    (restrictedTo : list string) (req : Request) : list Action :=
  let users := ExpandGroups (Groups cfg) restrictedTo in
  if Nat.eqb (String.length (Username req)) 0 || negb (Has users (Username req)) then
    GetUserInfo (User req) ::
    match userInfo (User req) with
    | Err err => [denied req; LogError err]
    | Ok email =>
      if Nat.eqb (String.length email) 0
         || negb (Has users (SlackEmailToBugzilla cfg email))
      then [denied req; LogDenied email]
      else handler req
    end
  else handler req.

End Auth.
End Auth.

(** * More of the rules, for the properties below *)

Module Vocabulary.

Import Rules.

(** Urgent by priority or by severity. *)
Definition isUrgent (b : Bug) : Prop := Priority b = "urgent" ∨ Severity b = "urgent".

(** Slated against the reference release, or against none. *)
Definition inRelease (reference : string) (b : Bug) : Prop :=
  resolvedRelease b = reference ∨ resolvedRelease b = "---".

(** Still to be triaged. *)
Definition needsTriage (reference : string) (b : Bug) : Prop :=
  (resolvedRelease b = reference ∧ (Status b = "NEW" ∨ Status b = ""))
  ∨ resolvedRelease b = "---"
  ∨ Priority b = "unspecified" ∨ Priority b = ""
  ∨ Severity b = "unspecified" ∨ Severity b = "".

Definition lacksUpcomingSprint (b : Bug) : Prop := "UpcomingSprint" ∉ Keywords b.

Definition isStale (b : Bug) : Prop :=
  Is_true (strings_Contains (Whiteboard b) "LifecycleStale").

#[global] Instance isUrgent_dec b : Decision (isUrgent b).
Proof. unfold isUrgent. apply _. Defined.

#[global] Instance inRelease_dec reference b : Decision (inRelease reference b).
Proof. unfold inRelease. apply _. Defined.

#[global] Instance needsTriage_dec reference b : Decision (needsTriage reference b).
Proof. unfold needsTriage. apply _. Defined.

#[global] Instance lacksUpcomingSprint_dec b : Decision (lacksUpcomingSprint b).
Proof. unfold lacksUpcomingSprint. apply _. Defined.

#[global] Instance isStale_dec b : Decision (isStale b).
Proof. unfold isStale. apply _. Defined.

(** How many elements of a list satisfy a property, as a Go [int]. *)
Definition count {A} (P : A → Prop) `{∀ x, Decision (P x)} (l : list A) : Z :=
  len (filter P l).

(** The bug of an identifier is assigned to this person. *)
Definition assignedTo (byID : gmap Z Bug) (person : string) (id : Z) : Prop :=
  ∃ b, byID !! id = Some b ∧ AssignedTo b = person.

#[global] Instance assignedTo_dec byID person id : Decision (assignedTo byID person id).
Proof.
  unfold assignedTo. destruct (byID !! id) as [b|].
  - destruct (decide (AssignedTo b = person)) as [Heq|Hne].
    + left. by exists b.
    + right. intros (b' & [= <-] & Hb). done.
  - right. by intros (b' & [=] & _).
Defined.

(** The primary component of an escalated bug and what the configuration
    says of it. *)
Definition leadOf (cfg : OperatorConfig) (b : Bug) : string :=
  match Component b with
  | [] => ""
  | c :: _ => match Components cfg !! c with
              | Some comp => Lead comp
              | None => ""
              end
  end.

(** The bug is eligible and its primary component has this lead. *)
Definition attributedTo (cfg : OperatorConfig) (lead : string) (b : Bug) : Prop :=
  eligible b ∧ leadOf cfg b = lead.

#[global] Instance attributedTo_dec cfg lead b : Decision (attributedTo cfg lead b).
Proof. unfold attributedTo. apply _. Defined.

(** The bug is eligible and its primary component is not configured. *)
Definition unconfigured (cfg : OperatorConfig) (c : string) (b : Bug) : Prop :=
  eligible b ∧ head (Component b) = Some c ∧ Components cfg !! c = None.

(** Every list stored in the map has an element, and is stored under one of
    the five keys. *)
Definition wellKeyed (m : gmap string (list Z)) : Prop :=
  ∀ k l, m !! k = Some l →
         l ≠ [] ∧ k ∈ Blockers.seriousKeywords ++ ["blocker+"; "blocker?"].

(** Every list stored in a map of groups has an element. *)
Definition noEmptyGroup {A} (m : gmap string (list A)) : Prop :=
  ∀ k l, m !! k = Some l → l ≠ [].

(** The e-mails that a notification round owes to the groups: one to every
    person with at least one line. *)
Definition mailsOf (intro : Z → string → string) (suffix outro : string)
    (groups : list (string * list string)) : list Event :=
  flat_map (λ '(person, lines),
              match lines with
              | [] => []
              | _ => [EvMessageEmail person
                        (intro (len lines) suffix +:+ strings_Join lines nl +:+ outro)]
              end)
           groups.

(** What notifying one group asks of the chat service and of the recorder. *)
Definition notificationOf (env : Env) (intro : Z → string → string)
    (suffix outro : string) (group : string * list string) : list Event :=
  let '(person, lines) := group in
  match lines with
  | [] => []
  | _ =>
    let message := intro (len lines) suffix +:+ strings_Join lines nl +:+ outro in
    EvMessageEmail person message ::
    match emailFailure env person message with
    | Some err =>
      [EvWarning "DeliveryFailed"
         ("Failed to deliver:" +:+ nl +:+ nl +:+ message +:+ nl +:+ nl +:+ " to "
          +:+ quoted person +:+ ": " +:+ err)]
    | None => []
    end
  end.

Definition isWarning (e : Event) : bool :=
  match e with
  | EvWarning _ _ => true
  | _ => false
  end.

Definition isEmail (e : Event) : bool :=
  match e with
  | EvMessageEmail _ _ => true
  | _ => false
  end.

Definition isChannel (e : Event) : bool :=
  match e with
  | EvMessageChannel _ => true
  | _ => false
  end.

(** The request may run the command: by the name of its user, or by the
    address that the chat service knows for its user. *)
Definition authorized (users : gset string) (mapped : string → string)
    (userInfo : string → result error string) (req : Auth.Request) : Prop :=
  (Auth.Username req ≠ "" ∧ Auth.Username req ∈ users)
  ∨ (∃ email, userInfo (Auth.User req) = Ok email ∧ email ≠ "" ∧ mapped email ∈ users).

End Vocabulary.

(** * More sample inputs *)

Module MoreSamples.

(** A tracker that is down, with a store and a chat service that work. *)
Definition trackerDown : Env :=
  {| tracker := λ _, Err "tracker down";
     getFailure := λ _, None;
     setFailure := λ _ _, None;
     channelFailure := λ _, None;
     emailFailure := λ _ _, None |}.

(** A tracker that cannot be reached; the text of the error quotes the
    address, which has an escaped comma in it. *)
Definition unreachable : error :=
  "Get https://bugzilla.redhat.com/rest/bug?id=1%2C2: EOF".

Definition trackerUnreachable : Env :=
  {| tracker := λ _, Err unreachable;
     getFailure := λ _, None;
     setFailure := λ _ _, None;
     channelFailure := λ _, None;
     emailFailure := λ _ _, None |}.

(** A bug that blocks testing. *)
Definition testBlocker : Bug :=
  {| ID := 7; AssignedTo := "alice"; Component := ["apiserver"];
     Keywords := ["TestBlocker"]; Whiteboard := ""; Severity := "high";
     Priority := "high"; TargetRelease := ["4.6"]; Status := "ASSIGNED"; Flags := [];
     Escalation := ""; ExternalBugs := []; Summary := "test blocker" |}.

(** Requests of alice, who may run the command, and of mallory, who may
    not; the chat service knows neither. *)
Definition aliceAsks : Auth.Request := {| Auth.Username := "alice"; Auth.User := "U1" |}.
Definition malloryAsks : Auth.Request := {| Auth.Username := "mallory"; Auth.User := "U2" |}.
Definition nobodyKnown (_ : string) : result error string := Err "user_not_found".
Definition sameAddress (_ : OperatorConfig) (email : string) : string := email.
Definition handler (_ : Auth.Request) : list Auth.Action := [Auth.Handled "done"].

End MoreSamples.

(** * Properties *)

(** ** Maps of slices *)

Lemma at_key_append_at_eq {A} (m : gmap string (list A)) k x :
  at_key (append_at m k x) k = at_key m k ++ [x].
Proof. unfold at_key at 1, append_at. by rewrite lookup_insert_eq. Qed.

Lemma at_key_append_at_ne {A} (m : gmap string (list A)) k k' x :
  k ≠ k' → at_key (append_at m k x) k' = at_key m k'.
Proof. intros Hne. unfold at_key, append_at. by rewrite lookup_insert_ne. Qed.

Lemma at_key_append_at {A} (m : gmap string (list A)) k k' x :
  at_key (append_at m k x) k' = at_key m k' ++ (if bool_decide (k = k') then [x] else []).
Proof.
  case_bool_decide as Hk.
  - subst. apply at_key_append_at_eq.
  - rewrite at_key_append_at_ne by done. by rewrite app_nil_r.
Qed.

Lemma at_key_empty {A} k : at_key (∅ : gmap string (list A)) k = [].
Proof. unfold at_key. by rewrite lookup_empty. Qed.

Lemma eqb_bool_decide (a b : string) : String.eqb a b = bool_decide (a = b).
Proof.
  destruct (String.eqb_spec a b); symmetry;
    [by apply bool_decide_eq_true | by apply bool_decide_eq_false].
Qed.

(** ** The blockers classifier *)

Module BlockersClassifier.
Section Classifier.

Import Blockers Rules.

Variable FormatBugMessage : Bug -> string.

Lemma hasFlag_carriesFlag bug name value :
  hasFlag bug name value = bool_decide (carriesFlag bug name value).
Proof.
  apply eq_true_iff_eq. rewrite bool_decide_eq_true.
  unfold hasFlag, carriesFlag. rewrite existsb_exists, Exists_exists.
  split; intros [f [Hin Hf]]; exists f.
  - apply andb_true_iff in Hf as [Hn Hv].
    apply String.eqb_eq in Hn, Hv. by rewrite list_elem_of_In.
  - destruct Hf as [Hn Hv]. rewrite <- list_elem_of_In. split; [done|].
    apply andb_true_iff. by rewrite !String.eqb_eq.
Qed.

Lemma targetReleaseOf_resolved bug : targetReleaseOf bug = resolvedRelease bug.
Proof. unfold targetReleaseOf, resolvedRelease. by destruct (TargetRelease bug). Qed.

Lemma gate_blockerGate value reference bug :
  hasFlag bug "blocker" value
  && (String.eqb (targetReleaseOf bug) reference || String.eqb (targetReleaseOf bug) "---")
  = bool_decide (blockerGate value reference bug).
Proof.
  rewrite hasFlag_carriesFlag, !eqb_bool_decide, targetReleaseOf_resolved.
  apply eq_true_iff_eq. unfold blockerGate.
  rewrite andb_true_iff, orb_true_iff, !bool_decide_eq_true. done.
Qed.

(** The serious keywords leave the two synthetic keys alone. *)
Lemma seriousKeywords_other (keywords : gset string) (id : Z) m k :
  k ∉ seriousKeywords →
  at_key (fold_left (fun m keyword =>
                       if Has keywords keyword then append_at m keyword id else m)
                    seriousKeywords m) k
  = at_key m k.
Proof.
  intros Hk. revert m.
  induction seriousKeywords as [|kw kws IH]; intros m; simpl; [done|].
  rewrite IH by (intros ?; apply Hk; by right).
  destruct (Has keywords kw); [|done].
  apply at_key_append_at_ne. intros ->. apply Hk. by left.
Qed.

Lemma summarizeBug_blockers reference r bug :
  blockerPlusIDs (summarizeBug FormatBugMessage reference r bug)
  = blockerPlusIDs r
    ++ (if bool_decide (blockerGate "+" reference bug) then [ID bug] else [])
  ∧ at_key (seriousIDs (summarizeBug FormatBugMessage reference r bug)) "blocker+"
    = at_key (seriousIDs r) "blocker+"
      ++ (if bool_decide (blockerGate "+" reference bug) then [ID bug] else [])
  ∧ blockerQuestionmarkIDs (summarizeBug FormatBugMessage reference r bug)
    = blockerQuestionmarkIDs r
      ++ (if bool_decide (blockerGate "?" reference bug) then [ID bug] else [])
  ∧ at_key (seriousIDs (summarizeBug FormatBugMessage reference r bug)) "blocker?"
    = at_key (seriousIDs r) "blocker?"
      ++ (if bool_decide (blockerGate "?" reference bug) then [ID bug] else []).
Proof.
  unfold summarizeBug; cbn [blockerPlusIDs blockerQuestionmarkIDs seriousIDs].
  rewrite !gate_blockerGate. unfold append_if.
  assert (Hplus : "blocker+" ∉ seriousKeywords)
    by (unfold seriousKeywords; rewrite !not_elem_of_cons; repeat split; try done;
        apply not_elem_of_nil).
  assert (Hq : "blocker?" ∉ seriousKeywords)
    by (unfold seriousKeywords; rewrite !not_elem_of_cons; repeat split; try done;
        apply not_elem_of_nil).
  destruct (bool_decide (blockerGate "+" reference bug));
    destruct (bool_decide (blockerGate "?" reference bug));
    rewrite ?app_nil_r;
    repeat split; try done;
    rewrite ?at_key_append_at_eq, ?(at_key_append_at_ne _ "blocker?" "blocker+") by done;
    rewrite ?at_key_append_at_eq, ?(at_key_append_at_ne _ "blocker+" "blocker?") by done;
    rewrite ?at_key_append_at_eq, ?seriousKeywords_other by done;
    by rewrite ?app_nil_r.
Qed.

End Classifier.
End BlockersClassifier.

Module BlockersClassifierRuns.
Section Runs.

Import Blockers Rules BlockersClassifier.

Variable FormatBugMessage : Bug -> string.

Lemma fold_summarizeBug_blockers reference bugs r :
  let r' := fold_left (summarizeBug FormatBugMessage reference) bugs r in
  blockerPlusIDs r'
  = blockerPlusIDs r ++ (ID <$> filter (blockerGate "+" reference) bugs)
  ∧ at_key (seriousIDs r') "blocker+"
    = at_key (seriousIDs r) "blocker+" ++ (ID <$> filter (blockerGate "+" reference) bugs)
  ∧ blockerQuestionmarkIDs r'
    = blockerQuestionmarkIDs r ++ (ID <$> filter (blockerGate "?" reference) bugs)
  ∧ at_key (seriousIDs r') "blocker?"
    = at_key (seriousIDs r) "blocker?" ++ (ID <$> filter (blockerGate "?" reference) bugs).
Proof.
  revert r. induction bugs as [|bug bugs IH]; intros r; simpl.
  - by rewrite !app_nil_r.
  - destruct (IH (summarizeBug FormatBugMessage reference r bug)) as (H1 & H2 & H3 & H4).
    destruct (summarizeBug_blockers FormatBugMessage reference r bug)
      as (S1 & S2 & S3 & S4).
    rewrite H1, H2, H3, H4, S1, S2, S3, S4, !filter_cons.
    repeat case_bool_decide; repeat case_decide; try done;
      by rewrite <- ?app_assoc, ?app_nil_r.
Qed.

(** C9.  For every issue, whatever was classified before it, its identifier
    is appended to the blocker+ bucket and under the key "blocker+" of the
    serious-keyword map exactly when it carries the flag blocker=+ and its
    resolved release is the reference release or the sentinel; likewise for
    blocker? with the flag blocker=?.  Over a whole list the buckets are the
    identifiers of the issues that pass the gate, in order.  An issue without
    a target release resolves to the sentinel, so the flag alone decides. *)
Theorem blocker_buckets_follow_the_gate (reference : string) (r : bugSummary)
    (bug : Bug) (bugs : list Bug) (value : string) :
  let r' := summarizeBug FormatBugMessage reference r bug in
  let all := summarizeBugs FormatBugMessage reference bugs in
  let added v := if bool_decide (blockerGate v reference bug) then [ID bug] else [] in
  (blockerPlusIDs r' = blockerPlusIDs r ++ added "+"
   ∧ at_key (seriousIDs r') "blocker+" = at_key (seriousIDs r) "blocker+" ++ added "+"
   ∧ blockerQuestionmarkIDs r' = blockerQuestionmarkIDs r ++ added "?"
   ∧ at_key (seriousIDs r') "blocker?" = at_key (seriousIDs r) "blocker?" ++ added "?")
  ∧ (blockerPlusIDs all = ID <$> filter (blockerGate "+" reference) bugs
     ∧ at_key (seriousIDs all) "blocker+" = ID <$> filter (blockerGate "+" reference) bugs
     ∧ blockerQuestionmarkIDs all = ID <$> filter (blockerGate "?" reference) bugs
     ∧ at_key (seriousIDs all) "blocker?" = ID <$> filter (blockerGate "?" reference) bugs)
  ∧ (resolvedRelease (withoutTargetRelease bug) = "---"
     ∧ bool_decide (blockerGate value reference (withoutTargetRelease bug))
       = bool_decide (carriesFlag bug "blocker" value)).
Proof.
  cbn zeta. split; [apply summarizeBug_blockers|]. split.
  - destruct (fold_summarizeBug_blockers reference bugs emptySummary) as (H1 & H2 & H3 & H4).
    unfold summarizeBugs. rewrite H1, H2, H3, H4. simpl. by rewrite at_key_empty.
  - split; [done|].
    apply eq_true_iff_eq. rewrite !bool_decide_eq_true.
    unfold blockerGate, carriesFlag, resolvedRelease. simpl. tauto.
Qed.

End Runs.
End BlockersClassifierRuns.

(** ** The per-person grouping of the blockers reporter *)

Module BlockersGrouping.
Section Grouping.

Import Blockers.

Variable FormatBugMessage : Bug -> string.
Variable queryURL : Query -> string.

(** With an empty index every identifier is skipped. *)
Lemma perPerson_loop_empty lines ids i acc1 acc2 :
  perPerson_loop ∅ lines i ids acc1 acc2 = Some (acc1, acc2).
Proof.
  revert i. induction ids as [|id ids IH]; intros i; simpl; [done|].
  rewrite lookup_empty. apply IH.
Qed.

Lemma perPerson_empty ids lines : perPerson ∅ ids lines = Some (∅, ∅).
Proof. apply perPerson_loop_empty. Qed.

(** What [sync] hands to the blocker+ notification is the grouping of the
    to-triage bucket. *)
Lemma groupPerPerson_blockerPlus bugs summary g :
  groupPerPerson bugs summary = Some g →
  perPerson (indexByID bugs) (toTriageIDs summary) (toTriage summary)
  = Some (perPersonBlockerPlusIDs g, perPersonBlockerPlus g)
  ∧ perPersonBlockerPlusIDs g = perPersonToTriageIDs g
  ∧ perPersonBlockerPlus g = perPersonToTriage g.
Proof.
  unfold groupPerPerson. cbn zeta.
  destruct (perPerson (indexByID bugs) (toTriageIDs summary) (toTriage summary))
    as [[ids lines]|]; simpl.
  - destruct (perPerson (indexByID bugs) (urgentIDs summary) (urgent summary))
      as [[uids ulines]|]; simpl.
    + by intros [= <-].
    + done.
  - done.
Qed.


(** C2.  Whenever the search succeeds, however many bugs it found, [Report]
    hands back the summary of these bugs and no bug at all; the index that
    [sync] builds from its answer is empty, the grouper skips every
    identifier, and the six per-person maps are empty. *)
Theorem Report_returns_no_bugs (env : Env) (config : OperatorConfig)
    (components : list string) (w : World) (found : list Bug) :
  tracker env (getBugsQuery components ("---" :: TargetReleases (Release config)))
  = Ok found →
  ∃ report w',
    Report FormatBugMessage queryURL env config components w
    = (Ok (report, summarizeBugs FormatBugMessage
                     (CurrentTargetRelease (Release config)) found, []), w')
    ∧ indexByID [] = ∅
    ∧ (∀ ids lines, perPerson (indexByID []) ids lines = Some (∅, ∅))
    ∧ groupPerPerson []
        (summarizeBugs FormatBugMessage (CurrentTargetRelease (Release config)) found)
      = Some {| perPersonToTriageIDs := ∅; perPersonToTriage := ∅;
                perPersonBlockerPlusIDs := ∅; perPersonBlockerPlus := ∅;
                perPersonUrgentIDs := ∅; perPersonUrgent := ∅ |}.
Proof.
  intros Hfound.
  unfold Report, Search, mbind, M_bind, mret, M_ret, emit. cbn zeta.
  rewrite Hfound. eexists _, _. split; [reflexivity|].
  split; [done|]. split; [intros; apply perPerson_empty|].
  unfold groupPerPerson. cbn zeta. change (indexByID []) with (∅ : gmap Z Bug).
  by rewrite !perPerson_empty.
Qed.

End Grouping.
End BlockersGrouping.

(** ** The escalation aggregator *)

Module EscalationVerdicts.
Section Verdicts.

Import Escalation Rules.

Lemma customerCases_hasCustomerCase b :
  customerCases b = bool_decide (hasCustomerCase b).
Proof.
  apply eq_true_iff_eq. rewrite bool_decide_eq_true.
  unfold customerCases, hasCustomerCase. rewrite existsb_exists, Exists_exists.
  split; intros [eb [Hin Heb]]; exists eb.
  - apply String.eqb_eq in Heb. by rewrite list_elem_of_In.
  - rewrite <- list_elem_of_In. split; [done|]. by apply String.eqb_eq.
Qed.

Lemma escalated_eligible b : escalated b = bool_decide (eligible b).
Proof.
  unfold escalated, escalationFlag, eligible.
  rewrite customerCases_hasCustomerCase, !eqb_bool_decide.
  apply eq_true_iff_eq.
  rewrite !orb_true_iff, !andb_true_iff, !bool_decide_eq_true. tauto.
Qed.

Lemma silencedCondition_downRanked b :
  silencedCondition b = bool_decide (downRanked b).
Proof.
  unfold silencedCondition, downRanked. rewrite !eqb_bool_decide.
  apply eq_true_iff_eq.
  rewrite andb_true_iff, negb_true_iff, !bool_decide_eq_true, bool_decide_eq_false.
  done.
Qed.

(** One turn of the loop. *)
Lemma classify_assigned cfg v b a :
  at_key (assigned (classify cfg v b)) a
  = at_key (assigned v) a
    ++ (if bool_decide (eligible b ∧ AssignedTo b = a) then [b] else []).
Proof.
  unfold classify. rewrite escalated_eligible.
  destruct (decide (eligible b)) as [He|He].
  - rewrite (bool_decide_eq_true_2 _ He).
    assert (Hgoal : at_key (append_at (assigned v) (AssignedTo b) b) a
      = at_key (assigned v) a
        ++ (if bool_decide (eligible b ∧ AssignedTo b = a) then [b] else [])).
    { rewrite at_key_append_at.
      destruct (decide (AssignedTo b = a)) as [Ha|Ha].
      - by rewrite !bool_decide_eq_true_2.
      - rewrite !bool_decide_eq_false_2; [done| tauto | done]. }
    by destruct (Component b).
  - rewrite (bool_decide_eq_false_2 _ He).
    rewrite (bool_decide_eq_false_2 (eligible b ∧ _)) by tauto.
    rewrite app_nil_r. by destruct (silencedCondition b).
Qed.

Lemma classify_silenced cfg v b :
  silenced (classify cfg v b)
  = silenced v ++ (if bool_decide (¬ eligible b ∧ downRanked b) then [b] else []).
Proof.
  unfold classify. rewrite escalated_eligible, silencedCondition_downRanked.
  destruct (decide (eligible b)) as [He|He].
  - rewrite (bool_decide_eq_true_2 _ He).
    rewrite (bool_decide_eq_false_2 (_ ∧ _)) by tauto.
    rewrite app_nil_r. by destruct (Component b).
  - rewrite (bool_decide_eq_false_2 _ He).
    destruct (decide (downRanked b)) as [Hd|Hd].
    + by rewrite !bool_decide_eq_true_2.
    + rewrite !bool_decide_eq_false_2; [by rewrite app_nil_r | tauto | done].
Qed.

Lemma fold_classify cfg bugs v a :
  let v' := fold_left (classify cfg) bugs v in
  at_key (assigned v') a
  = at_key (assigned v) a ++ filter (λ b, eligible b ∧ AssignedTo b = a) bugs
  ∧ silenced v' = silenced v ++ filter (λ b, ¬ eligible b ∧ downRanked b) bugs.
Proof.
  revert v. induction bugs as [|b bugs IH]; intros v; simpl.
  - by rewrite !app_nil_r.
  - destruct (IH (classify cfg v b)) as [H1 H2].
    rewrite H1, H2, classify_assigned, classify_silenced, !filter_cons.
    split; repeat case_bool_decide; repeat case_decide; try tauto;
      by rewrite <- ?app_assoc, ?app_nil_r.
Qed.

(** The buckets after the loop: the eligible bugs of each assignee and the
    down-ranked ones that are not eligible, in the order of the input. *)
Lemma classifyAll_buckets cfg bugs a :
  at_key (assigned (classifyAll cfg bugs)) a
  = filter (λ b, eligible b ∧ AssignedTo b = a) bugs
  ∧ silenced (classifyAll cfg bugs) = filter (λ b, ¬ eligible b ∧ downRanked b) bugs.
Proof.
  destruct (fold_classify cfg bugs noVerdicts a) as [H1 H2].
  unfold classifyAll. rewrite H1, H2. simpl. by rewrite at_key_empty.
Qed.

(** C4.  An issue of the input is under its assignee in [assigned] exactly
    when it is eligible (escalation indicator "Yes", or a customer case with
    priority urgent, or a customer case with severity urgent and priority
    unspecified), and in [silenced] exactly when it is not eligible, of
    severity urgent and of a priority other than unspecified. *)
Theorem escalation_verdicts (cfg : OperatorConfig) (bugs : list Bug) (b : Bug) :
  b ∈ bugs →
  (b ∈ at_key (assigned (classifyAll cfg bugs)) (AssignedTo b) ↔ eligible b)
  ∧ (b ∈ silenced (classifyAll cfg bugs) ↔ ¬ eligible b ∧ downRanked b).
Proof.
  intros Hin.
  destruct (classifyAll_buckets cfg bugs (AssignedTo b)) as [-> ->].
  rewrite !list_elem_of_filter. tauto.
Qed.

End Verdicts.
End EscalationVerdicts.

Lemma escalation_verdicts_witness :
  let bugs := [Samples.escalatedHigh 1; Rules.withSeverity "urgent" (Samples.bug 2 "bob")] in
  Samples.escalatedHigh 1 ∈ bugs
  ∧ (Samples.escalatedHigh 1
       ∈ at_key (Escalation.assigned (Escalation.classifyAll Samples.config bugs)) "alice"
     ↔ Rules.eligible (Samples.escalatedHigh 1))
  ∧ (Samples.escalatedHigh 1 ∈ Escalation.silenced (Escalation.classifyAll Samples.config bugs)
     ↔ ¬ Rules.eligible (Samples.escalatedHigh 1)
       ∧ Rules.downRanked (Samples.escalatedHigh 1)).
Proof.
  cbn zeta. split; [apply list_elem_of_here|].
  apply (EscalationVerdicts.escalation_verdicts Samples.config
           [Samples.escalatedHigh 1; Rules.withSeverity "urgent" (Samples.bug 2 "bob")]
           (Samples.escalatedHigh 1)).
  apply list_elem_of_here.
Defined.

(** ** The escalation report *)

Module EscalationReport.
Section Report.

Import Escalation Rules.

Variable GetBugURL : Bug -> string.
Variable ExpandGroups : gmap string (list string) -> list string -> gset string.

(** C10.  Whenever the search succeeds and the loop leaves both the per-lead
    map and the silenced list empty, [Report] returns the empty text,
    whatever [assigned] holds: after the search it has at most told the
    administrators of missing components, and [sync] sends nothing to the
    channel. *)
Theorem Report_empty_without_leads_and_silenced (env : Env) (slack : bool)
    (cfg : OperatorConfig) (components : list string) (w : World) (found : list Bug) :
  tracker env (getSeverityUrgentBugsQuery components) = Ok found →
  leadsBugs (classifyAll cfg found) = ∅ →
  silenced (classifyAll cfg found) = [] →
  let missing := missingComponents (classifyAll cfg found) in
  let told :=
    if Z.ltb 0 (Z.of_nat (size missing)) && slack
    then [EvMessageAdminChannel
            ("Missing components in config: " +:+ strings_Join (sorted_List missing) ", ")]
    else [] in
  Report GetBugURL ExpandGroups env slack cfg components w
  = (Ok "", {| store := store w;
               trace := (trace w ++ [EvSearch (getSeverityUrgentBugsQuery components)])
                        ++ told |})
  ∧ sync GetBugURL ExpandGroups env cfg components w
    = (None, snd (Report GetBugURL ExpandGroups env true cfg components w)).
Proof.
  intros Hfound Hleads Hsilenced.
  assert (HR : ∀ slack',
    Report GetBugURL ExpandGroups env slack' cfg components w
    = (Ok "", {| store := store w;
                 trace := (trace w ++ [EvSearch (getSeverityUrgentBugsQuery components)])
                   ++ (if Z.ltb 0 (Z.of_nat (size (missingComponents (classifyAll cfg found))))
                          && slack'
                       then [EvMessageAdminChannel
                               ("Missing components in config: "
                                +:+ strings_Join
                                      (sorted_List (missingComponents (classifyAll cfg found)))
                                      ", ")]
                       else []) |})).
  { intros slack'.
    unfold Report, getSeverityUrgentBugs, Search, MessageAdminChannel,
      mbind, M_bind, mret, M_ret, emit.
    cbn. rewrite Hfound, Hleads, Hsilenced. cbn.
    rewrite map_size_empty.
    unfold len. simpl.
    destruct (Z.ltb 0 _ && slack'); simpl; [done|by rewrite app_nil_r]. }
  cbn zeta. split; [apply HR|].
  unfold sync, mbind, M_bind, mret, M_ret. by rewrite HR.
Qed.

End Report.
End EscalationReport.

Lemma Report_empty_witness :
  let found := [Samples.escalatedHigh 1; Samples.escalatedHigh 2] in
  let env := Tracker.reliable found in
  let GetBugURL := λ b : Bug, "#" +:+ Itoa (ID b) in
  let ExpandGroups := λ (_ : gmap string (list string)) (l : list string),
                        (list_to_set l : gset string) in
  tracker env (Escalation.getSeverityUrgentBugsQuery ["etcd"]) = Ok found
  ∧ Escalation.leadsBugs (Escalation.classifyAll Samples.config found) = ∅
  ∧ Escalation.silenced (Escalation.classifyAll Samples.config found) = []
  ∧ at_key (Escalation.assigned (Escalation.classifyAll Samples.config found)) "alice"
    = found
  ∧ fst (Escalation.Report GetBugURL ExpandGroups env true Samples.config ["etcd"]
           Tracker.newWorld) = Ok ""
  ∧ Escalation.sync GetBugURL ExpandGroups env Samples.config ["etcd"] Tracker.newWorld
    = (None, snd (Escalation.Report GetBugURL ExpandGroups env true Samples.config ["etcd"]
                    Tracker.newWorld)).
Proof.
  cbn zeta.
  assert (H1 : tracker (Tracker.reliable [Samples.escalatedHigh 1; Samples.escalatedHigh 2])
                 (Escalation.getSeverityUrgentBugsQuery ["etcd"])
               = Ok [Samples.escalatedHigh 1; Samples.escalatedHigh 2])
    by (vm_compute; reflexivity).
  assert (H2 : Escalation.leadsBugs
                 (Escalation.classifyAll Samples.config
                    [Samples.escalatedHigh 1; Samples.escalatedHigh 2]) = ∅)
    by (vm_compute; reflexivity).
  assert (H3 : Escalation.silenced
                 (Escalation.classifyAll Samples.config
                    [Samples.escalatedHigh 1; Samples.escalatedHigh 2]) = [])
    by (vm_compute; reflexivity).
  split; [exact H1|]. split; [exact H2|]. split; [exact H3|].
  split; [vm_compute; reflexivity|].
  destruct (EscalationReport.Report_empty_without_leads_and_silenced
              (λ b : Bug, "#" +:+ Itoa (ID b))
              (λ (_ : gmap string (list string)) (l : list string),
                 (list_to_set l : gset string))
              _ true Samples.config ["etcd"] Tracker.newWorld _ H1 H2 H3) as [HR HS].
  split; [by rewrite HR | exact HS].
Defined.

(** ** The query of the escalation cycle *)

Module EscalationQuery.

Import Escalation Rules.

(** What the query constrains: the classification, the product, the status
    and the component.  Its severity set is empty and it has no predicate, so
    whether a bug is returned does not depend on its severity. *)
Lemma escalation_query_leaves_severity_open (components : list string)
    (severity : string) (b : Bug) :
  let q := getSeverityUrgentBugsQuery components in
  Classification q = ["Red Hat"]
  ∧ Product q = ["OpenShift Container Platform"]
  ∧ Q_Status q = ["NEW"; "ASSIGNED"; "POST"; "ON_DEV"]
  ∧ Q_Component q = components
  ∧ Q_Severity q = []
  ∧ Q_Priority q = []
  ∧ Q_TargetRelease q = []
  ∧ Advanced q = []
  ∧ Tracker.matches q (withSeverity severity b) = Tracker.matches q b.
Proof. cbn zeta. repeat split. Qed.

(** C3, as stated, fails.  The query of [getSeverityUrgentBugs] has no
    severity set and no predicate.  A tracker that holds one escalated bug
    of severity high answers it with that bug, and the aggregator files the
    bug under its assignee: not every issue the aggregator processes is of
    severity urgent. *)
Lemma escalation_query_admits_other_severities :
  let q := getSeverityUrgentBugsQuery ["etcd"] in
  Q_Severity q = []
  ∧ Advanced q = []
  ∧ ∃ found,
      tracker (Tracker.reliable [Samples.escalatedHigh 1]) q = Ok found
      ∧ ¬ (∀ b, b ∈ found → Severity b = "urgent")
      ∧ at_key (assigned (classifyAll Samples.config found)) "alice" = found.
Proof.
  cbn zeta. split; [reflexivity|]. split; [reflexivity|].
  exists [Samples.escalatedHigh 1].
  split; [vm_compute; reflexivity|]. split; [|vm_compute; reflexivity].
  intros Hall. specialize (Hall (Samples.escalatedHigh 1) (list_elem_of_here _ _)).
  discriminate Hall.
Qed.

(** C3, as amended.  The query of the escalation cycle restricts the
    classification, the product, the status and the component, and leaves
    the severity open: whether the tracker returns an issue does not depend
    on its severity.  The aggregator tests the severity itself: what it
    silences is of severity urgent, and an issue of another severity is
    filed under its assignee exactly when it is escalated or is a customer
    case of urgent priority. *)
Theorem escalation_severity_is_tested_by_the_aggregator (cfg : OperatorConfig)
    (components : list string) (bugs : list Bug) (b : Bug) :
  b ∈ bugs →
  let q := getSeverityUrgentBugsQuery components in
  let v := classifyAll cfg bugs in
  (Classification q = ["Red Hat"]
   ∧ Product q = ["OpenShift Container Platform"]
   ∧ Q_Status q = ["NEW"; "ASSIGNED"; "POST"; "ON_DEV"]
   ∧ Q_Component q = components
   ∧ Q_Severity q = []
   ∧ Advanced q = [])
  ∧ (∀ severity, Tracker.matches q (withSeverity severity b) = Tracker.matches q b)
  ∧ (b ∈ silenced v → Severity b = "urgent")
  ∧ (Severity b ≠ "urgent" →
     (b ∈ at_key (assigned v) (AssignedTo b)
      ↔ (Escalation b = "Yes" ∨ (hasCustomerCase b ∧ Priority b = "urgent")))
     ∧ b ∉ silenced v).
Proof.
  intros Hin q v.
  split; [repeat split|]. split; [done|].
  subst v.
  destruct (EscalationVerdicts.classifyAll_buckets cfg bugs (AssignedTo b)) as [-> ->].
  rewrite !list_elem_of_filter. unfold eligible, downRanked.
  split; [tauto|]. intros Hsev. split; tauto.
Qed.

End EscalationQuery.

Lemma escalation_severity_witness :
  let b := Samples.escalatedHigh 1 in
  let bugs := [b; Rules.withSeverity "urgent" (Samples.bug 2 "bob")] in
  let v := Escalation.classifyAll Samples.config bugs in
  b ∈ bugs
  ∧ Severity b ≠ "urgent"
  ∧ (b ∈ at_key (Escalation.assigned v) (AssignedTo b)
     ↔ (Escalation b = "Yes" ∨ (Rules.hasCustomerCase b ∧ Priority b = "urgent")))
  ∧ (b ∉ Escalation.silenced v)
  ∧ (∀ c, c ∈ Escalation.silenced v → Severity c = "urgent").
Proof.
  cbn zeta.
  assert (H1 : Samples.escalatedHigh 1
               ∈ [Samples.escalatedHigh 1; Rules.withSeverity "urgent" (Samples.bug 2 "bob")])
    by apply list_elem_of_here.
  assert (H2 : Severity (Samples.escalatedHigh 1) ≠ "urgent") by discriminate.
  destruct (EscalationQuery.escalation_severity_is_tested_by_the_aggregator
              Samples.config ["etcd"] _ _ H1) as (_ & _ & _ & Hother).
  destruct (Hother H2) as [Hassigned Hnot].
  split; [exact H1|]. split; [exact H2|]. split; [exact Hassigned|]. split; [exact Hnot|].
  intros c Hc.
  assert (Hc' : c ∈ [Rules.withSeverity "urgent" (Samples.bug 2 "bob")])
    by (vm_compute in Hc; exact Hc).
  apply list_elem_of_singleton in Hc' as ->. reflexivity.
Defined.


(** ** The new-bug cycle *)

Module NewBugsCycle.

Import NewBugs Rules.

Lemma addEvents_addEvents w l1 l2 :
  addEvents (addEvents w l1) l2 = addEvents w (l1 ++ l2).
Proof. unfold addEvents. simpl. by rewrite app_assoc. Qed.

Lemma newEvents_addEvents w l : newEvents w (addEvents w l) = l.
Proof. unfold newEvents, addEvents. simpl. by rewrite drop_app_length. Qed.

(** The loop reads the first [52 - i] bugs that are left. *)
Lemma scan_watermark total i bugs lastID ids :
  (0 ≤ i ≤ 51)%Z →
  fst (scan total i bugs lastID ids) = maxID lastID (take (Z.to_nat (52 - i)) bugs).
Proof.
  revert i lastID ids. induction bugs as [|b bugs IH]; intros i lastID ids Hi.
  - by rewrite take_nil.
  - replace (Z.to_nat (52 - i)) with (S (Z.to_nat (51 - i))) by lia.
    cbn [scan take].
    assert (Hmax : ∀ rest, maxID (if Z.gtb (ID b) lastID then ID b else lastID) rest
                           = maxID lastID (b :: rest)).
    { intros rest. cbn [maxID foldr]. fold (maxID lastID rest).
      induction rest as [|c rest IHr]; cbn [maxID foldr].
      - destruct (Z.gtb_spec (ID b) lastID); lia.
      - fold (maxID (if Z.gtb (ID b) lastID then ID b else lastID) rest).
        fold (maxID lastID rest). lia. }
    destruct (Z.gtb_spec i 50) as [Hbreak|Hgo].
    + replace (Z.to_nat (51 - i)) with 0%nat by lia.
      rewrite take_0. cbn [fst]. apply (Hmax []).
    + rewrite IH by lia.
      replace (52 - (i + 1)) with (51 - i) by lia. apply Hmax.
Qed.

Lemma maxID_ge watermark bugs : (watermark ≤ maxID watermark bugs)%Z.
Proof. induction bugs as [|b bugs IH]; cbn [maxID foldr]; [lia|]. fold (maxID watermark bugs). lia. Qed.

(** What [cycle] does. *)
Lemma cycle_run env components lastID w :
  cycle env components lastID w
  = match tracker env (getNewBugsQuery components lastID) with
    | Err e =>
      ((Some e, lastID),
       addEvents w [EvSearch (getNewBugsQuery components lastID);
                    EvWarning "BuglistFailed" (Sprintf e)])
    | Ok found =>
      ((None, fst (scan (len found) 0 found lastID [])),
       addEvents w [EvSearch (getNewBugsQuery components lastID);
                    EvMessageAdminChannel
                      ("Found new bugs: "
                       +:+ strings_Join (snd (scan (len found) 0 found lastID [])) ", ")])
    end.
Proof.
  unfold cycle, getNewBugs, Search, Warningf, MessageAdminChannel,
    mbind, M_bind, mret, M_ret, emit, addEvents.
  cbn. destruct (tracker env _) as [found|e]; cbn.
  - destruct (scan _ _ _ _ _); cbn. by rewrite <- app_assoc.
  - by rewrite <- app_assoc.
Qed.

(** What the deferred write does after it. *)
Lemma cycleThenPersist_run env components lastID w :
  let '((err, lastID'), w1) := cycle env components lastID w in
  let attempt := EvSetPersistentValue (stateKey components) (Itoa lastID') in
  cycleThenPersist env components lastID w
  = (firstError err (setFailure env (stateKey components) (Itoa lastID')),
     match setFailure env (stateKey components) (Itoa lastID') with
     | Some _ => addEvents w1 [attempt]
     | None =>
       {| store := <[stateKey components := Itoa lastID']> (store w1);
          trace := trace w1 ++ [attempt] |}
     end).
Proof.
  unfold cycleThenPersist, SetPersistentValue, get_store, put_store,
    mbind, M_bind, mret, M_ret, emit.
  destruct (cycle env components lastID w) as [[err lastID'] w1]. cbn.
  destruct (setFailure env _ _); cbn; by destruct err.
Qed.

Lemma readState_run key s w :
  readState key s w
  = (parsedState s,
     addEvents w
       (if String.eqb s "" then []
        else match Atoi s with
             | Ok _ => []
             | Err e => [EvWarning "klog"
                           ("Cannot parse state value for " +:+ key +:+ ": " +:+ e)]
             end)).
Proof.
  unfold readState, parsedState, Warningf, emit, mbind, M_bind, mret, M_ret, addEvents.
  destruct (String.eqb s ""); [|destruct (Atoi s)]; cbn;
    rewrite ?app_nil_r; by destruct w.
Qed.

(** What [sync] does. *)
Lemma sync_run env components w :
  sync env components w
  = match getFailure env (stateKey components) with
    | Some e => (Some e, addEvents w [EvGetPersistentValue (stateKey components)])
    | None =>
      let s := default "" (store w !! stateKey components) in
      let '(lastID, w1) :=
        readState (stateKey components) s
          (addEvents w [EvGetPersistentValue (stateKey components)]) in
      cycleThenPersist env components lastID w1
    end.
Proof.
  unfold sync, GetPersistentValue, get_store, emit, mbind, M_bind, mret, M_ret, addEvents.
  cbn. destruct (getFailure env _); [done|].
  by destruct (readState _ _ _).
Qed.

(** When the state cannot be read, [sync] returns at once and writes
    nothing. *)
Lemma sync_read_failure env components w e :
  getFailure env (stateKey components) = Some e →
  sync env components w
  = (Some e, addEvents w [EvGetPersistentValue (stateKey components)])
  ∧ persistAttempts (newEvents w (snd (sync env components w))) = 0%nat.
Proof.
  intros He. rewrite sync_run, He. split; [done|].
  cbn [snd]. by rewrite newEvents_addEvents.
Qed.

(** The events and the result of a cycle whose state was read. *)
Lemma sync_after_read env components w :
  getFailure env (stateKey components) = None →
  let key := stateKey components in
  let s := default "" (store w !! key) in
  let lastID := parsedState s in
  let q := getNewBugsQuery components lastID in
  let warned :=
    if String.eqb s "" then []
    else match Atoi s with
         | Ok _ => []
         | Err e => [EvWarning "klog"
                       ("Cannot parse state value for " +:+ key +:+ ": " +:+ e)]
         end in
  let cycleErr := match tracker env q with Err e => Some e | Ok _ => None end in
  let lastID' :=
    match tracker env q with
    | Err _ => lastID
    | Ok found => fst (scan (len found) 0 found lastID [])
    end in
  let told :=
    match tracker env q with
    | Err e => EvWarning "BuglistFailed" (Sprintf e)
    | Ok found =>
      EvMessageAdminChannel
        ("Found new bugs: " +:+ strings_Join (snd (scan (len found) 0 found lastID [])) ", ")
    end in
  fst (sync env components w) = firstError cycleErr (setFailure env key (Itoa lastID'))
  ∧ newEvents w (snd (sync env components w))
    = EvGetPersistentValue key :: warned
      ++ [EvSearch q; told; EvSetPersistentValue key (Itoa lastID')]
  ∧ store (snd (sync env components w))
    = match setFailure env key (Itoa lastID') with
      | Some _ => store w
      | None => <[key := Itoa lastID']> (store w)
      end.
Proof.
  intros Hget. cbn zeta. rewrite sync_run, Hget. cbn zeta.
  rewrite readState_run.
  pose proof (cycleThenPersist_run env components
    (parsedState (default "" (store w !! stateKey components)))
    (addEvents (addEvents w [EvGetPersistentValue (stateKey components)])
       (if String.eqb (default "" (store w !! stateKey components)) "" then []
        else match Atoi (default "" (store w !! stateKey components)) with
             | Ok _ => []
             | Err e => [EvWarning "klog"
                           ("Cannot parse state value for " +:+ stateKey components
                            +:+ ": " +:+ e)]
             end))) as Hrun.
  rewrite cycle_run in Hrun.
  destruct (tracker env _) as [found|e]; rewrite Hrun; clear Hrun;
    (destruct (setFailure env _ _); cbn [fst snd];
     (split; [done|]); rewrite ?addEvents_addEvents;
     (split; [| done]);
     [ rewrite newEvents_addEvents | unfold newEvents, addEvents; cbn [trace];
       rewrite <- !app_assoc, drop_app_length ];
     cbn [app]; by rewrite <- ?app_assoc).
Qed.

(** C6.  With the watermark "50" in the store and a tracker that returns the
    53 new bugs 51, ..., 103, the cycle succeeds and stores "102", the
    identifier of the 52nd bug, while the greatest of the old watermark and
    the identifiers of the result set is 103. *)
Theorem watermark_misses_bugs_after_the_52nd :
  let found := Samples.newBugsFrom 51 53 in
  let env := Tracker.reliable found in
  let run := sync env ["apiserver"] (Samples.worldWithWatermark "50") in
  tracker env (getNewBugsQuery ["apiserver"] 50) = Ok found
  ∧ fst run = None
  ∧ store (snd run) !! stateKey ["apiserver"] = Some "102"
  ∧ Itoa (maxID 50 found) = "103".
Proof. cbn zeta. repeat split; vm_compute; reflexivity. Qed.

(** As long as the tracker returns at most 52 bugs the stored watermark is
    the greatest of the old one and the identifiers found; in general it is
    taken over the first 52 bugs only, and never falls below the old one. *)
Lemma watermark_after_success env components w found :
  getFailure env (stateKey components) = None →
  let key := stateKey components in
  let lastID := parsedState (default "" (store w !! key)) in
  tracker env (getNewBugsQuery components lastID) = Ok found →
  setFailure env key (Itoa (maxID lastID (take 52 found))) = None →
  fst (sync env components w) = None
  ∧ store (snd (sync env components w)) !! key
    = Some (Itoa (maxID lastID (take 52 found)))
  ∧ (lastID ≤ maxID lastID (take 52 found))%Z
  ∧ ((length found ≤ 52)%nat → maxID lastID (take 52 found) = maxID lastID found).
Proof.
  intros Hget key lastID Hfound Hset.
  destruct (sync_after_read env components w Hget) as (Hres & _ & Hstore).
  fold key lastID in Hres, Hstore. rewrite Hfound in Hres, Hstore.
  rewrite scan_watermark in Hres, Hstore by lia.
  change (Z.to_nat (52 - 0)) with 52%nat in Hres, Hstore.
  rewrite Hset in Hres, Hstore.
  split; [done|]. split; [by rewrite Hstore, lookup_insert_eq|].
  split; [apply maxID_ge|].
  intros Hlen. by rewrite take_ge.
Qed.

(** C7.  When the stored watermark is present but not a number, [sync] warns
    and goes on from the watermark 0: it searches with the bootstrap query,
    whose only predicate is "created within the last 24 hours", and its
    result is the error of that search, else the error of the final write,
    else none. *)
Theorem unparsable_state_restarts_from_bootstrap (env : Env) (components : list string)
    (w : World) (s : string) (e : error) :
  getFailure env (stateKey components) = None →
  store w !! stateKey components = Some s →
  s ≠ "" →
  Atoi s = Err e →
  let key := stateKey components in
  let warning :=
    EvWarning "klog" ("Cannot parse state value for " +:+ key +:+ ": " +:+ e) in
  sync env components w
  = cycleThenPersist env components 0 (addEvents w [EvGetPersistentValue key; warning])
  ∧ Advanced (getNewBugsQuery components 0)
    = [ {| Field := "creation_ts"; Op := "greaterthaneq"; Value := "-24h" |} ]
  ∧ take 3 (newEvents w (snd (sync env components w)))
    = [EvGetPersistentValue key; warning; EvSearch (getNewBugsQuery components 0)]
  ∧ fst (sync env components w)
    = match tracker env (getNewBugsQuery components 0) with
      | Err e' => Some e'
      | Ok found => setFailure env key (Itoa (maxID 0 (take 52 found)))
      end.
Proof.
  intros Hget Hs Hne He. cbn zeta.
  assert (Heqb : String.eqb s "" = false) by by apply String.eqb_neq.
  assert (Hparsed : parsedState s = 0) by (unfold parsedState; by rewrite Heqb, He).
  split.
  { rewrite sync_run, Hget, Hs. change (default "" (Some s)) with s. cbn zeta.
    rewrite readState_run, Hparsed, Heqb, He. by rewrite addEvents_addEvents. }
  split; [done|].
  destruct (sync_after_read env components w Hget) as (Hres & Hev & _).
  rewrite Hs in Hres, Hev. change (default "" (Some s)) with s in Hres, Hev.
  rewrite Hparsed in Hres, Hev. rewrite Heqb, He in Hev.
  split; [by rewrite Hev|].
  rewrite Hres. destruct (tracker env _) as [found|e']; [|done].
  cbn [firstError]. by rewrite scan_watermark by lia.
Qed.

(** C8, as amended.  Once the state was read, the write of the watermark is
    attempted exactly once, as the last thing the cycle does, whether the
    search failed or not, and [sync] returns the error of the cycle if it
    has one, else the error of the write, else none. *)
Theorem persist_once_after_state_read (env : Env) (components : list string) (w : World) :
  getFailure env (stateKey components) = None →
  let key := stateKey components in
  let lastID := parsedState (default "" (store w !! key)) in
  let searched := tracker env (getNewBugsQuery components lastID) in
  let cycleErr := match searched with Err e => Some e | Ok _ => None end in
  let lastID' :=
    match searched with
    | Err _ => lastID
    | Ok found => maxID lastID (take 52 found)
    end in
  let run := sync env components w in
  persistAttempts (newEvents w (snd run)) = 1%nat
  ∧ last (newEvents w (snd run)) = Some (EvSetPersistentValue key (Itoa lastID'))
  ∧ fst run = firstError cycleErr (setFailure env key (Itoa lastID'))
  ∧ store (snd run)
    = match setFailure env key (Itoa lastID') with
      | Some _ => store w
      | None => <[key := Itoa lastID']> (store w)
      end.
Proof.
  intros Hget. cbn zeta.
  destruct (sync_after_read env components w Hget) as (Hres & Hev & Hstore).
  rewrite Hres, Hev, Hstore. clear Hres Hev Hstore.
  assert (Hlast : ∀ found,
    fst (scan (len found) 0 found
           (parsedState (default "" (store w !! stateKey components))) [])
    = maxID (parsedState (default "" (store w !! stateKey components))) (take 52 found))
    by (intros; by rewrite scan_watermark by lia).
  split; [|split; [|split]].
  - unfold persistAttempts. cbn [List.filter isPersist].
    rewrite List.filter_app, length_app.
    destruct (String.eqb _ ""); [|destruct (Atoi _)];
      destruct (tracker env _); by cbn.
  - rewrite app_comm_cons, !last_app.
    destruct (tracker env _); cbn; by rewrite ?Hlast.
  - destruct (tracker env _); by rewrite ?Hlast.
  - destruct (tracker env _); by rewrite ?Hlast.
Qed.

End NewBugsCycle.

(** ** Multiplying a team size by 0.2 in [float64] *)

Module Float64.

Import Escalation.

Lemma digits2_size p : digits2_pos p = Pos.size p.
Proof. induction p; simpl; congruence. Qed.

Lemma Zdigits2_log2 p : Z.pos (digits2_pos p) = Z.log2 (Z.pos p) + 1.
Proof.
  rewrite digits2_size. destruct p; simpl; try reflexivity; rewrite Pos2Z.inj_succ; lia.
Qed.

Lemma digits_bounds p :
  2 ^ (Z.pos (digits2_pos p) - 1) <= Z.pos p < 2 ^ Z.pos (digits2_pos p).
Proof.
  rewrite Zdigits2_log2.
  replace (Z.log2 (Z.pos p) + 1 - 1) with (Z.log2 (Z.pos p)) by lia.
  apply (Z.log2_spec (Z.pos p)). lia.
Qed.

Lemma digits_unique p d :
  2 ^ (d - 1) <= Z.pos p < 2 ^ d -> 0 < d -> Z.pos (digits2_pos p) = d.
Proof.
  intros H Hd. rewrite Zdigits2_log2.
  rewrite (Z.log2_unique (Z.pos p) (d - 1)); try lia.
  replace (Z.succ (d - 1)) with d by lia. exact H.
Qed.

Lemma shr_1_m mrs : 0 <= shr_m mrs -> shr_m (shr_1 mrs) = shr_m mrs / 2.
Proof.
  destruct mrs as [m r s]. cbn [shr_m]. intros Hm.
  destruct m as [|[p|p|]|p]; cbn [shr_1 shr_m]; try lia.
  - reflexivity.
  - pose proof (Pos2Z.inj_xI p). apply (Z.div_unique _ _ _ 1); lia.
  - pose proof (Pos2Z.inj_xO p). apply (Z.div_unique _ _ _ 0); lia.
  - reflexivity.
Qed.

Lemma iter_shr_m p : forall mrs, 0 <= shr_m mrs ->
  shr_m (SpecFloat.iter_pos shr_1 p mrs) = shr_m mrs / 2 ^ Z.pos p.
Proof.
  induction p as [p IH|p IH|]; intros mrs Hm; simpl SpecFloat.iter_pos.
  - assert (H1 : 0 <= shr_m (shr_1 mrs)) by (rewrite shr_1_m by lia; apply Z.div_pos; lia).
    assert (H2 : 0 <= shr_m (SpecFloat.iter_pos shr_1 p (shr_1 mrs)))
      by (rewrite IH by lia; apply Z.div_pos; lia).
    rewrite IH, IH, shr_1_m by lia.
    rewrite !Z.div_div by lia. f_equal.
    rewrite <- Z.pow_add_r by lia.
    rewrite <- (Z.pow_succ_r 2 (Z.pos p + Z.pos p)) by lia. f_equal. lia.
  - assert (H2 : 0 <= shr_m (SpecFloat.iter_pos shr_1 p mrs))
      by (rewrite IH by lia; apply Z.div_pos; lia).
    rewrite IH, IH by lia.
    rewrite !Z.div_div by lia. f_equal.
    rewrite <- Z.pow_add_r by lia. f_equal. lia.
  - rewrite shr_1_m by lia. reflexivity.
Qed.

Lemma iter_xO p k : Z.pos (Pos.iter xO p k) = Z.pos p * 2 ^ Z.pos k.
Proof.
  induction k using Pos.peano_ind.
  - simpl. lia.
  - rewrite Pos.iter_succ, Pos2Z.inj_xO, IHk, Pos2Z.inj_succ, Z.pow_succ_r by lia. lia.
Qed.

Lemma round_nearest_even_range q l :
  round_nearest_even q l = q \/ round_nearest_even q l = q + 1.
Proof.
  destruct l as [|[| |]]; simpl; auto. destruct (Z.even q); auto.
Qed.

Lemma fexp_normal x : -1021 <= x -> fexp 53 1024 x = x - 53.
Proof. intros H. unfold fexp, emin. lia. Qed.

Lemma shr_fexp_exact m e :
  Z.pos (digits2_pos m) = 53 -> -1074 <= e ->
  shr_fexp 53 1024 (Z.pos m) e loc_Exact
  = ({| shr_m := Z.pos m; shr_r := false; shr_s := false |}, e).
Proof.
  intros Hd He. unfold shr_fexp. cbn [Zdigits2]. rewrite Hd.
  rewrite fexp_normal by lia.
  replace (53 + e - 53 - e) with 0 by lia. reflexivity.
Qed.

Lemma binary_round_aux_exact s m e :
  Z.pos (digits2_pos m) = 53 -> -1074 <= e <= 971 ->
  binary_round_aux 53 1024 s (Z.pos m) e loc_Exact = S754_finite s m e.
Proof.
  intros Hd He. unfold binary_round_aux.
  rewrite shr_fexp_exact by lia. cbn [shr_m loc_of_shr_record round_nearest_even].
  rewrite shr_fexp_exact by lia. cbn [shr_m].
  destruct (Z.leb_spec e (1024 - 53)); [reflexivity | lia].
Qed.

Lemma float64_of_int_pos p :
  Z.pos (digits2_pos p) <= 53 ->
  exists mz,
    float64_of_int (Z.pos p) = S754_finite false mz (Z.pos (digits2_pos p) - 53)
    /\ Z.pos mz = Z.pos p * 2 ^ (53 - Z.pos (digits2_pos p))
    /\ Z.pos (digits2_pos mz) = 53.
Proof.
  intros Hd. unfold float64_of_int, binary_normalize, binary_round, shl_align.
  rewrite fexp_normal by lia.
  replace (Z.pos (digits2_pos p) + 0 - 53 - 0) with (Z.pos (digits2_pos p) - 53) by lia.
  pose proof (digits_bounds p) as Hb.
  destruct (Z.pos (digits2_pos p) - 53) as [|k|k] eqn:Hk; try lia.
  - exists p. replace (Z.pos (digits2_pos p) + 0 - 53) with 0 by lia.
    replace (53 - Z.pos (digits2_pos p)) with 0 by lia.
    assert (Hd53 : Z.pos (digits2_pos p) = 53) by lia.
    rewrite binary_round_aux_exact by lia. split; [reflexivity|]. split; [lia|exact Hd53].
  - exists (Pos.iter xO p k).
    assert (Hm : Z.pos (Pos.iter xO p k) = Z.pos p * 2 ^ (53 - Z.pos (digits2_pos p))).
    { rewrite iter_xO. f_equal. f_equal. lia. }
    assert (Hd53 : Z.pos (digits2_pos (Pos.iter xO p k)) = 53).
    { apply digits_unique; [|lia]. rewrite Hm.
      replace (2 ^ (53 - 1)) with (2 ^ (Z.pos (digits2_pos p) - 1) * 2 ^ (53 - Z.pos (digits2_pos p)))
        by (rewrite <- Z.pow_add_r by lia; f_equal; lia).
      replace (2 ^ 53) with (2 ^ Z.pos (digits2_pos p) * 2 ^ (53 - Z.pos (digits2_pos p)))
        by (rewrite <- Z.pow_add_r by lia; f_equal; lia).
      assert (0 < 2 ^ (53 - Z.pos (digits2_pos p))) by (apply Z.pow_pos_nonneg; lia).
      split; [apply Z.mul_le_mono_nonneg_r; lia | apply Z.mul_lt_mono_pos_r; lia]. }
    replace (Z.pos (digits2_pos p) + 0 - 53) with (Z.neg k) by lia.
    rewrite binary_round_aux_exact by lia.
    split; [f_equal; lia|]. split; [exact Hm | exact Hd53].
Qed.

Lemma binary_round_aux_inexact m e :
  let D := Z.pos (digits2_pos m) in
  53 < D -> -1074 <= e + (D - 53) -> e + (D - 53) + 1 <= 971 ->
  exists q' m' e',
    binary_round_aux 53 1024 false (Z.pos m) e loc_Exact = S754_finite false m' e'
    /\ (q' = Z.pos m / 2 ^ (D - 53) \/ q' = Z.pos m / 2 ^ (D - 53) + 1)
    /\ ((Z.pos m' = q' /\ e' = e + (D - 53))
        \/ (2 * Z.pos m' = q' /\ e' = e + (D - 53) + 1)).
Proof.
  intros D HD Hlo Hhi.
  pose proof (digits_bounds m) as Hb. fold D in Hb.
  unfold binary_round_aux, shr_fexp at 1. cbn [Zdigits2]. fold D.
  rewrite fexp_normal by lia.
  replace (D + e - 53 - e) with (D - 53) by lia.
  destruct (D - 53) as [|k|k] eqn:Hk; try lia.
  cbn [shr shr_record_of_loc].
  set (mrs := SpecFloat.iter_pos shr_1 k _).
  assert (Hq : shr_m mrs = Z.pos m / 2 ^ Z.pos k)
    by (unfold mrs; rewrite iter_shr_m; cbn [shr_m]; [reflexivity | lia]).
  assert (Hpow : 0 < 2 ^ Z.pos k) by (apply Z.pow_pos_nonneg; lia).
  assert (Hq52 : 2 ^ 52 <= shr_m mrs).
  { rewrite Hq. apply Z.div_le_lower_bound; [lia|].
    replace (2 ^ Z.pos k * 2 ^ 52) with (2 ^ (D - 1))
      by (rewrite <- Z.pow_add_r by lia; f_equal; lia).
    lia. }
  assert (Hq53 : shr_m mrs < 2 ^ 53).
  { rewrite Hq. apply Z.div_lt_upper_bound; [lia|].
    replace (2 ^ Z.pos k * 2 ^ 53) with (2 ^ D)
      by (rewrite <- Z.pow_add_r by lia; f_equal; lia).
    lia. }
  set (q' := round_nearest_even (shr_m mrs) (loc_of_shr_record mrs)).
  assert (Hq' : q' = shr_m mrs \/ q' = shr_m mrs + 1)
    by apply round_nearest_even_range.
  change (2 ^ 52) with 4503599627370496 in *.
  change (2 ^ 53) with 9007199254740992 in *.
  destruct q' as [|mq|mq] eqn:Eq'; try lia.
  destruct (Z.eq_dec (Z.pos mq) 9007199254740992) as [Htop|Htop].
  - (* the rounding reached 2^53: one more shift *)
    exists (Z.pos mq), 4503599627370496%positive, (e + Z.pos k + 1).
    injection Htop as ->.
    split; [|split; [rewrite <- Hq; exact Hq' | right; split; reflexivity]].
    unfold shr_fexp. change (Zdigits2 9007199254740992) with 54.
    rewrite fexp_normal by lia.
    replace (54 + (e + Z.pos k) - 53 - (e + Z.pos k)) with 1 by lia.
    cbn [shr shr_record_of_loc SpecFloat.iter_pos shr_1 shr_m].
    destruct (Z.leb_spec (e + Z.pos k + 1) (1024 - 53)); [reflexivity | lia].
  - exists (Z.pos mq), mq, (e + Z.pos k).
    split; [|split; [rewrite <- Hq; exact Hq' | left; split; reflexivity]].
    assert (Hd : Z.pos (digits2_pos mq) = 53)
      by (apply digits_unique; [change (2 ^ (53 - 1)) with 4503599627370496;
                                change (2 ^ 53) with 9007199254740992|]; lia).
    rewrite shr_fexp_exact by lia. cbn [shr_m].
    destruct (Z.leb_spec (e + Z.pos k) (1024 - 53)); [reflexivity | lia].
Qed.

Lemma div_between x T k : 0 < T -> k * T <= x < (k + 1) * T -> x / T = k.
Proof.
  intros HT [Hlo Hhi]. symmetry. apply (Z.div_unique x T k (x - k * T)); lia.
Qed.

(** The arithmetic behind the quota: [n * 0.2], rounded to a multiple of
    [S / (A * 2^55)] and cut to an integer, is [n / 5]. *)
Lemma fifth_arith n A S T q q' :
  0 < n < 2 ^ 51 -> 0 < A -> 0 < S -> 0 < T ->
  S * T = A * 2 ^ 55 ->
  S * 2 ^ 52 <= n * A * 7205759403792794 ->
  q = (n * A * 7205759403792794) / S ->
  (q' = q \/ q' = q + 1) ->
  (n / 5) * T <= q' < (n / 5 + 1) * T.
Proof.
  change (2 ^ 51) with 2251799813685248. change (2 ^ 55) with 36028797018963968.
  change (2 ^ 52) with 4503599627370496.
  intros Hn HA HS HT HST HSP Hq Hq'.
  set (k := n / 5).
  assert (Hk : 5 * k <= n <= 5 * k + 4)
    by (unfold k; pose proof (Z.div_mod n 5 ltac:(lia));
        pose proof (Z.mod_pos_bound n 5 ltac:(lia)); lia).
  set (P := n * A * 7205759403792794) in *.
  assert (Hlo : k * T <= q).
  { rewrite Hq. apply Z.div_le_lower_bound; [lia|].
    replace (S * (k * T)) with (k * (S * T)) by ring. rewrite HST.
    unfold P.
    replace (k * (A * 36028797018963968)) with (A * (k * 36028797018963968)) by ring.
    replace (n * A * 7205759403792794) with (A * (n * 7205759403792794)) by ring.
    apply Z.mul_le_mono_nonneg_l; lia. }
  assert (Hhi : q < (k + 1) * T - 1).
  { rewrite Hq. apply Z.div_lt_upper_bound; [lia|].
    replace (S * ((k + 1) * T - 1)) with ((k + 1) * (S * T) - S) by ring. rewrite HST.
    assert (HS2 : S < 2 * n * A).
    { assert (S * 4503599627370496 < (2 * n * A) * 4503599627370496); [|lia].
      eapply Z.le_lt_trans; [exact HSP|]. unfold P.
      replace (n * A * 7205759403792794) with ((n * A) * 7205759403792794) by ring.
      replace (2 * n * A * 4503599627370496) with ((n * A) * 9007199254740992) by ring.
      apply Z.mul_lt_mono_pos_l; [apply Z.mul_pos_pos; lia | lia]. }
    assert (HPb : P + 2 * n * A <= (k + 1) * (A * 36028797018963968)); [|lia].
    unfold P.
    replace (n * A * 7205759403792794 + 2 * n * A) with (A * (n * 7205759403792796)) by ring.
    replace ((k + 1) * (A * 36028797018963968)) with (A * ((k + 1) * 36028797018963968)) by ring.
    apply Z.mul_le_mono_nonneg_l; lia. }
  lia.
Qed.

Lemma times_0_2 n :
  0 <= n < 2 ^ 51 ->
  int_of_float64 (float64_mul (float64_of_int n) float64_0_2) = n / 5.
Proof.
  intros Hn. destruct n as [|p|p]; [reflexivity| |lia].
  pose proof (digits_bounds p) as Hb.
  set (d := Z.pos (digits2_pos p)) in *.
  assert (Hd : d <= 51).
  { destruct (Z.le_gt_cases d 51) as [|Hgt]; [assumption|].
    assert (2 ^ 51 <= 2 ^ (d - 1)) by (apply Z.pow_le_mono_r; lia). lia. }
  destruct (float64_of_int_pos p ltac:(fold d; lia)) as (mz & -> & Hmz & Hdz).
  fold d in Hmz.
  unfold float64_mul, float64_0_2, SFmul. cbn [xorb].
  set (M := 7205759403792794%positive).
  pose proof (digits_bounds mz) as Hbz. rewrite Hdz in Hbz.
  change (2 ^ (53 - 1)) with 4503599627370496 in Hbz.
  change (2 ^ 53) with 9007199254740992 in Hbz.
  pose proof (digits_bounds (mz * M)) as HbP.
  set (D := Z.pos (digits2_pos (mz * M))) in *.
  assert (HP : Z.pos (mz * M) = Z.pos p * 2 ^ (53 - d) * 7205759403792794)
    by (rewrite Pos2Z.inj_mul, Hmz; reflexivity).
  assert (HPlo : 2 ^ 104 <= Z.pos (mz * M)).
  { rewrite Pos2Z.inj_mul. change (2 ^ 104) with (4503599627370496 * 4503599627370496).
    apply Z.mul_le_mono_nonneg; unfold M; lia. }
  assert (HPhi : Z.pos (mz * M) < 2 ^ 106).
  { rewrite Pos2Z.inj_mul. change (2 ^ 106) with (9007199254740992 * 9007199254740992).
    apply Z.mul_lt_mono_nonneg; unfold M; lia. }
  assert (HD : 105 <= D <= 106).
  { split.
    - destruct (Z.le_gt_cases 105 D) as [|Hlt]; [assumption|].
      assert (2 ^ D <= 2 ^ 104) by (apply Z.pow_le_mono_r; lia). lia.
    - destruct (Z.le_gt_cases D 106) as [|Hgt]; [assumption|].
      assert (2 ^ 106 <= 2 ^ (D - 1)) by (apply Z.pow_le_mono_r; lia). lia. }
  fold d.
  destruct (binary_round_aux_inexact (mz * M) (d - 53 + -55))
    as (q' & m' & e' & -> & Hq' & Hme); fold D; [unfold d in *; lia..|].
  assert (Hdpos : 0 < d) by (unfold d; lia).
  set (A := 2 ^ (53 - d)) in *.
  set (S := 2 ^ (D - 53)) in *.
  set (T := 2 ^ (161 - d - D)).
  assert (HA : 0 < A) by (apply Z.pow_pos_nonneg; lia).
  assert (HS : 0 < S) by (apply Z.pow_pos_nonneg; lia).
  assert (HT : 0 < T) by (apply Z.pow_pos_nonneg; lia).
  assert (HST : S * T = A * 2 ^ 55)
    by (unfold S, T, A; rewrite <- !Z.pow_add_r by lia; f_equal; lia).
  assert (HSP : S * 2 ^ 52 <= Z.pos p * A * 7205759403792794).
  { rewrite <- HP. unfold S. rewrite <- Z.pow_add_r by lia.
    replace (D - 53 + 52) with (D - 1) by lia. lia. }
  assert (Hrange : (Z.pos p / 5) * T <= q' < (Z.pos p / 5 + 1) * T).
  { apply (fifth_arith (Z.pos p) A S T (Z.pos (mz * M) / S) q'); try assumption.
    - lia.
    - rewrite HP. reflexivity.
  }
  cbn [int_of_float64].
  destruct Hme as [[Hm' ->]|[Hm' ->]]; fold D.
  - replace (d - 53 + -55 + (D - 53)) with (- (161 - d - D)) by lia.
    destruct (161 - d - D) as [|k|k] eqn:Hk; try lia.
    cbn [Z.opp]. rewrite Hm'. apply div_between; [exact HT | exact Hrange].
  - replace (d - 53 + -55 + (D - 53) + 1) with (- (160 - d - D)) by lia.
    destruct (160 - d - D) as [|k|k] eqn:Hk; try lia.
    cbn [Z.opp].
    assert (HT2 : T = 2 * 2 ^ Z.pos k).
    { unfold T. replace (161 - d - D) with (Z.succ (Z.pos k)) by lia.
      rewrite Z.pow_succ_r by lia. reflexivity. }
    apply div_between; [apply Z.pow_pos_nonneg; lia | lia].
Qed.

End Float64.

(** ** The quota of a lead *)

Module EscalationQuota.
Section Quota.

Import Escalation Rules.

Variable GetBugURL : Bug -> string.
Variable ExpandGroups : gmap string (list string) -> list string -> gset string.

Lemma max_Zmax x y : max x y = Z.max x y.
Proof. unfold max. destruct (Z.gtb_spec x y); lia. Qed.

Lemma maxEscalations_quota n : (0 ≤ n < 2 ^ 51)%Z → maxEscalations n = quota n.
Proof.
  intros Hn. unfold maxEscalations, quota.
  by rewrite max_Zmax, Float64.times_0_2.
Qed.

End Quota.
End EscalationQuota.

(** ** Runs of the new-bug cycle *)

Lemma unparsable_state_witness :
  let env := Tracker.reliable (Samples.newBugsFrom 51 3) in
  let w := Samples.worldWithWatermark "not-a-number" in
  let key := NewBugs.stateKey ["apiserver"] in
  getFailure env key = None
  ∧ store w !! key = Some "not-a-number"
  ∧ "not-a-number" ≠ ""
  ∧ NewBugs.Atoi "not-a-number" = Err (NewBugs.syntaxError "not-a-number")
  ∧ take 3 (Rules.newEvents w (snd (NewBugs.sync env ["apiserver"] w)))
    = [EvGetPersistentValue key;
       EvWarning "klog"
         ("Cannot parse state value for " +:+ key +:+ ": "
          +:+ NewBugs.syntaxError "not-a-number");
       EvSearch (NewBugs.getNewBugsQuery ["apiserver"] 0)]
  ∧ fst (NewBugs.sync env ["apiserver"] w) = None.
Proof.
  cbn zeta.
  assert (H1 : getFailure (Tracker.reliable (Samples.newBugsFrom 51 3))
                 (NewBugs.stateKey ["apiserver"]) = None) by reflexivity.
  assert (H2 : store (Samples.worldWithWatermark "not-a-number")
                 !! NewBugs.stateKey ["apiserver"] = Some "not-a-number")
    by (vm_compute; reflexivity).
  assert (H3 : "not-a-number" ≠ "") by discriminate.
  assert (H4 : NewBugs.Atoi "not-a-number" = Err (NewBugs.syntaxError "not-a-number"))
    by (vm_compute; reflexivity).
  destruct (NewBugsCycle.unparsable_state_restarts_from_bootstrap _ ["apiserver"] _ _ _
              H1 H2 H3 H4) as (_ & _ & Hev & Hres).
  split; [exact H1|]. split; [exact H2|]. split; [exact H3|]. split; [exact H4|].
  split; [exact Hev|]. rewrite Hres. vm_compute. reflexivity.
Defined.

(** C8, as stated, fails when the store cannot be read: [sync] returns the
    error of the read and never attempts the write. *)
Lemma persist_skipped_when_read_fails :
  let run := NewBugs.sync Samples.failingRead ["apiserver"] Tracker.newWorld in
  fst run = Some "store unavailable"
  ∧ Rules.newEvents Tracker.newWorld (snd run)
    = [EvGetPersistentValue (NewBugs.stateKey ["apiserver"])]
  ∧ Rules.persistAttempts (Rules.newEvents Tracker.newWorld (snd run)) ≠ 1%nat.
Proof. cbn zeta. repeat split; try (vm_compute; reflexivity). vm_compute. discriminate. Qed.

Lemma persist_once_witness :
  let env := Samples.allFailing in
  let w := Samples.worldWithWatermark "50" in
  let run := NewBugs.sync env ["apiserver"] w in
  getFailure env (NewBugs.stateKey ["apiserver"]) = None
  ∧ Rules.persistAttempts (Rules.newEvents w (snd run)) = 1%nat
  ∧ last (Rules.newEvents w (snd run))
    = Some (EvSetPersistentValue (NewBugs.stateKey ["apiserver"]) "50")
  ∧ fst run = Some "tracker down".
Proof.
  cbn zeta.
  assert (H1 : getFailure Samples.allFailing (NewBugs.stateKey ["apiserver"]) = None)
    by reflexivity.
  destruct (NewBugsCycle.persist_once_after_state_read Samples.allFailing ["apiserver"]
              (Samples.worldWithWatermark "50") H1) as (Hn & Hlast & Hres & _).
  split; [exact H1|]. split; [exact Hn|].
  split; [rewrite Hlast; vm_compute; reflexivity|].
  rewrite Hres. vm_compute. reflexivity.
Defined.

(** ** A run of the blockers report *)


Lemma Report_returns_no_bugs_witness :
  let found := [Samples.untriaged; Samples.blocker] in
  let env := Tracker.reliable found in
  tracker env (Blockers.getBugsQuery ["apiserver"] ["---"; "4.6"; "4.5"]) = Ok found
  ∧ ∃ report w',
      Blockers.Report Summary (λ _, "url") env Samples.config ["apiserver"] Tracker.newWorld
      = (Ok (report, Blockers.summarizeBugs Summary "4.6" found, []), w')
      ∧ Blockers.toTriageIDs (Blockers.summarizeBugs Summary "4.6" found) = [1]
      ∧ Blockers.groupPerPerson [] (Blockers.summarizeBugs Summary "4.6" found)
        = Some {| Blockers.perPersonToTriageIDs := ∅; Blockers.perPersonToTriage := ∅;
                  Blockers.perPersonBlockerPlusIDs := ∅;
                  Blockers.perPersonBlockerPlus := ∅;
                  Blockers.perPersonUrgentIDs := ∅; Blockers.perPersonUrgent := ∅ |}.
Proof.
  cbn zeta.
  assert (H1 : tracker (Tracker.reliable [Samples.untriaged; Samples.blocker])
                 (Blockers.getBugsQuery ["apiserver"] ["---"; "4.6"; "4.5"])
               = Ok [Samples.untriaged; Samples.blocker])
    by (vm_compute; reflexivity).
  split; [exact H1|].
  destruct (BlockersGrouping.Report_returns_no_bugs Summary (λ _, "url")
              (Tracker.reliable [Samples.untriaged; Samples.blocker])
              Samples.config ["apiserver"] Tracker.newWorld _ H1)
    as (report & w' & HR & _ & _ & HG).
  exists report, w'. split; [exact HR|]. split; [vm_compute; reflexivity | exact HG].
Defined.

(** ** The reporters on small inputs *)

Module Scenarios.

(** Two bugs, one urgent by severity and one by priority, are both in the
    urgent bucket. *)
Example urgent_by_severity_or_priority :
  Blockers.urgentIDs
    (Blockers.summarizeBugs Summary "4.6"
       [Rules.withSeverity "urgent" (Samples.bug 100 "alice");
        {| ID := 101; AssignedTo := "bob"; Component := ["apiserver"]; Keywords := [];
           Whiteboard := ""; Severity := "low"; Priority := "urgent";
           TargetRelease := ["4.6"]; Status := "ASSIGNED"; Flags := []; Escalation := "";
           ExternalBugs := []; Summary := "" |}])
  = [100; 101].
Proof. vm_compute. reflexivity. Qed.

(** With the watermark "50" and new bugs up to 75 the store holds "75"
    afterwards; when nothing new is found it still holds "50". *)
Example watermark_advances :
  store (snd (NewBugs.sync (Tracker.reliable (Samples.newBugsFrom 51 25)) ["apiserver"]
                (Samples.worldWithWatermark "50")))
    !! NewBugs.stateKey ["apiserver"] = Some "75"
  ∧ store (snd (NewBugs.sync (Tracker.reliable []) ["apiserver"]
                  (Samples.worldWithWatermark "50")))
      !! NewBugs.stateKey ["apiserver"] = Some "50".
Proof. split; vm_compute; reflexivity. Qed.

(** What [strconv.Atoi] accepts. *)
Example Atoi_samples :
  NewBugs.Atoi "50" = Ok 50
  ∧ NewBugs.Atoi "-7" = Ok (-7)
  ∧ NewBugs.Atoi "+7" = Ok 7
  ∧ NewBugs.Atoi "9223372036854775807" = Ok 9223372036854775807
  ∧ NewBugs.Atoi "9223372036854775808" = Err (NewBugs.rangeError "9223372036854775808")
  ∧ NewBugs.Atoi "" = Err (NewBugs.syntaxError "")
  ∧ NewBugs.Atoi "-" = Err (NewBugs.syntaxError "-")
  ∧ NewBugs.Atoi "1_000" = Err (NewBugs.syntaxError "1_000")
  ∧ NewBugs.Atoi " 5" = Err (NewBugs.syntaxError " 5").
Proof. repeat split; vm_compute; reflexivity. Qed.

(** [strconv.Atoi] reads from the left: digits that leave the range are a
    range error even when a byte that is no digit follows them. *)
Example Atoi_first_error :
  NewBugs.Atoi "99999999999999999999999x"
  = Err (NewBugs.rangeError "99999999999999999999999x")
  ∧ NewBugs.Atoi "9223372036854775808x"
    = Err (NewBugs.syntaxError "9223372036854775808x")
  ∧ NewBugs.Atoi "-9223372036854775808" = Ok (-9223372036854775808).
Proof. repeat split; vm_compute; reflexivity. Qed.

(** What the formatter makes of a text that is handed to it as a format
    without operands. *)
Example Sprintf_samples :
  Sprintf "tracker down" = "tracker down"
  ∧ Sprintf "a%2Cb" = "a%!C(MISSING)b"
  ∧ Sprintf "100%" = "100%!(NOVERB)"
  ∧ Sprintf "50%% done" = "50% done"
  ∧ Sprintf "%d of %s" = "%!d(MISSING) of %!s(MISSING)"
  ∧ Sprintf "%*d" = "%!(BADWIDTH)%!d(MISSING)"
  ∧ Sprintf "%.*f" = "%!(BADPREC)%!f(MISSING)"
  ∧ Sprintf "%[1]d" = "%!d(BADINDEX)"
  ∧ Sprintf "%-05.3fz" = "%!f(MISSING)z".
Proof. repeat split; vm_compute; reflexivity. Qed.

(** What [%q] makes of quotes, backslashes and bytes that cannot be
    printed. *)
Example quoted_samples :
  let q := String "034"%char EmptyString in
  let backslash := String "092"%char EmptyString in
  quoted "alice" = q +:+ "alice" +:+ q
  ∧ quoted ("a" +:+ q +:+ "b" +:+ backslash +:+ "c")
    = q +:+ "a" +:+ backslash +:+ q +:+ "b" +:+ backslash +:+ backslash +:+ "c" +:+ q
  ∧ quoted (String "010"%char (String "001"%char (String "255"%char EmptyString)))
    = q +:+ "\n\x01\xff" +:+ q
  ∧ quoted (String "194"%char (String "133"%char EmptyString)) = q +:+ "\u0085" +:+ q.
Proof. cbn zeta. repeat split; vm_compute; reflexivity. Qed.

(** The blockers cycle as a whole: since [Report] hands back no bugs, nobody
    is sent an e-mail, whatever the tracker holds. *)
Example blockers_sync_sends_no_mail :
  let run :=
    Blockers.sync Summary (λ _, "url")
      (Tracker.reliable [Samples.untriaged; Samples.blocker])
      Samples.config ["apiserver"] Tracker.newWorld in
  fst run = Blockers.Returned None
  ∧ List.filter (λ e, match e with EvMessageEmail _ _ => true | _ => false end)
      (trace (snd run)) = []
  ∧ last (trace (snd run)) = Some (EvMessageAdminChannel "").
Proof. cbn zeta. repeat split; vm_compute; reflexivity. Qed.

End Scenarios.

(** ** The other buckets and counters of the blockers classifier *)

Module BlockersBuckets.
Section Buckets.

Import Blockers Rules Vocabulary BlockersClassifier.

Variable FormatBugMessage : Bug -> string.

Lemma append_if_app {A} (c : bool) (l : list A) x :
  append_if c l x = l ++ (if c then [x] else []).
Proof. destruct c; simpl; [done|by rewrite app_nil_r]. Qed.

Lemma Has_NewString l x : Has (NewString l) x = bool_decide (x ∈ l).
Proof.
  unfold Has, NewString. apply bool_decide_ext. by rewrite elem_of_list_to_set.
Qed.

Lemma urgent_test b :
  String.eqb (Priority b) "urgent" || String.eqb (Severity b) "urgent"
  = bool_decide (isUrgent b).
Proof.
  rewrite !eqb_bool_decide. apply eq_true_iff_eq.
  rewrite orb_true_iff, !bool_decide_eq_true. done.
Qed.

Lemma release_test reference b :
  String.eqb (targetReleaseOf b) reference || String.eqb (targetReleaseOf b) "---"
  = bool_decide (inRelease reference b).
Proof.
  rewrite !eqb_bool_decide, targetReleaseOf_resolved. apply eq_true_iff_eq.
  rewrite orb_true_iff, !bool_decide_eq_true. done.
Qed.

Lemma triage_test reference b :
  (String.eqb (targetReleaseOf b) reference && Has (NewString ["NEW"; ""]) (Status b))
  || String.eqb (targetReleaseOf b) "---"
  || String.eqb (Priority b) "unspecified" || String.eqb (Priority b) ""
  || String.eqb (Severity b) "unspecified" || String.eqb (Severity b) ""
  = bool_decide (needsTriage reference b).
Proof.
  rewrite !eqb_bool_decide, targetReleaseOf_resolved, Has_NewString.
  apply eq_true_iff_eq. unfold needsTriage.
  rewrite !orb_true_iff, andb_true_iff, !bool_decide_eq_true.
  rewrite !elem_of_cons, elem_of_nil. tauto.
Qed.

Lemma sprint_test b :
  negb (Has (NewString (Keywords b)) "UpcomingSprint")
  = bool_decide (lacksUpcomingSprint b).
Proof.
  rewrite Has_NewString. unfold lacksUpcomingSprint.
  apply eq_true_iff_eq. rewrite negb_true_iff, bool_decide_eq_false, bool_decide_eq_true.
  done.
Qed.

(** A field that one turn of the loop extends by at most one element holds,
    after the loop, one element for every bug that met the condition. *)
Lemma fold_bucket {A} (f : bugSummary → list A) (c : Bug → Prop) `{∀ b, Decision (c b)}
    (g : Bug → A) reference :
  (∀ r bug, f (summarizeBug FormatBugMessage reference r bug)
            = f r ++ (if bool_decide (c bug) then [g bug] else [])) →
  ∀ bugs r,
    f (fold_left (summarizeBug FormatBugMessage reference) bugs r)
    = f r ++ (g <$> filter c bugs).
Proof.
  intros Hstep bugs. induction bugs as [|bug bugs IH]; intros r; simpl.
  - by rewrite app_nil_r.
  - rewrite IH, Hstep, filter_cons.
    case_bool_decide; case_decide; try done; by rewrite <- ?app_assoc, ?app_nil_r.
Qed.

(** The same for a counter. *)
Lemma fold_counter (f : bugSummary → Z) (c : Bug → Prop) `{∀ b, Decision (c b)} reference :
  (∀ r bug, f (summarizeBug FormatBugMessage reference r bug)
            = (f r + (if bool_decide (c bug) then 1 else 0))%Z) →
  ∀ bugs r,
    f (fold_left (summarizeBug FormatBugMessage reference) bugs r)
    = (f r + count c bugs)%Z.
Proof.
  intros Hstep bugs. induction bugs as [|bug bugs IH]; intros r; simpl.
  - unfold count, len. simpl. lia.
  - rewrite IH, Hstep. unfold count, len. rewrite filter_cons.
    case_bool_decide; case_decide; try done; simpl; lia.
Qed.

(** X1.  The urgent bucket holds, in the order of the input, the bugs whose
    priority or whose severity is urgent: their identifiers in [urgentIDs]
    and their display lines in [urgent]. *)
Theorem urgent_bucket (reference : string) (bugs : list Bug) :
  let r := summarizeBugs FormatBugMessage reference bugs in
  urgentIDs r = ID <$> filter isUrgent bugs
  ∧ urgent r = FormatBugMessage <$> filter isUrgent bugs.
Proof.
  cbn zeta. unfold summarizeBugs. split.
  - rewrite (fold_bucket urgentIDs isUrgent ID); [done|].
    intros r bug. unfold summarizeBug. cbn [urgentIDs]. by rewrite urgent_test, append_if_app.
  - rewrite (fold_bucket urgent isUrgent FormatBugMessage); [done|].
    intros r bug. unfold summarizeBug. cbn [urgent]. by rewrite urgent_test, append_if_app.
Qed.

(** X2.  The to-triage bucket holds the bugs that are new (status NEW or
    empty) in the reference release, or have no target release, or have an
    unspecified or empty priority or severity; a bug without target release
    is always among them. *)
Theorem toTriage_bucket (reference : string) (bugs : list Bug) (b : Bug) :
  let r := summarizeBugs FormatBugMessage reference bugs in
  toTriageIDs r = ID <$> filter (needsTriage reference) bugs
  ∧ toTriage r = FormatBugMessage <$> filter (needsTriage reference) bugs
  ∧ needsTriage reference (withoutTargetRelease b).
Proof.
  cbn zeta. unfold summarizeBugs. split; [|split].
  - rewrite (fold_bucket toTriageIDs (needsTriage reference) ID); [done|].
    intros r bug. unfold summarizeBug. cbn [toTriageIDs]. by rewrite triage_test, append_if_app.
  - rewrite (fold_bucket toTriage (needsTriage reference) FormatBugMessage); [done|].
    intros r bug. unfold summarizeBug. cbn [toTriage]. by rewrite triage_test, append_if_app.
  - right. by left.
Qed.

(** X3.  The needs-upcoming-sprint bucket holds the bugs that do not carry
    the keyword UpcomingSprint. *)
Theorem needUpcomingSprint_bucket (reference : string) (bugs : list Bug) :
  let r := summarizeBugs FormatBugMessage reference bugs in
  needUpcomingSprintIDs r = ID <$> filter lacksUpcomingSprint bugs
  ∧ needUpcomingSprint r = FormatBugMessage <$> filter lacksUpcomingSprint bugs.
Proof.
  cbn zeta. unfold summarizeBugs. split.
  - rewrite (fold_bucket needUpcomingSprintIDs lacksUpcomingSprint ID); [done|].
    intros r bug. unfold summarizeBug. cbn [needUpcomingSprintIDs]. by rewrite sprint_test, append_if_app.
  - rewrite (fold_bucket needUpcomingSprint lacksUpcomingSprint FormatBugMessage); [done|].
    intros r bug. unfold summarizeBug. cbn [needUpcomingSprint]. by rewrite sprint_test, append_if_app.
Qed.

(** The display lines of the two blocker buckets. *)
Lemma blocker_lines (reference : string) (bugs : list Bug) :
  let r := summarizeBugs FormatBugMessage reference bugs in
  blockerPlus r = FormatBugMessage <$> filter (blockerGate "+" reference) bugs
  ∧ blockerQuestionmark r = FormatBugMessage <$> filter (blockerGate "?" reference) bugs.
Proof.
  cbn zeta. unfold summarizeBugs. split.
  - rewrite (fold_bucket blockerPlus (blockerGate "+" reference) FormatBugMessage); [done|].
    intros r bug. unfold summarizeBug. cbn [blockerPlus]. by rewrite gate_blockerGate, append_if_app.
  - rewrite (fold_bucket blockerQuestionmark (blockerGate "?" reference) FormatBugMessage);
      [done|].
    intros r bug. unfold summarizeBug. cbn [blockerQuestionmark].
    by rewrite gate_blockerGate, append_if_app.
Qed.

(** X4.  The stale count is the number of bugs whose whiteboard contains
    LifecycleStale, and the current-release count is the number of bugs
    slated against the reference release or against none; both lie between
    0 and the number of bugs. *)
Theorem stale_and_release_counts (reference : string) (bugs : list Bug) :
  let r := summarizeBugs FormatBugMessage reference bugs in
  staleCount r = count isStale bugs
  ∧ currentReleaseCount r = count (inRelease reference) bugs
  ∧ (0 ≤ staleCount r ≤ len bugs)%Z
  ∧ (0 ≤ currentReleaseCount r ≤ len bugs)%Z.
Proof.
  cbn zeta. unfold summarizeBugs.
  assert (Hs : staleCount (fold_left (summarizeBug FormatBugMessage reference) bugs
                             emptySummary) = count isStale bugs).
  { rewrite (fold_counter staleCount isStale); [done|].
    intros r bug. unfold summarizeBug. cbn [staleCount].
    destruct (strings_Contains (Whiteboard bug) "LifecycleStale") eqn:Hstale.
    - rewrite bool_decide_eq_true_2; [done|]. unfold isStale. by rewrite Hstale.
    - rewrite bool_decide_eq_false_2; [lia|]. unfold isStale. rewrite Hstale. simpl. tauto. }
  assert (Hc : currentReleaseCount (fold_left (summarizeBug FormatBugMessage reference) bugs
                                      emptySummary) = count (inRelease reference) bugs).
  { rewrite (fold_counter currentReleaseCount (inRelease reference)); [done|].
    intros r bug. unfold summarizeBug. cbn [currentReleaseCount].
    rewrite release_test. case_bool_decide; lia. }
  rewrite Hs, Hc. unfold count, len.
  pose proof (length_filter isStale bugs).
  pose proof (length_filter (inRelease reference) bugs).
  repeat split; lia.
Qed.

End Buckets.
End BlockersBuckets.

(** ** Histograms and serious keywords *)

Module BlockersHistograms.
Section Histograms.

Import Blockers Rules Vocabulary BlockersClassifier.

Variable FormatBugMessage : Bug -> string.

Lemma incr_at_lookup (m : gmap string Z) k k' :
  incr_at m k !! k'
  = if bool_decide (k = k') then Some (default 0 (m !! k') + 1)%Z else m !! k'.
Proof.
  unfold incr_at. case_bool_decide as Hk.
  - subst. by rewrite lookup_insert_eq.
  - by rewrite lookup_insert_ne.
Qed.

(** A map of counters that one turn of the loop increments at the key of the
    bug holds, after the loop, the number of bugs of each key. *)
Lemma fold_histogram (h : bugSummary → gmap string Z) (key : Bug → string) reference :
  (∀ r bug, h (summarizeBug FormatBugMessage reference r bug) = incr_at (h r) (key bug)) →
  ∀ bugs r k,
    h (fold_left (summarizeBug FormatBugMessage reference) bugs r) !! k
    = match filter (λ b, key b = k) bugs with
      | [] => h r !! k
      | l => Some (default 0 (h r !! k) + len l)%Z
      end.
Proof.
  intros Hstep bugs. induction bugs as [|bug bugs IH]; intros r k; simpl; [done|].
  rewrite IH, Hstep, incr_at_lookup, filter_cons.
  case_bool_decide; case_decide; try done.
  destruct (filter _ bugs) as [|b l] eqn:Hl; simpl; f_equal; unfold len; simpl; lia.
Qed.

(** X5.  The severity histogram has an entry for exactly the severities that
    occur among the bugs, the empty one included, and the entry is the
    number of bugs of that severity; likewise the priority histogram. *)
Theorem histograms_count (reference : string) (bugs : list Bug) (k : string) :
  let r := summarizeBugs FormatBugMessage reference bugs in
  severityCount r !! k
  = (if decide (count (λ b, Severity b = k) bugs = 0) then None
     else Some (count (λ b, Severity b = k) bugs))
  ∧ priorityCount r !! k
    = (if decide (count (λ b, Priority b = k) bugs = 0) then None
       else Some (count (λ b, Priority b = k) bugs)).
Proof.
  cbn zeta. unfold summarizeBugs, count. split.
  - rewrite (fold_histogram severityCount Severity); [|done].
    destruct (filter _ bugs) as [|b l]; unfold len; cbn [length emptySummary severityCount];
      rewrite lookup_empty; case_decide; try lia; try done.
  - rewrite (fold_histogram priorityCount Priority); [|done].
    destruct (filter _ bugs) as [|b l]; unfold len; cbn [length emptySummary priorityCount];
      rewrite lookup_empty; case_decide; try lia; try done.
Qed.

(** The loop over the serious keywords, for any list of distinct keywords. *)
Lemma fold_keywords (keywords : gset string) (id : Z) ks :
  NoDup ks →
  ∀ m k,
    at_key (fold_left (fun m keyword =>
                         if Has keywords keyword then append_at m keyword id else m)
                      ks m) k
    = at_key m k ++ (if bool_decide (k ∈ ks ∧ k ∈ keywords) then [id] else []).
Proof.
  induction 1 as [|k0 ks Hnotin Hnodup IH]; intros m k; cbn [fold_left].
  - rewrite bool_decide_eq_false_2; [by rewrite app_nil_r|].
    intros [Hin _]. by apply elem_of_nil in Hin.
  - rewrite IH. unfold Has.
    destruct (decide (k = k0)) as [->|Hne].
    + rewrite (bool_decide_eq_false_2 (k0 ∈ ks ∧ _)) by tauto.
      rewrite app_nil_r.
      case_bool_decide as Hk.
      * rewrite at_key_append_at_eq, bool_decide_eq_true_2; [done|].
        split; [by left|done].
      * rewrite bool_decide_eq_false_2; [by rewrite app_nil_r|tauto].
    + assert (Hsame : at_key (if bool_decide (k0 ∈ keywords)
                              then append_at m k0 id else m) k = at_key m k).
      { case_bool_decide; [|done]. by apply at_key_append_at_ne. }
      rewrite Hsame. f_equal. apply (f_equal (λ b : bool, if b then [id] else [])).
      apply bool_decide_ext. rewrite elem_of_cons. tauto.
Qed.

Lemma seriousKeywords_NoDup : NoDup seriousKeywords.
Proof. apply (bool_decide_unpack _). vm_compute. exact I. Qed.

Lemma summarizeBug_serious reference r bug k :
  k ∈ seriousKeywords →
  at_key (seriousIDs (summarizeBug FormatBugMessage reference r bug)) k
  = at_key (seriousIDs r) k
    ++ (if bool_decide (k ∈ Keywords bug) then [ID bug] else []).
Proof.
  intros Hk. unfold summarizeBug. cbn [seriousIDs].
  assert (Hp : "blocker+" ≠ k).
  { intros <-. revert Hk. unfold seriousKeywords.
    rewrite !elem_of_cons, elem_of_nil. intros [H|[H|[H|[]]]]; discriminate H. }
  assert (Hq : "blocker?" ≠ k).
  { intros <-. revert Hk. unfold seriousKeywords.
    rewrite !elem_of_cons, elem_of_nil. intros [H|[H|[H|[]]]]; discriminate H. }
  assert (Hone : ∀ (c : bool) key (m : gmap string (list Z)), key ≠ k →
            at_key (if c then append_at m key (ID bug) else m) k = at_key m k).
  { intros c key m Hne. destruct c; [|done]. by apply at_key_append_at_ne. }
  rewrite !Hone by done.
  rewrite (fold_keywords _ _ _ seriousKeywords_NoDup). f_equal.
  apply (f_equal (λ b : bool, if b then [ID bug] else [])).
  apply bool_decide_ext. unfold NewString. rewrite elem_of_list_to_set. tauto.
Qed.

Lemma wellKeyed_append_at m k id :
  wellKeyed m → k ∈ seriousKeywords ++ ["blocker+"; "blocker?"] →
  wellKeyed (append_at m k id).
Proof.
  intros Hm Hk k' l. unfold append_at. rewrite lookup_insert.
  case_decide as Heq; [|apply Hm].
  intros [= <-]. subst. split; [|done]. by destruct (at_key m k').
Qed.

Lemma wellKeyed_summarizeBug reference r bug :
  wellKeyed (seriousIDs r) →
  wellKeyed (seriousIDs (summarizeBug FormatBugMessage reference r bug)).
Proof.
  intros Hr. unfold summarizeBug. cbn [seriousIDs].
  assert (Hfold : ∀ ks m, ks ⊆ seriousKeywords → wellKeyed m →
    wellKeyed (fold_left (fun m keyword =>
                 if Has (NewString (Keywords bug)) keyword
                 then append_at m keyword (ID bug) else m) ks m)).
  { induction ks as [|k0 ks IH]; intros m Hsub Hm; simpl; [done|].
    apply IH; [set_solver|].
    destruct (Has _ k0); [|done].
    apply wellKeyed_append_at; [done|]. apply elem_of_app. left. apply Hsub. by left. }
  assert (Hif : ∀ (c : bool) key m, key ∈ ["blocker+"; "blocker?"] → wellKeyed m →
    wellKeyed (if c then append_at m key (ID bug) else m)).
  { intros c key m Hkey Hm. destruct c; [|done].
    apply wellKeyed_append_at; [done|]. apply elem_of_app. by right. }
  apply Hif; [set_solver|]. apply Hif; [set_solver|]. by apply Hfold.
Qed.

(** X6.  Under each serious keyword the map holds the identifiers of the
    bugs that carry the keyword; every list in the map has at least one
    identifier, and the only keys are the three keywords and the two blocker
    keys. *)
Theorem serious_keyword_buckets (reference : string) (bugs : list Bug) (k : string) :
  k ∈ seriousKeywords →
  let r := summarizeBugs FormatBugMessage reference bugs in
  at_key (seriousIDs r) k = ID <$> filter (λ b, k ∈ Keywords b) bugs
  ∧ wellKeyed (seriousIDs r).
Proof.
  intros Hk. cbn zeta. unfold summarizeBugs. split.
  - assert (Hgen : ∀ bugs r,
      at_key (seriousIDs (fold_left (summarizeBug FormatBugMessage reference) bugs r)) k
      = at_key (seriousIDs r) k ++ (ID <$> filter (λ b, k ∈ Keywords b) bugs)).
    { clear bugs. intros bugs. induction bugs as [|bug bugs IH]; intros r; simpl.
      - by rewrite app_nil_r.
      - rewrite IH, summarizeBug_serious, filter_cons by done.
        case_bool_decide; case_decide; try done; by rewrite <- ?app_assoc, ?app_nil_r. }
    rewrite Hgen. simpl. by rewrite at_key_empty.
  - assert (Hgen : ∀ bugs r, wellKeyed (seriousIDs r) →
      wellKeyed (seriousIDs (fold_left (summarizeBug FormatBugMessage reference) bugs r))).
    { clear bugs. intros bugs. induction bugs as [|bug bugs IH]; intros r Hr; simpl; [done|].
      by apply IH, wellKeyed_summarizeBug. }
    apply Hgen. intros k' l'. simpl. by rewrite lookup_empty.
Qed.

End Histograms.
End BlockersHistograms.

(** ** The per-person grouper *)

Module PerPerson.
Section PerPerson.

Import Blockers Rules Vocabulary.

Variable FormatBugMessage : Bug -> string.

Lemma filter_none {A} (P : A → Prop) `{∀ x, Decision (P x)} (l : list A) :
  (∀ x, x ∈ l → ¬ P x) → filter P l = [].
Proof.
  intros Hl. destruct (filter P l) as [|x l'] eqn:Hf; [done|].
  assert (Hx : x ∈ filter P l) by (rewrite Hf; by left).
  apply list_elem_of_filter in Hx as [HP Hin]. by destruct (Hl x Hin).
Qed.

(** The index holds, for an identifier, the last bug of the list that has
    it. *)
Lemma indexByID_from bugs : ∀ (m : gmap Z Bug) id,
  fold_left (fun byID b => <[ID b := b]> byID) bugs m !! id
  = match last (filter (λ b, ID b = id) bugs) with
    | Some b => Some b
    | None => m !! id
    end.
Proof.
  induction bugs as [|b bugs IH]; intros m id; simpl; [done|].
  rewrite IH, filter_cons. case_decide as Hid.
  - rewrite last_cons. destruct (last _); [done|]. subst. by rewrite lookup_insert_eq.
  - destruct (last _); [done|]. by rewrite lookup_insert_ne.
Qed.

Lemma last_filter_unique (bugs : list Bug) (b : Bug) :
  NoDup (ID <$> bugs) → b ∈ bugs → last (filter (λ b0, ID b0 = ID b) bugs) = Some b.
Proof.
  induction bugs as [|c bugs IH]; intros Hnodup Hin; [by apply elem_of_nil in Hin|].
  rewrite fmap_cons in Hnodup. apply NoDup_cons in Hnodup as [Hc Hnodup].
  rewrite filter_cons. apply elem_of_cons in Hin as [->|Hin].
  - rewrite decide_True by done.
    assert (Hnil : filter (λ b0, ID b0 = ID c) bugs = []).
    { apply filter_none. intros b' Hb' Heq. apply Hc.
      rewrite <- Heq. apply list_elem_of_fmap. by exists b'. }
    by rewrite Hnil.
  - assert (Hne : ID c ≠ ID b).
    { intros Heq. apply Hc. rewrite Heq. apply list_elem_of_fmap. by exists b. }
    rewrite decide_False by done. by apply IH.
Qed.

Lemma indexByID_last (bugs : list Bug) (id : Z) :
  indexByID bugs !! id = last (filter (λ b, ID b = id) bugs).
Proof.
  unfold indexByID. rewrite indexByID_from, lookup_empty. by destruct (last _).
Qed.

(** X7.  Looking up an identifier in the index gives the last bug of the
    list with that identifier, and nothing exactly when no bug has it. *)
Theorem indexByID_lookup (bugs : list Bug) (id : Z) :
  indexByID bugs !! id = last (filter (λ b, ID b = id) bugs)
  ∧ (indexByID bugs !! id = None ↔ id ∉ ID <$> bugs).
Proof.
  split; [apply indexByID_last|].
  rewrite indexByID_last, last_None.
  split.
  - intros Hnil Hin. apply list_elem_of_fmap in Hin as (b' & -> & Hb').
    assert (Hf : b' ∈ filter (λ b0, ID b0 = ID b') bugs)
      by (by apply list_elem_of_filter).
    rewrite Hnil in Hf. by apply elem_of_nil in Hf.
  - intros Hnotin. apply filter_none. intros b' Hin <-.
    apply Hnotin, list_elem_of_fmap. by exists b'.
Qed.

Lemma indexByID_unique (bugs : list Bug) (b : Bug) :
  NoDup (ID <$> bugs) → b ∈ bugs → indexByID bugs !! ID b = Some b.
Proof.
  intros Hnodup Hin. rewrite indexByID_last. by apply last_filter_unique.
Qed.

End PerPerson.
End PerPerson.

Module PerPersonGroups.
Section Groups.

Import Blockers Rules Vocabulary BlockersClassifier BlockersBuckets.

Variable FormatBugMessage : Bug -> string.

Lemma noEmptyGroup_append_at {A} (m : gmap string (list A)) k x :
  noEmptyGroup m → noEmptyGroup (append_at m k x).
Proof.
  intros Hm k' l. unfold append_at. rewrite lookup_insert.
  case_decide; [|apply Hm]. intros [= <-]. by destruct (at_key m k).
Qed.

Lemma assignedTo_found byID id b a :
  byID !! id = Some b → (assignedTo byID a id ↔ AssignedTo b = a).
Proof.
  intros Hb. unfold assignedTo. split.
  - intros (b' & Hb' & Ha). congruence.
  - intros Ha. by exists b.
Qed.

Lemma assignedTo_missing byID id a : byID !! id = None → ¬ assignedTo byID a id.
Proof. intros Hb (b & Hb' & _). congruence. Qed.

(** The loop of the grouper, when there is a line for every identifier that
    is left. *)
Lemma perPerson_loop_some byID lines ids : ∀ i accI accL,
  (length ids ≤ length (drop i lines))%nat →
  ∃ mI mL,
    perPerson_loop byID lines i ids accI accL = Some (mI, mL)
    ∧ (∀ a, at_key mI a = at_key accI a ++ filter (assignedTo byID a) ids)
    ∧ (∀ a, at_key mL a
            = at_key accL a
              ++ (snd <$> filter (λ p, assignedTo byID a p.1) (zip ids (drop i lines))))
    ∧ (noEmptyGroup accI → noEmptyGroup mI)
    ∧ (noEmptyGroup accL → noEmptyGroup mL).
Proof.
  induction ids as [|id ids IH]; intros i accI accL Hlen.
  - exists accI, accL. simpl. repeat split; try done; intros a; by rewrite app_nil_r.
  - destruct (lines !! i) as [line|] eqn:Hline.
    2:{ apply lookup_ge_None in Hline. rewrite length_drop in Hlen. simpl in Hlen. lia. }
    rewrite (drop_S _ _ _ Hline) in Hlen |- *. simpl in Hlen.
    cbn [perPerson_loop zip zip_with]. rewrite Hline.
    destruct (byID !! id) as [b|] eqn:Hb.
    + destruct (IH (S i) (append_at accI (AssignedTo b) id)
                  (append_at accL (AssignedTo b) line) ltac:(lia))
        as (mI & mL & -> & HI & HL & HnI & HnL).
      exists mI, mL. split; [done|]. split; [|split; [|split]].
      * intros a. rewrite HI, at_key_append_at, filter_cons, <- app_assoc. f_equal.
        case_bool_decide as Ha; case_decide as Hd; try done.
        -- destruct Hd. by apply (assignedTo_found _ _ b).
        -- destruct Ha. by apply (assignedTo_found byID id b a).
      * intros a. rewrite HL, at_key_append_at, filter_cons, <- app_assoc. f_equal.
        cbn [fst]. case_bool_decide as Ha; case_decide as Hd; try done.
        -- destruct Hd. by apply (assignedTo_found _ _ b).
        -- destruct Ha. by apply (assignedTo_found byID id b a).
      * intros Hacc. by apply HnI, noEmptyGroup_append_at.
      * intros Hacc. by apply HnL, noEmptyGroup_append_at.
    + destruct (IH (S i) accI accL ltac:(lia)) as (mI & mL & -> & HI & HL & HnI & HnL).
      exists mI, mL. split; [done|]. split; [|split; [|split]]; try done.
      * intros a. rewrite HI, filter_cons, decide_False; [done|].
        by apply assignedTo_missing.
      * intros a. rewrite HL, filter_cons, decide_False; [done|].
        by apply assignedTo_missing.
Qed.

(** X8.  Given at least as many lines as identifiers, the grouper returns
    two maps: under each person the identifiers whose bug, by the index, is
    assigned to that person, in their order, and the lines at the same
    positions; identifiers that the index does not know are left out, and no
    person is given an empty list. *)
Theorem perPerson_groups (byID : gmap Z Bug) (ids : list Z) (lines : list string) :
  (length ids ≤ length lines)%nat →
  ∃ perPersonIDs perPersonLines,
    perPerson byID ids lines = Some (perPersonIDs, perPersonLines)
    ∧ (∀ a, at_key perPersonIDs a = filter (assignedTo byID a) ids)
    ∧ (∀ a, at_key perPersonLines a
            = snd <$> filter (λ p, assignedTo byID a p.1) (zip ids lines))
    ∧ noEmptyGroup perPersonIDs
    ∧ noEmptyGroup perPersonLines.
Proof.
  intros Hlen.
  destruct (perPerson_loop_some byID lines ids 0 ∅ ∅ ltac:(by rewrite drop_0))
    as (mI & mL & Hrun & HI & HL & HnI & HnL).
  exists mI, mL. split; [exact Hrun|]. rewrite drop_0 in HL.
  split; [|split; [|split]].
  - intros a. by rewrite HI, at_key_empty.
  - intros a. by rewrite HL, at_key_empty.
  - apply HnI. intros k l. by rewrite lookup_empty.
  - apply HnL. intros k l. by rewrite lookup_empty.
Qed.

(** X9.  The grouper fails on an index out of range exactly when some
    identifier that the index knows stands at a position for which there is
    no line. *)
Theorem perPerson_panics (byID : gmap Z Bug) (ids : list Z) (lines : list string) :
  perPerson byID ids lines = None
  ↔ ∃ j id, ids !! j = Some id ∧ is_Some (byID !! id) ∧ (length lines ≤ j)%nat.
Proof.
  unfold perPerson.
  assert (Hgen : ∀ ids i accI accL,
    perPerson_loop byID lines i ids accI accL = None
    ↔ ∃ j id, ids !! j = Some id ∧ is_Some (byID !! id)
              ∧ (length lines ≤ i + j)%nat).
  { clear ids. induction ids as [|id ids IH]; intros i accI accL; simpl.
    - split; [done|]. by intros (j & id & Hj & _).
    - destruct (byID !! id) as [b|] eqn:Hb.
      + destruct (lines !! i) as [line|] eqn:Hline.
        * rewrite IH. apply lookup_lt_Some in Hline. split.
          -- intros (j & id' & Hj & Hid & Hlen). exists (S j), id'.
             repeat split; [done|done|lia].
          -- intros ([|j] & id' & Hj & Hid & Hlen); [lia|].
             exists j, id'. repeat split; [done|done|lia].
        * apply lookup_ge_None in Hline. split; [|done].
          intros _. exists 0%nat, id. rewrite Hb. repeat split; [done|lia].
      + rewrite IH. split.
        * intros (j & id' & Hj & Hid & Hlen). exists (S j), id'.
          repeat split; [done|done|lia].
        * intros ([|j] & id' & Hj & Hid & Hlen).
          -- simpl in Hj. injection Hj as <-. rewrite Hb in Hid. by destruct Hid.
          -- exists j, id'. repeat split; [done|done|lia]. }
  rewrite Hgen. done.
Qed.

(** Identifiers and lines of a bucket go in step. *)
Lemma summarizeBugs_parallel reference bugs :
  let r := summarizeBugs FormatBugMessage reference bugs in
  length (toTriageIDs r) = length (toTriage r)
  ∧ length (urgentIDs r) = length (urgent r)
  ∧ length (blockerPlusIDs r) = length (blockerPlus r).
Proof.
  cbn zeta. unfold summarizeBugs.
  rewrite (fold_bucket FormatBugMessage toTriageIDs (needsTriage reference) ID),
    (fold_bucket FormatBugMessage toTriage (needsTriage reference) FormatBugMessage),
    (fold_bucket FormatBugMessage urgentIDs isUrgent ID),
    (fold_bucket FormatBugMessage urgent isUrgent FormatBugMessage),
    (fold_bucket FormatBugMessage blockerPlusIDs (blockerGate "+" reference) ID),
    (fold_bucket FormatBugMessage blockerPlus (blockerGate "+" reference) FormatBugMessage).
  - simpl. by rewrite !length_fmap.
  - intros r bug. unfold summarizeBug. cbn [blockerPlus].
    by rewrite gate_blockerGate, append_if_app.
  - intros r bug. unfold summarizeBug. cbn [blockerPlusIDs].
    by rewrite gate_blockerGate, append_if_app.
  - intros r bug. unfold summarizeBug. cbn [urgent]. by rewrite urgent_test, append_if_app.
  - intros r bug. unfold summarizeBug. cbn [urgentIDs]. by rewrite urgent_test, append_if_app.
  - intros r bug. unfold summarizeBug. cbn [toTriage]. by rewrite triage_test, append_if_app.
  - intros r bug. unfold summarizeBug. cbn [toTriageIDs].
    by rewrite triage_test, append_if_app.
Qed.

(** X10.  On the summary of any list of bugs the three groupings of [sync]
    never fail on an index out of range, whatever bugs the index is built
    from. *)
Theorem groupPerPerson_never_panics (reference : string) (found index : list Bug) :
  is_Some (groupPerPerson index (summarizeBugs FormatBugMessage reference found)).
Proof.
  destruct (summarizeBugs_parallel reference found) as (Ht & Hu & _).
  unfold groupPerPerson. cbn zeta.
  destruct (perPerson_loop_some (indexByID index)
              (toTriage (summarizeBugs FormatBugMessage reference found))
              (toTriageIDs (summarizeBugs FormatBugMessage reference found))
              0 ∅ ∅ ltac:(rewrite drop_0; lia)) as (tI & tL & Htr & _).
  destruct (perPerson_loop_some (indexByID index)
              (urgent (summarizeBugs FormatBugMessage reference found))
              (urgentIDs (summarizeBugs FormatBugMessage reference found))
              0 ∅ ∅ ltac:(rewrite drop_0; lia)) as (uI & uL & Hur & _).
  unfold perPerson. rewrite Htr, Hur. simpl. by eexists.
Qed.

End Groups.
End PerPersonGroups.

(** ** Notifications of the blockers cycle *)

Module BlockersSync.
Section Sync.

Import Blockers Rules Vocabulary NewBugsCycle.

Variable FormatBugMessage : Bug -> string.
Variable queryURL : Query -> string.

(** A loop whose body only records events records them in turn. *)
Lemma for_each_run {A} (body : A → M unit) (ev : A → list Event) :
  (∀ x w, body x w = (tt, addEvents w (ev x))) →
  ∀ l w, for_each l body w = (tt, addEvents w (flat_map ev l)).
Proof.
  intros Hbody l. induction l as [|x l IH]; intros w.
  - unfold addEvents. simpl. rewrite app_nil_r. by destruct w.
  - cbn [for_each flat_map]. unfold mbind, M_bind.
    by rewrite Hbody, IH, addEvents_addEvents.
Qed.

Lemma notifyPersons_run env intro suffix perPersonBugs outro w :
  notifyPersons env intro suffix perPersonBugs outro w
  = (tt, addEvents w (flat_map (notificationOf env intro suffix outro)
                        (map_to_list perPersonBugs))).
Proof.
  unfold notifyPersons. apply for_each_run.
  intros [person lines] w'. unfold notificationOf.
  destruct lines as [|line lines].
  - unfold mret, M_ret, addEvents. simpl. rewrite app_nil_r. by destruct w'.
  - unfold MessageEmail, Warningf, emit, mbind, M_bind, mret, M_ret, addEvents. cbn.
    destruct (emailFailure env person _); cbn; [by rewrite <- app_assoc|done].
Qed.

Lemma notifications_mails env intro suffix outro groups :
  List.filter isEmail (flat_map (notificationOf env intro suffix outro) groups)
  = mailsOf intro suffix outro groups
  ∧ List.filter (λ e, negb (isEmail e || isWarning e))
      (flat_map (notificationOf env intro suffix outro) groups) = [].
Proof.
  induction groups as [|[person lines] groups [IH1 IH2]]; [done|].
  cbn [flat_map mailsOf]. rewrite !List.filter_app, IH1, IH2.
  unfold notificationOf. destruct lines as [|line lines]; [done|].
  destruct (emailFailure env person _); done.
Qed.

(** X11.  A notification round sends one e-mail to every person who has at
    least one line, with the number of lines in the introduction, and goes
    on after a failed delivery: the e-mails do not depend on which
    deliveries fail.  Apart from them it only records warnings, and it
    leaves the store alone. *)
Theorem notifyPersons_mails (env : Env) (intro : Z → string → string)
    (suffix outro : string) (perPersonBugs : gmap string (list string)) (w : World) :
  let w' := snd (notifyPersons env intro suffix perPersonBugs outro w) in
  store w' = store w
  ∧ List.filter isEmail (newEvents w w')
    = mailsOf intro suffix outro (map_to_list perPersonBugs)
  ∧ List.filter (λ e, negb (isEmail e || isWarning e)) (newEvents w w') = [].
Proof.
  cbn zeta. rewrite notifyPersons_run. cbn [snd]. rewrite newEvents_addEvents.
  split; [done|]. apply notifications_mails.
Qed.

End Sync.
End BlockersSync.

(** ** Error texts taken for formats *)

Module Formatting.

(** A text without a percent sign comes out of the formatter as it went
    in. *)
Lemma Sprintf_plain (s : string) :
  "%"%char ∉ list_ascii_of_string s → Sprintf s = s.
Proof.
  unfold Sprintf. induction s as [|c s IH]; intros Hno; cbn [doPrintf]; [done|].
  cbn [list_ascii_of_string] in Hno. apply not_elem_of_cons in Hno as [Hc Hs].
  destruct (Ascii.eqb_spec c "%") as [->|_]; [done|]. by rewrite IH.
Qed.

End Formatting.

(** ** The blockers cycle as a whole *)

Module BlockersCycle.
Section Cycle.

Import Blockers Rules Vocabulary NewBugsCycle BlockersGrouping BlockersSync.

Variable FormatBugMessage : Bug -> string.
Variable queryURL : Query -> string.

Lemma blockers_Report_run env config components w :
  Report FormatBugMessage queryURL env config components w
  = let current := CurrentTargetRelease (Release config) in
    let q := getBugsQuery components ("---" :: TargetReleases (Release config)) in
    match tracker env q with
    | Err err => (Err err, addEvents w [EvSearch q; EvWarning "BugSearchFailed" (Sprintf err)])
    | Ok bugs =>
      let summary := summarizeBugs FormatBugMessage current bugs in
      (Ok (nl +:+ ":bug: *Today 4.x Bug Report:* :bug:" +:+ nl
           +:+ strings_Join
                 (getStatsForChannel queryURL current (len bugs) summary q
                    (getBugsQuery components ["---"; current])) nl
           +:+ nl, summary, []),
       addEvents w [EvSearch q])
    end.
Proof.
  unfold Report, Search, Warningf, emit, mbind, M_bind, mret, M_ret, addEvents.
  cbn zeta. destruct (tracker env _); cbn; [done|by rewrite <- app_assoc].
Qed.

(** X12.  When the search fails, the blockers cycle returns the error of the
    search after recording one warning.  The text of the error is handed to
    the recorder as a format: the message is that text as the formatter
    expands it, which is the text itself when it has no percent sign.
    Nothing is sent to anybody and the store is left alone. *)
Theorem blockers_sync_search_failure (env : Env) (config : OperatorConfig)
    (components : list string) (w : World) (err : error) :
  let q := getBugsQuery components ("---" :: TargetReleases (Release config)) in
  tracker env q = Err err →
  sync FormatBugMessage queryURL env config components w
  = (Returned (Some err), addEvents w [EvSearch q; EvWarning "BugSearchFailed" (Sprintf err)])
  ∧ ("%"%char ∉ list_ascii_of_string err → Sprintf err = err).
Proof.
  intros q Hq. split; [|apply Formatting.Sprintf_plain].
  unfold sync, mbind at 1, M_bind at 1.
  rewrite blockers_Report_run. cbn zeta. fold q. by rewrite Hq.
Qed.

(** X13.  When the search succeeds, the blockers cycle returns no error even
    if the delivery to the channel fails.  It sends the report to the
    channel, records a warning if that failed, and ends with an empty
    message to the administrators; it sends no e-mail, whatever was found,
    and leaves the store alone. *)
Theorem blockers_sync_success (env : Env) (config : OperatorConfig)
    (components : list string) (w : World) (found : list Bug) :
  let q := getBugsQuery components ("---" :: TargetReleases (Release config)) in
  tracker env q = Ok found →
  ∃ report,
    fst (Report FormatBugMessage queryURL env config components w)
    = Ok (report,
          summarizeBugs FormatBugMessage (CurrentTargetRelease (Release config)) found, [])
    ∧ sync FormatBugMessage queryURL env config components w
      = (Returned None,
         addEvents w
           (EvSearch q :: EvMessageChannel report
            :: match channelFailure env report with
               | Some e => [EvWarning "DeliveryFailed"
                              ("Failed to deliver stats to channel: " +:+ e)]
               | None => []
               end
            ++ [EvMessageAdminChannel ""])).
Proof.
  intros q Hq. eexists. split.
  - rewrite blockers_Report_run. cbn zeta. fold q. rewrite Hq. reflexivity.
  - unfold sync, mbind at 1, M_bind at 1.
    rewrite blockers_Report_run. cbn zeta. fold q. rewrite Hq.
    unfold groupPerPerson. cbn zeta. change (indexByID []) with (∅ : gmap Z Bug).
    rewrite !perPerson_empty.
    cbn [mbind option_bind perPersonToTriage perPersonBlockerPlus perPersonUrgent
         perPersonBlockerPlusIDs perPersonToTriageIDs perPersonUrgentIDs].
    unfold mbind, M_bind. rewrite !notifyPersons_run, map_to_list_empty.
    cbn [flat_map]. rewrite !addEvents_addEvents. cbn [app].
    unfold MessageChannel, sendAdminDebugStats, MessageAdminChannel, Warningf, emit,
      debugLines, mbind, M_bind, mret, M_ret, addEvents.
    rewrite map_to_list_empty. cbn.
    destruct (channelFailure env _); cbn; by rewrite <- !app_assoc.
Qed.

End Cycle.
End BlockersCycle.

(** ** Leads, missing components and the escalation report *)

Module EscalationMore.

Import Escalation Rules Vocabulary NewBugsCycle EscalationVerdicts.

Lemma classify_leadsBugs cfg v b l :
  at_key (leadsBugs (classify cfg v b)) l
  = at_key (leadsBugs v) l
    ++ (if bool_decide (attributedTo cfg l b ∧ l ≠ "") then [b] else []).
Proof.
  unfold classify. rewrite escalated_eligible.
  destruct (decide (eligible b)) as [He|He].
  - rewrite (bool_decide_eq_true_2 _ He).
    destruct (Component b) as [|c cs] eqn:Hc; cbn [leadsBugs].
    + assert (Hlead : leadOf cfg b = "") by (unfold leadOf; by rewrite Hc).
      rewrite bool_decide_eq_false_2; [by rewrite app_nil_r|].
      intros [[_ Hl] Hne]. congruence.
    + assert (Hlead : leadOf cfg b
                      = Lead (default {| Lead := ""; Developers := [] |}
                                (Components cfg !! c)))
        by (unfold leadOf; rewrite Hc; by destruct (Components cfg !! c)).
      rewrite <- Hlead, eqb_bool_decide. case_bool_decide as Hempty.
      * rewrite bool_decide_eq_false_2; [by rewrite app_nil_r|].
        intros [[_ Hl] Hne]. congruence.
      * rewrite at_key_append_at. f_equal.
        apply (f_equal (λ c : bool, if c then [b] else [])).
        apply bool_decide_ext. unfold attributedTo.
        split; [intros <-; done|]. by intros [[_ ?] _].
  - rewrite (bool_decide_eq_false_2 _ He).
    rewrite bool_decide_eq_false_2 by (unfold attributedTo; tauto). rewrite app_nil_r.
    by destruct (silencedCondition b).
Qed.

Lemma classify_missing cfg v b c :
  c ∈ missingComponents (classify cfg v b)
  ↔ c ∈ missingComponents v ∨ unconfigured cfg c b.
Proof.
  unfold classify, unconfigured. rewrite escalated_eligible.
  destruct (decide (eligible b)) as [He|He].
  - rewrite (bool_decide_eq_true_2 _ He).
    destruct (Component b) as [|c0 cs]; cbn [missingComponents head].
    + split; [by left|]. intros [?|(_ & ? & _)]; done.
    + destruct (Components cfg !! c0) as [comp|] eqn:Hc.
      * split; [by left|]. intros [?|(_ & [= <-] & Hnone)]; [done|congruence].
      * rewrite elem_of_union, elem_of_singleton. split.
        -- intros [->|?]; [right|by left]. done.
        -- intros [?|(_ & [= <-] & _)]; [by right|by left].
  - rewrite (bool_decide_eq_false_2 _ He).
    assert (Hsame : missingComponents
              (if silencedCondition b
               then {| assigned := assigned v; silenced := silenced v ++ [b];
                       leadsBugs := leadsBugs v;
                       missingComponents := missingComponents v |}
               else v) = missingComponents v) by by destruct (silencedCondition b).
    rewrite Hsame. split; [by left|]. intros [?|(? & _)]; done.
Qed.

Lemma fold_classify_leads cfg bugs : ∀ v l,
  at_key (leadsBugs (fold_left (classify cfg) bugs v)) l
  = at_key (leadsBugs v) l ++ filter (λ b, attributedTo cfg l b ∧ l ≠ "") bugs.
Proof.
  induction bugs as [|b bugs IH]; intros v l; simpl.
  - by rewrite app_nil_r.
  - rewrite IH, classify_leadsBugs, filter_cons.
    case_bool_decide; case_decide; try done; by rewrite <- ?app_assoc, ?app_nil_r.
Qed.

Lemma fold_classify_missing cfg bugs : ∀ v c,
  c ∈ missingComponents (fold_left (classify cfg) bugs v)
  ↔ c ∈ missingComponents v ∨ ∃ b, b ∈ bugs ∧ unconfigured cfg c b.
Proof.
  induction bugs as [|b bugs IH]; intros v c; simpl.
  - split; [by left|]. intros [?|(b & Hb & _)]; [done|]. by apply elem_of_nil in Hb.
  - rewrite IH, classify_missing. split.
    + intros [[?|?]|(b' & Hb' & ?)]; [by left| |].
      * right. exists b. split; [by left|done].
      * right. exists b'. split; [by right|done].
    + intros [?|(b' & Hb' & ?)]; [by left; left|].
      apply elem_of_cons in Hb' as [->|Hb'].
      * left. by right.
      * right. by exists b'.
Qed.

Lemma leadsBugs_lists cfg bugs l :
  at_key (leadsBugs (classifyAll cfg bugs)) l
  = filter (λ b, attributedTo cfg l b ∧ l ≠ "") bugs.
Proof. unfold classifyAll. rewrite fold_classify_leads. simpl. by rewrite at_key_empty. Qed.

Lemma noEmptyGroup_fold_classify cfg bugs : ∀ v,
  noEmptyGroup (assigned v) → noEmptyGroup (leadsBugs v) → leadsBugs v !! "" = None →
  let v' := fold_left (classify cfg) bugs v in
  noEmptyGroup (assigned v') ∧ noEmptyGroup (leadsBugs v') ∧ leadsBugs v' !! "" = None.
Proof.
  induction bugs as [|b bugs IH]; intros v Ha Hl He; simpl; [done|].
  apply IH; unfold classify.
  - destruct (escalated b); [|by destruct (silencedCondition b)].
    destruct (Component b); cbn [assigned];
      by apply PerPersonGroups.noEmptyGroup_append_at.
  - destruct (escalated b); [|by destruct (silencedCondition b)].
    destruct (Component b) as [|c cs]; cbn [leadsBugs]; [done|].
    destruct (String.eqb _ ""); [done|].
    by apply PerPersonGroups.noEmptyGroup_append_at.
  - destruct (escalated b); [|by destruct (silencedCondition b)].
    destruct (Component b) as [|c cs]; cbn [leadsBugs]; [done|].
    destruct (String.eqb_spec
                (Lead (default {| Lead := ""; Developers := [] |} (Components cfg !! c))) "")
      as [Heq|Hne]; [done|].
    unfold append_at. by rewrite lookup_insert_ne.
Qed.

(** X14.  After the loop a lead has the eligible bugs whose primary
    component is configured with that lead, in the order of the input; the
    empty name is never a key, no lead has an empty list, and the missing
    components are the primary components of eligible bugs that the
    configuration does not know. *)
Theorem leads_and_missing_components (cfg : OperatorConfig) (bugs : list Bug)
    (lead c : string) :
  let v := classifyAll cfg bugs in
  at_key (leadsBugs v) lead = filter (λ b, attributedTo cfg lead b ∧ lead ≠ "") bugs
  ∧ leadsBugs v !! "" = None
  ∧ noEmptyGroup (leadsBugs v)
  ∧ noEmptyGroup (assigned v)
  ∧ (c ∈ missingComponents v ↔ ∃ b, b ∈ bugs ∧ unconfigured cfg c b).
Proof.
  cbn zeta. split; [apply leadsBugs_lists|].
  destruct (noEmptyGroup_fold_classify cfg bugs noVerdicts) as (Ha & Hl & He);
    try (intros k l'; simpl; by rewrite lookup_empty); [done|].
  split; [exact He|]. split; [exact Hl|]. split; [exact Ha|].
  unfold classifyAll. rewrite fold_classify_missing. simpl.
  split; [intros [Hin|?]; [by apply elem_of_empty in Hin|done] | by right].
Qed.

(** X15.  A bug that is attributed to a lead is one of the input, is also
    filed under its assignee, and is not among the silenced ones. *)
Theorem attributed_bugs_are_assigned (cfg : OperatorConfig) (bugs : list Bug)
    (lead : string) (b : Bug) :
  let v := classifyAll cfg bugs in
  b ∈ at_key (leadsBugs v) lead →
  b ∈ bugs
  ∧ lead ≠ ""
  ∧ b ∈ at_key (assigned v) (AssignedTo b)
  ∧ b ∉ silenced v.
Proof.
  cbn zeta. rewrite leadsBugs_lists.
  destruct (classifyAll_buckets cfg bugs (AssignedTo b)) as [-> ->].
  rewrite !list_elem_of_filter. intros [[[He Hl] Hne] Hin].
  repeat split; try done. tauto.
Qed.

End EscalationMore.

Module EscalationCycle.
Section Cycle.

Import Escalation Rules Vocabulary NewBugsCycle.

Variable GetBugURL : Bug -> string.
Variable ExpandGroups : gmap string (list string) -> list string -> gset string.

Lemma nothing_to_report (v : verdicts) :
  Z.eqb (Z.of_nat (size (leadsBugs v))) 0 && Z.eqb (len (silenced v)) 0
  = bool_decide (leadsBugs v = ∅ ∧ silenced v = []).
Proof.
  apply eq_true_iff_eq.
  rewrite andb_true_iff, !Z.eqb_eq, bool_decide_eq_true. unfold len.
  rewrite <- (map_size_empty_iff (leadsBugs v)), <- (length_zero_iff_nil (silenced v)). lia.
Qed.

Lemma escalation_Report_run env slack cfg components w :
  Report GetBugURL ExpandGroups env slack cfg components w
  = let q := getSeverityUrgentBugsQuery components in
    match tracker env q with
    | Err err => (Err err, addEvents w [EvSearch q; EvWarning "BugSearchFailed" (Sprintf err)])
    | Ok found =>
      let v := classifyAll cfg found in
      (Ok (if bool_decide (leadsBugs v = ∅ ∧ silenced v = []) then ""
           else strings_Join
                  (["Escalation report:"; ""] ++ leadLines GetBugURL ExpandGroups cfg (leadsBugs v)
                   ++ assigneeLines GetBugURL (assigned v)
                   ++ silencedLines GetBugURL (silenced v)) nl),
       addEvents w
         (EvSearch q
          :: if Z.ltb 0 (Z.of_nat (size (missingComponents v))) && slack
             then [EvMessageAdminChannel
                     ("Missing components in config: "
                      +:+ strings_Join (sorted_List (missingComponents v)) ", ")]
             else []))
    end.
Proof.
  unfold Report, getSeverityUrgentBugs, Search, MessageAdminChannel, Warningf,
    mbind, M_bind, mret, M_ret, emit, addEvents.
  cbn zeta. destruct (tracker env _) as [found|err]; cbn [fst snd store trace].
  - rewrite nothing_to_report.
    destruct (Z.ltb 0 _ && slack); case_bool_decide; cbn [store trace];
      by rewrite <- ?app_assoc.
  - by rewrite <- app_assoc.
Qed.

(** X16.  When the search fails, the escalation report and the escalation
    cycle both return the error of the search after recording one warning.
    The text of the error is handed to the recorder as a format: the message
    is that text as the formatter expands it, which is the text itself when
    it has no percent sign.  Nothing is sent. *)
Theorem escalation_search_failure (env : Env) (slack : bool) (cfg : OperatorConfig)
    (components : list string) (w : World) (err : error) :
  let q := getSeverityUrgentBugsQuery components in
  tracker env q = Err err →
  Report GetBugURL ExpandGroups env slack cfg components w
  = (Err err, addEvents w [EvSearch q; EvWarning "BugSearchFailed" (Sprintf err)])
  ∧ sync GetBugURL ExpandGroups env cfg components w
    = (Some err, addEvents w [EvSearch q; EvWarning "BugSearchFailed" (Sprintf err)])
  ∧ ("%"%char ∉ list_ascii_of_string err → Sprintf err = err).
Proof.
  intros q Hq. split; [|split; [|apply Formatting.Sprintf_plain]];
    unfold sync, mbind, M_bind, mret, M_ret;
    rewrite !escalation_Report_run; cbn zeta; fold q; by rewrite Hq.
Qed.

(** X17.  When the search succeeds, the report is empty exactly when no bug
    is attributed to a lead and none is silenced; otherwise it opens with
    the line "Escalation report:".  Besides the search, [Report] sends at
    most one message, to the administrators, and only when a chat client
    was passed and some component is missing from the configuration. *)
Theorem escalation_report_text (env : Env) (slack : bool) (cfg : OperatorConfig)
    (components : list string) (w : World) (found : list Bug) :
  let q := getSeverityUrgentBugsQuery components in
  tracker env q = Ok found →
  let v := classifyAll cfg found in
  ∃ report,
    Report GetBugURL ExpandGroups env slack cfg components w
    = (Ok report,
       addEvents w
         (EvSearch q
          :: if bool_decide (missingComponents v ≠ ∅ ∧ slack = true)
             then [EvMessageAdminChannel
                     ("Missing components in config: "
                      +:+ strings_Join (sorted_List (missingComponents v)) ", ")]
             else []))
    ∧ (report = "" ↔ leadsBugs v = ∅ ∧ silenced v = [])
    ∧ (report ≠ "" ↔ String.prefix ("Escalation report:" +:+ nl) report = true).
Proof.
  intros q Hq v. rewrite escalation_Report_run. cbn zeta. fold q. rewrite Hq. fold v.
  eexists. split; [|split].
  - f_equal. f_equal. f_equal.
    apply (f_equal (λ c : bool, if c then _ else [])).
    apply eq_true_iff_eq.
    rewrite andb_true_iff, Z.ltb_lt, bool_decide_eq_true.
    assert (Hsize : (0 < Z.of_nat (size (missingComponents v)))%Z
                    ↔ missingComponents v ≠ ∅).
    { rewrite <- (leibniz_equiv_iff (missingComponents v) ∅), <- size_non_empty_iff. lia. }
    rewrite Hsize. done.
  - case_bool_decide as Hnone; [done|].
    split; [|done]. cbn. discriminate.
  - case_bool_decide as Hnone.
    + split; [done|]. cbn. discriminate.
    + split; [|cbn; discriminate]. intros _. cbn.
      by destruct (leadLines _ _ _ _ ++ _).
Qed.

(** X18.  When the search succeeds and there is something to report, the
    escalation cycle sends the report to the channel, once, and returns what
    the delivery returned, after recording a warning if it failed. *)
Theorem escalation_sync_delivers (env : Env) (cfg : OperatorConfig)
    (components : list string) (w : World) (found : list Bug) :
  let q := getSeverityUrgentBugsQuery components in
  tracker env q = Ok found →
  let v := classifyAll cfg found in
  ¬ (leadsBugs v = ∅ ∧ silenced v = []) →
  ∃ report w1,
    Report GetBugURL ExpandGroups env true cfg components w = (Ok report, w1)
    ∧ sync GetBugURL ExpandGroups env cfg components w
      = (channelFailure env report,
         addEvents w1
           (EvMessageChannel report
            :: match channelFailure env report with
               | Some e => [EvWarning "DeliveryFailed"
                              ("Failed to deliver closed bug counts: " +:+ e)]
               | None => []
               end)).
Proof.
  intros q Hq v Hsome.
  unfold sync, mbind at 1, M_bind at 1.
  rewrite escalation_Report_run. cbn zeta. fold q. rewrite Hq. fold v.
  rewrite bool_decide_eq_false_2 by done.
  eexists _, _. split; [reflexivity|].
  unfold MessageChannel, Warningf, emit, mbind, M_bind, mret, M_ret, addEvents.
  cbn [strings_Join app String.length Nat.eqb String.append].
  cbn [fst snd store trace].
  match goal with |- context [Nat.eqb (String.length ?s) 0] =>
    change (Nat.eqb (String.length s) 0) with false end.
  cbn iota.
  destruct (channelFailure env _); cbn [fst snd store trace]; by rewrite <- ?app_assoc.
Qed.

End Cycle.
End EscalationCycle.

(** ** The quota of a lead in the escalation report *)

Module EscalationLeads.
Section Leads.

Import Escalation Rules Vocabulary NewBugsCycle.

Variable GetBugURL : Bug -> string.
Variable ExpandGroups : gmap string (list string) -> list string -> gset string.

(** The roots of a lead's team are the developers of the components that
    the lead leads. *)
Lemma roots_developers cfg lead d :
  d ∈ roots cfg lead
  ↔ ∃ c comp, Components cfg !! c = Some comp ∧ Lead comp = lead ∧ d ∈ Developers comp.
Proof.
  unfold roots.
  assert (Hgen : ∀ l : list (string * ComponentConfig),
    d ∈ foldr (λ '(_, comp) acc,
                 if String.eqb (Lead comp) lead then acc ∪ NewString (Developers comp)
                 else acc) (∅ : gset string) l
    ↔ ∃ c comp, (c, comp) ∈ l ∧ Lead comp = lead ∧ d ∈ Developers comp).
  { induction l as [|[c comp] l IH]; cbn [foldr].
    - split; [intros Hin; by apply elem_of_empty in Hin|].
      intros (c & comp & Hin & _). by apply elem_of_nil in Hin.
    - destruct (String.eqb_spec (Lead comp) lead) as [Heq|Hne].
      + rewrite elem_of_union, IH. unfold NewString. rewrite elem_of_list_to_set. split.
        * intros [(c' & comp' & Hin & Hrest)|Hd].
          -- exists c', comp'. split; [by right|done].
          -- exists c, comp. split; [by left|done].
        * intros (c' & comp' & Hin & Hl & Hd).
          apply elem_of_cons in Hin as [[= -> ->]|Hin]; [by right|].
          left. by exists c', comp'.
      + rewrite IH. split.
        * intros (c' & comp' & Hin & Hrest). exists c', comp'. split; [by right|done].
        * intros (c' & comp' & Hin & Hl & Hd).
          apply elem_of_cons in Hin as [[= -> ->]|Hin]; [done|].
          by exists c', comp'. }
  rewrite Hgen. by setoid_rewrite elem_of_map_to_list.
Qed.

(** C5.  For a lead to whom bugs are attributed, the team is the expansion
    of the developers of the lead's components, and the quota is the greater
    of 1 and a fifth of the size of that team, rounded down, for every team
    of fewer than 2^51 members; it is 1 for teams of 0 and 1, 2 for a team
    of 10 and 4 for a team of 20.  The report has the lead's headline,
    followed by the lead's bugs, and the headline is the one marked with the
    siren exactly when the lead has more bugs than the quota. *)
Theorem quota_is_a_fifth_of_the_team (env : Env) (slack : bool) (cfg : OperatorConfig)
    (components : list string) (w : World) (found : list Bug) (lead : string) :
  tracker env (getSeverityUrgentBugsQuery components) = Ok found →
  let bugs := filter (λ b, attributedTo cfg lead b ∧ lead ≠ "") found in
  bugs ≠ [] →
  let developers := roots cfg lead in
  let n := Z.of_nat (size (ExpandGroups (Groups cfg) (sorted_List developers))) in
  (n < 2 ^ 51)%Z →
  let quota := Z.max 1 (n / 5) in
  let headline :=
    if bool_decide (len bugs > quota)%Z
    then ":red-siren: " +:+ lead +:+ "'s team with " +:+ Itoa (len bugs)
         +:+ " bugs, above the quota of " +:+ Itoa quota
    else lead +:+ "'s team with " +:+ Itoa (len bugs) +:+ " bug" in
  (∀ d, d ∈ developers
        ↔ ∃ c comp, Components cfg !! c = Some comp ∧ Lead comp = lead
                    ∧ d ∈ Developers comp)
  ∧ maxEscalations n = quota
  ∧ (maxEscalations 0 = 1 ∧ maxEscalations 1 = 1
     ∧ maxEscalations 10 = 2 ∧ maxEscalations 20 = 4)
  ∧ ∃ before after,
      fst (Report GetBugURL ExpandGroups env slack cfg components w)
      = Ok (strings_Join
              (["Escalation report:"; ""] ++ before
               ++ headline :: map (bugLine GetBugURL) bugs ++ after) nl).
Proof.
  intros Hfound bugs Hne developers n Hn quota headline.
  split; [intros d; apply roots_developers|].
  assert (Hq : maxEscalations n = quota)
    by (apply EscalationQuota.maxEscalations_quota; unfold n in *; lia).
  split; [exact Hq|]. split; [by vm_compute|].
  rewrite EscalationCycle.escalation_Report_run. cbn zeta. rewrite Hfound. cbn [fst].
  set (v := classifyAll cfg found).
  assert (Hat : at_key (leadsBugs v) lead = bugs) by apply EscalationMore.leadsBugs_lists.
  assert (Hlookup : leadsBugs v !! lead = Some bugs).
  { unfold at_key in Hat. destruct (leadsBugs v !! lead) as [l|]; simpl in Hat; [by subst|].
    by destruct Hne. }
  rewrite bool_decide_eq_false_2
    by (intros [Hempty _]; rewrite Hempty, lookup_empty in Hlookup; done).
  apply elem_of_map_to_list, list_elem_of_split in Hlookup as (l1 & l2 & Hsplit).
  unfold leadLines. rewrite Hsplit, flat_map_app. cbn [flat_map].
  set (piece := λ '(lead, bugs),
         leadHeadline ExpandGroups cfg lead bugs :: map (bugLine GetBugURL) bugs).
  exists (flat_map piece l1),
         (flat_map piece l2 ++ assigneeLines GetBugURL (assigned v)
          ++ silencedLines GetBugURL (silenced v)).
  apply (f_equal (λ l, Ok (strings_Join (["Escalation report:"; ""] ++ l) nl))).
  rewrite <- !app_assoc. f_equal. cbn [app]. f_equal.
  change (leadHeadline ExpandGroups cfg lead bugs)
    with (if Z.gtb (len bugs) (maxEscalations n)
          then overQuotaLine lead (len bugs) (maxEscalations n)
          else normalLine lead (len bugs)).
  rewrite Hq. unfold headline, overQuotaLine, normalLine.
  destruct (Z.gtb_spec (len bugs) quota).
  - by rewrite bool_decide_eq_true_2 by lia.
  - by rewrite bool_decide_eq_false_2 by lia.
Qed.

End Leads.
End EscalationLeads.

Lemma quota_witness :
  let found := [Samples.escalatedHigh 1; Samples.escalatedHigh 2] in
  let env := Tracker.reliable found in
  let GetBugURL := λ b : Bug, "#" +:+ Itoa (ID b) in
  let n := Z.of_nat (size (Samples.noGroups (Groups Samples.teamConfig)
                             (sorted_List (Escalation.roots Samples.teamConfig "carol")))) in
  tracker env (Escalation.getSeverityUrgentBugsQuery ["etcd"]) = Ok found
  ∧ filter (λ b, Vocabulary.attributedTo Samples.teamConfig "carol" b ∧ "carol" ≠ "") found
    = found
  ∧ n = 7
  ∧ Escalation.maxEscalations n = 1
  ∧ ∃ before after,
      fst (Escalation.Report GetBugURL Samples.noGroups env true Samples.teamConfig ["etcd"]
             Tracker.newWorld)
      = Ok (strings_Join
              (["Escalation report:"; ""] ++ before
               ++ ":red-siren: carol's team with 2 bugs, above the quota of 1"
                  :: map (Escalation.bugLine GetBugURL) found ++ after) nl).
Proof.
  cbn zeta.
  assert (H1 : tracker (Tracker.reliable [Samples.escalatedHigh 1; Samples.escalatedHigh 2])
                 (Escalation.getSeverityUrgentBugsQuery ["etcd"])
               = Ok [Samples.escalatedHigh 1; Samples.escalatedHigh 2])
    by (vm_compute; reflexivity).
  assert (H2 : filter (λ b, Vocabulary.attributedTo Samples.teamConfig "carol" b
                            ∧ "carol" ≠ "")
                 [Samples.escalatedHigh 1; Samples.escalatedHigh 2]
               = [Samples.escalatedHigh 1; Samples.escalatedHigh 2])
    by (vm_compute; reflexivity).
  assert (H3 : filter (λ b, Vocabulary.attributedTo Samples.teamConfig "carol" b
                            ∧ "carol" ≠ "")
                 [Samples.escalatedHigh 1; Samples.escalatedHigh 2] ≠ [])
    by (rewrite H2; discriminate).
  assert (Hn : Z.of_nat (size (Samples.noGroups (Groups Samples.teamConfig)
                                 (sorted_List (Escalation.roots Samples.teamConfig "carol"))))
               = 7) by (vm_compute; reflexivity).
  assert (H4 : (Z.of_nat (size (Samples.noGroups (Groups Samples.teamConfig)
                                  (sorted_List (Escalation.roots Samples.teamConfig "carol"))))
                < 2 ^ 51)%Z) by (rewrite Hn; reflexivity).
  destruct (EscalationLeads.quota_is_a_fifth_of_the_team (λ b : Bug, "#" +:+ Itoa (ID b))
              Samples.noGroups _ true Samples.teamConfig ["etcd"] Tracker.newWorld _ "carol"
              H1 H3 H4) as (_ & Hq & _ & before & after & Hreport).
  split; [exact H1|]. split; [exact H2|]. split; [exact Hn|].
  split; [rewrite Hq, Hn; reflexivity|].
  exists before, after. rewrite Hreport, H2, Hn. reflexivity.
Defined.

(** ** Writing a watermark and reading it back *)

Module Watermark.

Import NewBugs Rules Vocabulary NewBugsCycle.

Lemma digit_value_char (d : N) :
  (d < 10)%N → digit_value (pretty_N_char d) = Some (Z.of_N d).
Proof.
  intros Hd.
  assert (Hcases : d = 0%N ∨ d = 1%N ∨ d = 2%N ∨ d = 3%N ∨ d = 4%N ∨ d = 5%N
                   ∨ d = 6%N ∨ d = 7%N ∨ d = 8%N ∨ d = 9%N) by lia.
  destruct Hcases as [->|[->|[->|[->|[->|[->|[->|[->|[->| ->]]]]]]]]]; reflexivity.
Qed.

(** The digits that [pretty_N_go] puts in front of a string denote the
    number. *)
Lemma parse_pretty_N_go (x : N) : ∀ s,
  parse_digits (pretty_N_go x s) 0 = parse_digits s (Z.of_N x).
Proof.
  induction (N.lt_wf_0 x) as [x _ IH]; intros s.
  destruct (decide (x = 0%N)) as [->|Hx]; [by rewrite pretty_N_go_0|].
  rewrite pretty_N_go_step by lia.
  rewrite IH by (apply N.div_lt; lia).
  cbn [parse_digits]. rewrite digit_value_char by (apply N.mod_lt; lia).
  f_equal. rewrite N2Z.inj_div, N2Z.inj_mod.
  change (Z.of_N 10) with 10%Z.
  pose proof (Z_div_mod_eq_full (Z.of_N x) 10). lia.
Qed.

(** A positive number is printed with a digit in front. *)
Lemma pretty_N_go_head (x : N) : ∀ s,
  (0 < x)%N → ∃ c r, pretty_N_go x s = String c r ∧ is_Some (digit_value c).
Proof.
  induction (N.lt_wf_0 x) as [x _ IH]; intros s Hx.
  rewrite pretty_N_go_step by done.
  destruct (decide (x `div` 10 = 0)%N) as [Hz|Hnz].
  - rewrite Hz, pretty_N_go_0. eexists _, _. split; [done|].
    rewrite digit_value_char by (apply N.mod_lt; lia). done.
  - apply IH; [apply N.div_lt; lia | by apply N.neq_0_lt_0].
Qed.

Lemma digit_value_range c d : digit_value c = Some d → (0 ≤ d ≤ 9)%Z.
Proof.
  unfold digit_value.
  destruct (Z.leb_spec 48 (Z.of_N (N_of_ascii c))); [|done].
  destruct (Z.leb_spec (Z.of_N (N_of_ascii c)) 57); [|done].
  intros [= <-]. lia.
Qed.

(** Reading digits never makes the value smaller. *)
Lemma parse_digits_ge s : ∀ k m,
  (0 ≤ k)%Z → parse_digits s k = Some m → (k ≤ m)%Z.
Proof.
  induction s as [|c s IH]; intros k m Hk; cbn [parse_digits].
  - intros [= <-]. lia.
  - destruct (digit_value c) as [d|] eqn:Hd; [|done].
    apply digit_value_range in Hd. intros Hm. apply IH in Hm; lia.
Qed.

(** On a string of digits whose value fits [uint64], the loop of
    [ParseUint] computes that value. *)
Lemma ParseUint_digits s : ∀ n m,
  (0 ≤ n)%Z → parse_digits s n = Some m → (m ≤ maxUint64)%Z → ParseUint s n = Ok m.
Proof.
  induction s as [|c s IH]; intros n m Hn; cbn [parse_digits ParseUint].
  - by intros [= <-].
  - destruct (digit_value c) as [d|] eqn:Hd; [|done].
    apply digit_value_range in Hd. intros Hm Hmax.
    assert (Hge : (10 * n + d ≤ m)%Z) by (apply (parse_digits_ge s); [lia|done]).
    unfold maxUint64 in *.
    destruct (Z.geb_spec n ((2 ^ 64 - 1) / 10 + 1)) as [Hcut|_].
    { change ((2 ^ 64 - 1) / 10 + 1)%Z with 1844674407370955162%Z in Hcut. lia. }
    destruct (Z.gtb_spec (10 * n + d) (2 ^ 64 - 1)) as [Hbig|_]; [lia|].
    apply IH; [lia|done|done].
Qed.

(** What the loop accepts is the value of a string of digits. *)
Lemma ParseUint_Ok s : ∀ n m, ParseUint s n = Ok m → parse_digits s n = Some m.
Proof.
  induction s as [|c s IH]; intros n m; cbn [parse_digits ParseUint].
  - by intros [= <-].
  - destruct (digit_value c) as [d|]; [|done].
    destruct (Z.geb _ _); [done|]. destruct (Z.gtb _ _); [done|]. apply IH.
Qed.

(** [Atoi] on a string that starts with a digit. *)
Lemma Atoi_unsigned c r :
  is_Some (digit_value c) →
  Atoi (String c r)
  = match ParseUint (String c r) 0 with
    | Err ErrSyntax => Err (syntaxError (String c r))
    | Err ErrRange => Err (rangeError (String c r))
    | Ok n =>
      if Z.leb (- 2 ^ 63) n && Z.ltb n (2 ^ 63) then Ok n
      else Err (rangeError (String c r))
    end.
Proof.
  intros [d Hd].
  destruct c as [[] [] [] [] [] [] [] []]; try discriminate Hd; reflexivity.
Qed.

Lemma Atoi_negative c r :
  is_Some (digit_value c) →
  Atoi (String "-" (String c r))
  = match ParseUint (String c r) 0 with
    | Err ErrSyntax => Err (syntaxError (String "-" (String c r)))
    | Err ErrRange => Err (rangeError (String "-" (String c r)))
    | Ok n =>
      if Z.leb (- 2 ^ 63) (- n) && Z.ltb (- n) (2 ^ 63) then Ok (- n)
      else Err (rangeError (String "-" (String c r)))
    end.
Proof. reflexivity. Qed.

Lemma pretty_positive_go (p : positive) : pretty p = pretty_N_go (N.pos p) "".
Proof. reflexivity. Qed.

Lemma Atoi_pretty (n : Z) :
  (- 2 ^ 63 ≤ n < 2 ^ 63)%Z → Atoi (Itoa n) = Ok n.
Proof.
  intros Hn. unfold Itoa, pretty, pretty_Z.
  destruct n as [|p|p]; [reflexivity| |].
  - rewrite pretty_positive_go.
    destruct (pretty_N_go_head (N.pos p) "" ltac:(lia)) as (c & r & Hs & Hc).
    rewrite Hs, Atoi_unsigned by done.
    rewrite <- Hs, (ParseUint_digits _ 0 (Z.pos p)).
    + destruct (Z.leb_spec (- 2 ^ 63) (Z.pos p)); [|lia].
      destruct (Z.ltb_spec (Z.pos p) (2 ^ 63)); [done|lia].
    + lia.
    + by rewrite parse_pretty_N_go.
    + unfold maxUint64. lia.
  - rewrite pretty_positive_go.
    destruct (pretty_N_go_head (N.pos p) "" ltac:(lia)) as (c & r & Hs & Hc).
    rewrite Hs. change ("-" +:+ String c r) with (String "-" (String c r)).
    rewrite Atoi_negative by done.
    rewrite <- Hs, (ParseUint_digits _ 0 (Z.pos p)).
    + change (- Z.pos p)%Z with (Z.neg p).
      destruct (Z.leb_spec (- 2 ^ 63) (Z.neg p)); [|lia].
      destruct (Z.ltb_spec (Z.neg p) (2 ^ 63)); [done|lia].
    + lia.
    + by rewrite parse_pretty_N_go.
    + unfold maxUint64. lia.
Qed.

(** X19.  A watermark written with [Itoa] is read back by [Atoi] as the same
    number, for every value of a 64-bit [int]. *)
Theorem Atoi_Itoa (n : Z) :
  (- 2 ^ 63 ≤ n < 2 ^ 63)%Z → Atoi (Itoa n) = Ok n.
Proof. apply Atoi_pretty. Qed.

Lemma Atoi_range s n : Atoi s = Ok n → (- 2 ^ 63 ≤ n < 2 ^ 63)%Z.
Proof.
  unfold Atoi.
  destruct (match s with
            | String "-"%char r => (true, r)
            | String "+"%char r => (false, r)
            | _ => (false, s)
            end) as [neg digits].
  destruct digits as [|c r]; [done|].
  destruct (ParseUint (String c r) 0) as [m|[]]; [|done|done].
  destruct (Z.leb_spec (- 2 ^ 63) (if neg then (- m)%Z else m)); [|done].
  destruct (Z.ltb_spec (if neg then (- m)%Z else m) (2 ^ 63)); [|done].
  intros [= <-]. done.
Qed.

Lemma parsedState_range s : (- 2 ^ 63 ≤ parsedState s < 2 ^ 63)%Z.
Proof.
  unfold parsedState. destruct (String.eqb s ""); [done|].
  destruct (Atoi s) as [n|e] eqn:Hs; [by apply Atoi_range in Hs|done].
Qed.

Lemma parsedState_Itoa n : (- 2 ^ 63 ≤ n < 2 ^ 63)%Z → parsedState (Itoa n) = n.
Proof.
  intros Hn. unfold parsedState. pose proof (Atoi_pretty n Hn) as Hok.
  destruct (String.eqb_spec (Itoa n) "") as [Hempty|_]; [|by rewrite Hok].
  rewrite Hempty in Hok. discriminate Hok.
Qed.

Lemma maxID_range watermark bugs :
  (- 2 ^ 63 ≤ watermark < 2 ^ 63)%Z →
  Forall (λ b, - 2 ^ 63 ≤ ID b < 2 ^ 63)%Z bugs →
  (- 2 ^ 63 ≤ maxID watermark bugs < 2 ^ 63)%Z.
Proof.
  intros Hw. induction 1 as [|b bugs Hb _ IH]; [done|].
  cbn [maxID foldr]. fold (maxID watermark bugs). lia.
Qed.

(** X20.  After a cycle whose search and whose write succeeded, the next
    read of the store gives the greatest of the old watermark and the
    identifiers of the first 52 bugs found, which is at least the old
    watermark, provided the identifiers are values of a 64-bit [int]. *)
Theorem watermark_carries_over (env : Env) (components : list string) (w : World)
    (found : list Bug) :
  let key := stateKey components in
  let old := parsedState (default "" (store w !! key)) in
  getFailure env key = None →
  tracker env (getNewBugsQuery components old) = Ok found →
  setFailure env key (Itoa (maxID old (take 52 found))) = None →
  Forall (λ b, - 2 ^ 63 ≤ ID b < 2 ^ 63)%Z found →
  let w' := snd (sync env components w) in
  parsedState (default "" (store w' !! key)) = maxID old (take 52 found)
  ∧ (old ≤ parsedState (default "" (store w' !! key)))%Z.
Proof.
  intros key old Hget Hfound Hset Hids w'.
  destruct (sync_after_read env components w Hget) as (_ & _ & Hstore).
  fold key old in Hstore. rewrite Hfound in Hstore.
  rewrite scan_watermark in Hstore by lia.
  change (Z.to_nat (52 - 0)) with 52%nat in Hstore. rewrite Hset in Hstore.
  unfold w'. rewrite Hstore, lookup_insert_eq. cbn [default from_option id].
  rewrite parsedState_Itoa.
  - split; [done|apply maxID_ge].
  - apply maxID_range; [apply parsedState_range|]. by apply Forall_take.
Qed.

(** X21.  When the search fails, the cycle returns its error and still
    writes the watermark it started from: a stored number stays what it
    was, and a value that was missing or not a number is replaced by "0". *)
Theorem failed_search_keeps_watermark (env : Env) (components : list string) (w : World)
    (err : error) :
  let key := stateKey components in
  let old := parsedState (default "" (store w !! key)) in
  getFailure env key = None →
  tracker env (getNewBugsQuery components old) = Err err →
  let run := sync env components w in
  fst run = Some err
  ∧ last (newEvents w (snd run)) = Some (EvSetPersistentValue key (Itoa old))
  ∧ List.filter (λ e, match e with EvMessageAdminChannel _ => true | _ => false end)
      (newEvents w (snd run)) = []
  ∧ parsedState (default "" (store (snd run) !! key)) = old.
Proof.
  intros key old Hget Hfail run.
  destruct (sync_after_read env components w Hget) as (Hres & Hev & Hstore).
  fold key old in Hres, Hev, Hstore. rewrite Hfail in Hres, Hev, Hstore.
  unfold run. rewrite Hres, Hev, Hstore. split; [done|]. split; [|split].
  - by rewrite app_comm_cons, last_app.
  - cbn [List.filter]. rewrite List.filter_app. cbn [List.filter app].
    rewrite app_nil_r.
    destruct (String.eqb _ ""); [done|]. by destruct (Atoi _).
  - destruct (setFailure env key (Itoa old)); [done|].
    rewrite lookup_insert_eq. cbn [default from_option id].
    apply parsedState_Itoa, parsedState_range.
Qed.

End Watermark.

(** ** What the new-bug reporter tells *)

Module NewBugsMessages.
Section Messages.

Import NewBugs Rules Vocabulary NewBugsCycle.

Variable FormatBugMessage : Bug -> string.

Lemma scan_ids total i bugs : ∀ lastID ids,
  (0 ≤ i ≤ 51)%Z →
  snd (scan total i bugs lastID ids)
  = ids ++ (bugLink <$> take (Z.to_nat (52 - i)) bugs)
    ++ (if decide (Z.to_nat (52 - i) ≤ length bugs)%nat
        then [" ... and " +:+ Itoa (total - 50) +:+ " more"] else []).
Proof.
  revert i. induction bugs as [|b bugs IH]; intros i lastID ids Hi.
  - rewrite take_nil. cbn [scan snd fmap list_fmap length].
    rewrite decide_False by lia. by rewrite !app_nil_r.
  - replace (Z.to_nat (52 - i)) with (S (Z.to_nat (51 - i))) by lia.
    cbn [scan take fmap list_fmap length].
    destruct (Z.gtb_spec i 50) as [Hbreak|Hgo].
    + replace (Z.to_nat (51 - i)) with 0%nat by lia.
      rewrite take_0, decide_True by lia. cbn [snd list_fmap]. by rewrite <- app_assoc.
    + rewrite IH by lia. replace (52 - (i + 1))%Z with (51 - i)%Z by lia.
      rewrite <- !app_assoc. cbn [app]. do 2 f_equal.
      destruct (decide (Z.to_nat (51 - i) ≤ length bugs)%nat);
        [by rewrite decide_True by lia | by rewrite decide_False by lia].
Qed.

(** X22.  When the search succeeds, the cycle does two things before the
    write: it searches, and it tells the administrators of the first 52
    bugs found, followed, whenever at least 52 were found, by the words
    "... and n more", where n is the number of bugs found less 50.  The
    message is sent even when nothing was found. *)
Theorem cycle_message (env : Env) (components : list string) (lastID : Z) (w : World)
    (found : list Bug) :
  let q := getNewBugsQuery components lastID in
  tracker env q = Ok found →
  cycle env components lastID w
  = ((None, maxID lastID (take 52 found)),
     addEvents w
       [EvSearch q;
        EvMessageAdminChannel
          ("Found new bugs: "
           +:+ strings_Join
                 ((bugLink <$> take 52 found)
                  ++ (if decide (52 ≤ length found)%nat
                      then [" ... and " +:+ Itoa (len found - 50) +:+ " more"]
                      else []))
                 ", ")]).
Proof.
  intros q Hq. rewrite cycle_run. fold q. rewrite Hq.
  by rewrite scan_watermark, scan_ids by lia.
Qed.

Lemma reportLines_spec total i bugs : ∀ lines,
  (0 ≤ i ≤ 21)%Z →
  reportLines FormatBugMessage total i bugs lines
  = lines ++ ((λ b, "> " +:+ FormatBugMessage b) <$> take (Z.to_nat (22 - i)) bugs)
    ++ (if decide (Z.to_nat (22 - i) ≤ length bugs)%nat
        then [" ... and " +:+ Itoa (total - 20) +:+ " more"] else []).
Proof.
  revert i. induction bugs as [|b bugs IH]; intros i lines Hi.
  - rewrite take_nil. cbn [reportLines fmap list_fmap length].
    rewrite decide_False by lia. by rewrite !app_nil_r.
  - replace (Z.to_nat (22 - i)) with (S (Z.to_nat (21 - i))) by lia.
    cbn [reportLines take fmap list_fmap length].
    destruct (Z.gtb_spec i 20) as [Hbreak|Hgo].
    + replace (Z.to_nat (21 - i)) with 0%nat by lia.
      rewrite take_0, decide_True by lia. cbn [list_fmap]. by rewrite <- app_assoc.
    + rewrite IH by lia. replace (22 - (i + 1))%Z with (21 - i)%Z by lia.
      rewrite <- !app_assoc. cbn [app]. do 2 f_equal.
      destruct (decide (Z.to_nat (21 - i) ≤ length bugs)%nat);
        [by rewrite decide_True by lia | by rewrite decide_False by lia].
Qed.

(** X23.  The report of new bugs always searches with the bootstrap query,
    whatever watermark is stored.  It hands on the error of a failed search
    without recording anything else; otherwise its text is the heading, an
    empty line, one line for each of the first 22 bugs and, whenever at
    least 22 were found, the words "... and n more", where n is the number
    of bugs found less 20. *)
Theorem new_bugs_report (env : Env) (components : list string) (w : World) :
  let q := getNewBugsQuery components 0 in
  Advanced q = [bootstrapPredicate]
  ∧ Report FormatBugMessage env components w
    = (match tracker env q with
       | Err err => Err err
       | Ok found =>
         Ok (strings_Join
               (["New bugs of the last week (excluding those already in a different state):";
                 ""]
                ++ ((λ b, "> " +:+ FormatBugMessage b) <$> take 22 found)
                ++ (if decide (22 ≤ length found)%nat
                    then [" ... and " +:+ Itoa (len found - 20) +:+ " more"]
                    else []))
               nl)
       end,
       addEvents w [EvSearch q]).
Proof.
  cbn zeta. split; [done|].
  unfold Report, getNewBugs, Search, emit, mbind, M_bind, mret, M_ret, addEvents.
  cbn zeta. destruct (tracker env _) as [found|err]; [|done].
  by rewrite reportLines_spec by lia.
Qed.

End Messages.
End NewBugsMessages.

(** ** The guard of the chat commands *)

Module AuthGuard.
Section Guard.

Import Auth Vocabulary.

Variable ExpandGroups : gmap string (list string) -> list string -> gset string.
Variable SlackEmailToBugzilla : OperatorConfig -> string -> string.
Variable userInfo : string -> result error string.

Lemma empty_test (s : string) : Nat.eqb (String.length s) 0 = bool_decide (s = "").
Proof.
  destruct s; [done|]. cbn [String.length Nat.eqb]. symmetry.
  by apply bool_decide_eq_false_2.
Qed.

(** X24.  A request that is authorized, by the name of its user or by the
    address the chat service knows for it, reaches the handler, and nothing
    is replied on the handler's behalf; a user known by name is not even
    looked up. *)
Theorem auth_lets_authorized_through (cfg : OperatorConfig)
    (handler : Request → list Action) (restrictedTo : list string) (req : Request) :
  let users := ExpandGroups (Groups cfg) restrictedTo in
  authorized users (SlackEmailToBugzilla cfg) userInfo req →
  auth ExpandGroups SlackEmailToBugzilla userInfo cfg handler restrictedTo req
  = (if bool_decide (Username req ≠ "" ∧ Username req ∈ users) then []
     else [GetUserInfo (User req)])
    ++ handler req.
Proof.
  intros users Hauth. unfold auth. fold users.
  rewrite empty_test. unfold Has.
  destruct (decide (Username req ≠ "" ∧ Username req ∈ users)) as [[Hne Hin]|Hno].
  - rewrite (bool_decide_eq_false_2 (Username req = "")) by done.
    rewrite (bool_decide_eq_true_2 (Username req ∈ users)) by done.
    by rewrite bool_decide_eq_true_2.
  - rewrite (bool_decide_eq_false_2 (_ ∧ _)) by done.
    assert (Hcond : bool_decide (Username req = "")
                    || negb (bool_decide (Username req ∈ users)) = true).
    { apply orb_true_iff. destruct (decide (Username req = "")) as [He|He].
      - left. by apply bool_decide_eq_true_2.
      - right. apply negb_true_iff, bool_decide_eq_false_2. tauto. }
    rewrite Hcond. destruct Hauth as [Hname|(email & Hinfo & Hne & Hin)]; [done|].
    rewrite Hinfo, empty_test.
    rewrite (bool_decide_eq_false_2 (email = "")) by done.
    by rewrite (bool_decide_eq_true_2 (_ ∈ users)).
Qed.

(** X25.  A request that is not authorized never reaches the handler: its
    user is looked up, the reply is the denial that names the user, and the
    reason is logged. *)
Theorem auth_denies_others (cfg : OperatorConfig)
    (handler : Request → list Action) (restrictedTo : list string) (req : Request) :
  let users := ExpandGroups (Groups cfg) restrictedTo in
  ¬ authorized users (SlackEmailToBugzilla cfg) userInfo req →
  auth ExpandGroups SlackEmailToBugzilla userInfo cfg handler restrictedTo req
  = [GetUserInfo (User req); denied req;
     match userInfo (User req) with
     | Err err => LogError err
     | Ok email => LogDenied email
     end].
Proof.
  intros users Hno. unfold auth. fold users.
  rewrite empty_test. unfold Has.
  assert (Hcond : bool_decide (Username req = "")
                  || negb (bool_decide (Username req ∈ users)) = true).
  { apply orb_true_iff. destruct (decide (Username req = "")) as [He|He].
    - left. by apply bool_decide_eq_true_2.
    - right. apply negb_true_iff, bool_decide_eq_false_2.
      intros Hin. apply Hno. by left. }
  rewrite Hcond. destruct (userInfo (User req)) as [email|err] eqn:Hinfo; [|done].
  rewrite empty_test.
  assert (Hcond2 : bool_decide (email = "")
                   || negb (bool_decide (SlackEmailToBugzilla cfg email ∈ users)) = true).
  { apply orb_true_iff. destruct (decide (email = "")) as [He|He].
    - left. by apply bool_decide_eq_true_2.
    - right. apply negb_true_iff, bool_decide_eq_false_2.
      intros Hin. apply Hno. right. by exists email. }
  by rewrite Hcond2.
Qed.

End Guard.
End AuthGuard.

(** ** The properties above on sample inputs *)

Lemma serious_keyword_buckets_witness :
  "TestBlocker" ∈ Blockers.seriousKeywords
  ∧ at_key (Blockers.seriousIDs
              (Blockers.summarizeBugs Summary "4.6"
                 [Samples.untriaged; MoreSamples.testBlocker])) "TestBlocker" = [7].
Proof.
  assert (Hk : "TestBlocker" ∈ Blockers.seriousKeywords)
    by (unfold Blockers.seriousKeywords; set_solver).
  split; [exact Hk|].
  destruct (BlockersHistograms.serious_keyword_buckets Summary "4.6"
              [Samples.untriaged; MoreSamples.testBlocker] "TestBlocker" Hk) as [-> _].
  vm_compute. reflexivity.
Defined.

Lemma perPerson_groups_witness :
  let byID := Blockers.indexByID [Samples.untriaged; Samples.blocker] in
  (length [1; 3; 2] ≤ length ["one"; "three"; "two"])%nat
  ∧ ∃ perPersonIDs perPersonLines,
      Blockers.perPerson byID [1; 3; 2] ["one"; "three"; "two"]
      = Some (perPersonIDs, perPersonLines)
      ∧ at_key perPersonIDs "bob" = [2]
      ∧ at_key perPersonLines "bob" = ["two"].
Proof.
  cbn zeta.
  assert (Hlen : (length [1; 3; 2] ≤ length ["one"; "three"; "two"])%nat) by (simpl; lia).
  split; [exact Hlen|].
  destruct (PerPersonGroups.perPerson_groups
              (Blockers.indexByID [Samples.untriaged; Samples.blocker])
              [1; 3; 2] ["one"; "three"; "two"] Hlen)
    as (ids & lines & Hrun & Hids & Hlines & _).
  exists ids, lines. split; [exact Hrun|]. rewrite Hids, Hlines.
  split; vm_compute; reflexivity.
Defined.

Lemma blockers_sync_search_failure_witness :
  let q := Blockers.getBugsQuery ["apiserver"] ["---"; "4.6"; "4.5"] in
  tracker MoreSamples.trackerUnreachable q = Err MoreSamples.unreachable
  ∧ Blockers.sync Summary (λ _, "url") MoreSamples.trackerUnreachable Samples.config
      ["apiserver"] Tracker.newWorld
    = (Blockers.Returned (Some MoreSamples.unreachable),
       Rules.addEvents Tracker.newWorld
         [EvSearch q;
          EvWarning "BugSearchFailed"
            "Get https://bugzilla.redhat.com/rest/bug?id=1%!C(MISSING)2: EOF"]).
Proof.
  cbn zeta. split; [reflexivity|].
  destruct (BlockersCycle.blockers_sync_search_failure Summary (λ _, "url")
              MoreSamples.trackerUnreachable Samples.config ["apiserver"] Tracker.newWorld
              MoreSamples.unreachable eq_refl) as [Hsync _].
  exact Hsync.
Defined.

Lemma blockers_sync_success_witness :
  let found := [Samples.untriaged; Samples.blocker] in
  let env := Tracker.reliable found in
  tracker env (Blockers.getBugsQuery ["apiserver"] ["---"; "4.6"; "4.5"]) = Ok found
  ∧ fst (Blockers.sync Summary (λ _, "url") env Samples.config ["apiserver"]
           Tracker.newWorld) = Blockers.Returned None
  ∧ List.filter Vocabulary.isEmail
      (trace (snd (Blockers.sync Summary (λ _, "url") env Samples.config ["apiserver"]
                     Tracker.newWorld))) = [].
Proof.
  cbn zeta.
  assert (H1 : tracker (Tracker.reliable [Samples.untriaged; Samples.blocker])
                 (Blockers.getBugsQuery ["apiserver"] ["---"; "4.6"; "4.5"])
               = Ok [Samples.untriaged; Samples.blocker])
    by (vm_compute; reflexivity).
  split; [exact H1|].
  destruct (BlockersCycle.blockers_sync_success Summary (λ _, "url")
              (Tracker.reliable [Samples.untriaged; Samples.blocker])
              Samples.config ["apiserver"] Tracker.newWorld _ H1)
    as (report & _ & ->).
  split; [reflexivity|]. reflexivity.
Defined.

Lemma attributed_bugs_witness :
  let bugs := [Samples.escalatedHigh 1] in
  let v := Escalation.classifyAll Samples.teamConfig bugs in
  Samples.escalatedHigh 1 ∈ at_key (Escalation.leadsBugs v) "carol"
  ∧ Samples.escalatedHigh 1 ∈ at_key (Escalation.assigned v) "alice"
  ∧ Samples.escalatedHigh 1 ∉ Escalation.silenced v.
Proof.
  cbn zeta.
  assert (H1 : Samples.escalatedHigh 1
               ∈ at_key (Escalation.leadsBugs
                           (Escalation.classifyAll Samples.teamConfig
                              [Samples.escalatedHigh 1])) "carol")
    by (vm_compute; apply list_elem_of_here).
  split; [exact H1|].
  destruct (EscalationMore.attributed_bugs_are_assigned Samples.teamConfig
              [Samples.escalatedHigh 1] "carol" (Samples.escalatedHigh 1) H1)
    as (_ & _ & Ha & Hs).
  split; [exact Ha | exact Hs].
Defined.

Lemma escalation_search_failure_witness :
  let q := Escalation.getSeverityUrgentBugsQuery ["etcd"] in
  tracker MoreSamples.trackerDown q = Err "tracker down"
  ∧ Escalation.sync (λ b, Itoa (ID b)) Samples.noGroups MoreSamples.trackerDown
      Samples.teamConfig ["etcd"] Tracker.newWorld
    = (Some "tracker down",
       Rules.addEvents Tracker.newWorld
         [EvSearch q; EvWarning "BugSearchFailed" (Sprintf "tracker down")])
  ∧ Sprintf "tracker down" = "tracker down".
Proof.
  cbn zeta. split; [reflexivity|].
  destruct (EscalationCycle.escalation_search_failure (λ b, Itoa (ID b)) Samples.noGroups
              MoreSamples.trackerDown true Samples.teamConfig ["etcd"] Tracker.newWorld
              "tracker down" eq_refl) as (_ & Hsync & Hplain).
  split; [exact Hsync|]. apply Hplain.
  apply (bool_decide_unpack _). vm_compute. exact I.
Defined.

Lemma escalation_report_text_witness :
  let found := [Samples.escalatedHigh 1] in
  let env := Tracker.reliable found in
  tracker env (Escalation.getSeverityUrgentBugsQuery ["etcd"]) = Ok found
  ∧ ∃ report,
      fst (Escalation.Report (λ b, Itoa (ID b)) Samples.noGroups env true
             Samples.teamConfig ["etcd"] Tracker.newWorld) = Ok report
      ∧ report ≠ ""
      ∧ String.prefix ("Escalation report:" +:+ nl) report = true.
Proof.
  cbn zeta.
  assert (H1 : tracker (Tracker.reliable [Samples.escalatedHigh 1])
                 (Escalation.getSeverityUrgentBugsQuery ["etcd"])
               = Ok [Samples.escalatedHigh 1]) by (vm_compute; reflexivity).
  split; [exact H1|].
  destruct (EscalationCycle.escalation_report_text (λ b, Itoa (ID b)) Samples.noGroups
              (Tracker.reliable [Samples.escalatedHigh 1]) true Samples.teamConfig
              ["etcd"] Tracker.newWorld _ H1) as (report & HR & Hempty & Hprefix).
  exists report. rewrite HR. split; [reflexivity|].
  assert (Hne : report ≠ "").
  { intros Heq. apply Hempty in Heq as [Hleads _].
    assert (Hl : Escalation.leadsBugs
                   (Escalation.classifyAll Samples.teamConfig [Samples.escalatedHigh 1])
                 !! "carol" = None) by (rewrite Hleads; apply lookup_empty).
    vm_compute in Hl. discriminate Hl. }
  split; [exact Hne | by apply Hprefix].
Defined.

Lemma escalation_sync_delivers_witness :
  let found := [Samples.escalatedHigh 1] in
  let env := Tracker.reliable found in
  let v := Escalation.classifyAll Samples.teamConfig found in
  tracker env (Escalation.getSeverityUrgentBugsQuery ["etcd"]) = Ok found
  ∧ ¬ (Escalation.leadsBugs v = ∅ ∧ Escalation.silenced v = [])
  ∧ fst (Escalation.sync (λ b, Itoa (ID b)) Samples.noGroups env Samples.teamConfig
           ["etcd"] Tracker.newWorld) = None
  ∧ length (List.filter Vocabulary.isChannel
              (trace (snd (Escalation.sync (λ b, Itoa (ID b)) Samples.noGroups env
                             Samples.teamConfig ["etcd"] Tracker.newWorld)))) = 1%nat.
Proof.
  cbn zeta.
  assert (H1 : tracker (Tracker.reliable [Samples.escalatedHigh 1])
                 (Escalation.getSeverityUrgentBugsQuery ["etcd"])
               = Ok [Samples.escalatedHigh 1]) by (vm_compute; reflexivity).
  assert (H2 : ¬ (Escalation.leadsBugs
                    (Escalation.classifyAll Samples.teamConfig [Samples.escalatedHigh 1]) = ∅
                  ∧ Escalation.silenced
                      (Escalation.classifyAll Samples.teamConfig [Samples.escalatedHigh 1])
                    = [])).
  { intros [Hleads _].
    assert (Hl : Escalation.leadsBugs
                   (Escalation.classifyAll Samples.teamConfig [Samples.escalatedHigh 1])
                 !! "carol" = None) by (rewrite Hleads; apply lookup_empty).
    vm_compute in Hl. discriminate Hl. }
  split; [exact H1|]. split; [exact H2|].
  destruct (EscalationCycle.escalation_sync_delivers (λ b, Itoa (ID b)) Samples.noGroups
              (Tracker.reliable [Samples.escalatedHigh 1]) Samples.teamConfig ["etcd"]
              Tracker.newWorld _ H1 H2) as (report & w1 & HR & ->).
  split; [reflexivity|].
  cbn [snd fst Rules.addEvents trace]. rewrite List.filter_app.
  assert (Hw1 : List.filter Vocabulary.isChannel (trace w1) = []).
  { apply (f_equal snd) in HR. cbn [snd] in HR. rewrite <- HR. vm_compute. reflexivity. }
  rewrite Hw1. reflexivity.
Defined.

Lemma Atoi_Itoa_witness :
  (- 2 ^ 63 ≤ 75 < 2 ^ 63)%Z ∧ NewBugs.Atoi (Itoa 75) = Ok 75.
Proof.
  assert (H : (- 2 ^ 63 ≤ 75 < 2 ^ 63)%Z) by lia.
  split; [exact H | exact (Watermark.Atoi_Itoa 75 H)].
Defined.

Lemma watermark_carries_over_witness :
  let found := Samples.newBugsFrom 51 25 in
  let env := Tracker.reliable found in
  let w := Samples.worldWithWatermark "50" in
  let key := NewBugs.stateKey ["apiserver"] in
  getFailure env key = None
  ∧ tracker env (NewBugs.getNewBugsQuery ["apiserver"] 50) = Ok found
  ∧ Forall (λ b, - 2 ^ 63 ≤ ID b < 2 ^ 63)%Z found
  ∧ Rules.parsedState
      (default "" (store (snd (NewBugs.sync env ["apiserver"] w)) !! key)) = 75.
Proof.
  cbn zeta.
  assert (H1 : getFailure (Tracker.reliable (Samples.newBugsFrom 51 25))
                 (NewBugs.stateKey ["apiserver"]) = None) by reflexivity.
  assert (H2 : tracker (Tracker.reliable (Samples.newBugsFrom 51 25))
                 (NewBugs.getNewBugsQuery ["apiserver"]
                    (Rules.parsedState
                       (default "" (store (Samples.worldWithWatermark "50")
                                      !! NewBugs.stateKey ["apiserver"]))))
               = Ok (Samples.newBugsFrom 51 25)) by (vm_compute; reflexivity).
  assert (H3 : setFailure (Tracker.reliable (Samples.newBugsFrom 51 25))
                 (NewBugs.stateKey ["apiserver"])
                 (Itoa (Rules.maxID
                          (Rules.parsedState
                             (default "" (store (Samples.worldWithWatermark "50")
                                            !! NewBugs.stateKey ["apiserver"])))
                          (take 52 (Samples.newBugsFrom 51 25)))) = None) by reflexivity.
  assert (H4 : Forall (λ b, - 2 ^ 63 ≤ ID b < 2 ^ 63)%Z (Samples.newBugsFrom 51 25)).
  { apply Forall_forall. intros b Hb. unfold Samples.newBugsFrom in Hb.
    apply list_elem_of_In, in_map_iff in Hb as (i & <- & Hi).
    apply in_seq in Hi. cbn [ID Samples.newBug]. lia. }
  split; [exact H1|]. split; [vm_compute; reflexivity|]. split; [exact H4|].
  destruct (Watermark.watermark_carries_over _ ["apiserver"] _ _ H1 H2 H3 H4) as [-> _].
  vm_compute. reflexivity.
Defined.

Lemma failed_search_keeps_watermark_witness :
  let w := Samples.worldWithWatermark "not-a-number" in
  let key := NewBugs.stateKey ["apiserver"] in
  let run := NewBugs.sync MoreSamples.trackerDown ["apiserver"] w in
  getFailure MoreSamples.trackerDown key = None
  ∧ fst run = Some "tracker down"
  ∧ store (snd run) !! key = Some "0".
Proof.
  cbn zeta.
  assert (H1 : getFailure MoreSamples.trackerDown (NewBugs.stateKey ["apiserver"]) = None)
    by reflexivity.
  split; [exact H1|].
  destruct (Watermark.failed_search_keeps_watermark MoreSamples.trackerDown ["apiserver"]
              (Samples.worldWithWatermark "not-a-number") "tracker down" H1 eq_refl)
    as (Hres & _ & _ & _).
  split; [exact Hres|]. vm_compute. reflexivity.
Defined.

Lemma cycle_message_witness :
  let found := Samples.newBugsFrom 51 2 in
  let env := Tracker.reliable found in
  tracker env (NewBugs.getNewBugsQuery ["apiserver"] 50) = Ok found
  ∧ NewBugs.cycle env ["apiserver"] 50 Tracker.newWorld
    = ((None, 52),
       Rules.addEvents Tracker.newWorld
         [EvSearch (NewBugs.getNewBugsQuery ["apiserver"] 50);
          EvMessageAdminChannel
            "Found new bugs: <https://bugzilla.redhat.com/show_bug.cgi?id=51|#51>, <https://bugzilla.redhat.com/show_bug.cgi?id=52|#52>"]).
Proof.
  cbn zeta.
  assert (H1 : tracker (Tracker.reliable (Samples.newBugsFrom 51 2))
                 (NewBugs.getNewBugsQuery ["apiserver"] 50)
               = Ok (Samples.newBugsFrom 51 2)) by (vm_compute; reflexivity).
  split; [exact H1|].
  rewrite (NewBugsMessages.cycle_message _ ["apiserver"] 50 Tracker.newWorld _ H1).
  vm_compute. reflexivity.
Defined.

Lemma auth_lets_authorized_through_witness :
  let users := Samples.noGroups ∅ ["alice"] in
  Vocabulary.authorized users (MoreSamples.sameAddress Samples.config)
    MoreSamples.nobodyKnown MoreSamples.aliceAsks
  ∧ Auth.auth Samples.noGroups MoreSamples.sameAddress MoreSamples.nobodyKnown
      Samples.config MoreSamples.handler ["alice"] MoreSamples.aliceAsks
    = [Auth.Handled "done"].
Proof.
  cbn zeta.
  assert (H1 : Vocabulary.authorized (Samples.noGroups (Groups Samples.config) ["alice"])
                 (MoreSamples.sameAddress Samples.config)
                 MoreSamples.nobodyKnown MoreSamples.aliceAsks).
  { left. split; [discriminate|]. unfold Samples.noGroups. set_solver. }
  split; [exact H1|].
  rewrite (AuthGuard.auth_lets_authorized_through Samples.noGroups MoreSamples.sameAddress
             MoreSamples.nobodyKnown Samples.config MoreSamples.handler ["alice"]
             MoreSamples.aliceAsks H1).
  vm_compute. reflexivity.
Defined.

Lemma auth_denies_others_witness :
  let users := Samples.noGroups ∅ ["alice"] in
  ¬ Vocabulary.authorized users (MoreSamples.sameAddress Samples.config)
      MoreSamples.nobodyKnown MoreSamples.malloryAsks
  ∧ Auth.auth Samples.noGroups MoreSamples.sameAddress MoreSamples.nobodyKnown
      Samples.config MoreSamples.handler ["alice"] MoreSamples.malloryAsks
    = [Auth.GetUserInfo "U2"; Auth.denied MoreSamples.malloryAsks;
       Auth.LogError "user_not_found"].
Proof.
  cbn zeta.
  assert (H1 : ¬ Vocabulary.authorized (Samples.noGroups (Groups Samples.config) ["alice"])
                   (MoreSamples.sameAddress Samples.config)
                   MoreSamples.nobodyKnown MoreSamples.malloryAsks).
  { intros [[_ Hin]|(email & Hinfo & _)]; [|discriminate Hinfo].
    unfold Samples.noGroups in Hin.
    apply elem_of_list_to_set, list_elem_of_singleton in Hin. discriminate Hin. }
  split; [exact H1|].
  exact (AuthGuard.auth_denies_others Samples.noGroups MoreSamples.sameAddress
           MoreSamples.nobodyKnown Samples.config MoreSamples.handler ["alice"]
           MoreSamples.malloryAsks H1).
Defined.

(** ** Lines of the two channel reports *)

Module ReportLines.
Section Lines.

Import Rules Vocabulary.

Variable FormatBugMessage : Bug -> string.
Variable queryURL : Query -> string.
Variable GetBugURL : Bug -> string.
Variable ExpandGroups : gmap string (list string) -> list string -> gset string.

Lemma flat_map_singletons {A B} (f : A → list B) (l : list A) :
  (∀ x, x ∈ l → length (f x) = 1%nat) → length (flat_map f l) = length l.
Proof.
  induction l as [|x l IH]; intros Hf; [done|].
  cbn [flat_map]. rewrite length_app, Hf, IH; [done| |by left].
  intros y Hy. apply Hf. by right.
Qed.

Lemma flat_map_nil_iff {A B} (f : A → list B) (l : list A) :
  flat_map f l = [] ↔ ∀ x, x ∈ l → f x = [].
Proof.
  induction l as [|x l IH]; cbn [flat_map].
  - split; [|done]. intros _ x Hx. by apply elem_of_nil in Hx.
  - split.
    + intros Happ. apply app_eq_nil in Happ as [Hx Hl]. intros y Hy.
      apply elem_of_cons in Hy as [->|Hy]; [done|]. by apply IH.
    + intros Hall. rewrite (Hall x) by (by left). apply IH.
      intros y Hy. apply Hall. by right.
Qed.

Lemma summarizeBugs_wellKeyed reference bugs :
  wellKeyed (Blockers.seriousIDs (Blockers.summarizeBugs FormatBugMessage reference bugs)).
Proof.
  unfold Blockers.summarizeBugs.
  assert (Hgen : ∀ r, wellKeyed (Blockers.seriousIDs r) →
    wellKeyed (Blockers.seriousIDs
                 (fold_left (Blockers.summarizeBug FormatBugMessage reference) bugs r))).
  { induction bugs as [|bug bugs' IH]; intros r Hr; simpl; [done|].
    by apply IH, BlockersHistograms.wellKeyed_summarizeBug. }
  apply Hgen. intros k l. simpl. by rewrite lookup_empty.
Qed.

(** X26.  The channel report of the blockers cycle has its five fixed lines
    and one line for every key of the serious-keyword map: on the summary of
    a list of bugs no key is skipped for want of identifiers. *)
Theorem channel_stats_lines (reference : string) (bugs : list Bug)
    (activeBugsCount : Z) (allReleasesQuery currentReleaseQuery : Query) :
  let summary := Blockers.summarizeBugs FormatBugMessage reference bugs in
  length (Blockers.getStatsForChannel queryURL reference activeBugsCount summary
            allReleasesQuery currentReleaseQuery)
  = (5 + size (Blockers.seriousIDs summary))%nat.
Proof.
  cbn zeta. unfold Blockers.getStatsForChannel.
  rewrite length_app. cbn [length]. f_equal.
  rewrite flat_map_singletons; [by rewrite length_map_to_list|].
  intros [keyword ids] Hin. apply elem_of_map_to_list in Hin.
  destruct (summarizeBugs_wellKeyed reference bugs keyword ids Hin) as [Hne _].
  by destruct ids.
Qed.

(** The loop over [assigned] writes something exactly when some assignee has
    at least two eligible bugs. *)
Lemma assigneeLines_listed (cfg : OperatorConfig) (found : list Bug) :
  Escalation.assigneeLines GetBugURL
    (Escalation.assigned (Escalation.classifyAll cfg found)) ≠ []
  ↔ ∃ a, (2 ≤ length (filter (λ b, eligible b ∧ AssignedTo b = a) found))%nat.
Proof.
  set (v := Escalation.classifyAll cfg found).
  assert (Hbucket : ∀ a, at_key (Escalation.assigned v) a
                         = filter (λ b, eligible b ∧ AssignedTo b = a) found)
    by (intros a; apply EscalationVerdicts.classifyAll_buckets).
  assert (Hnonempty : noEmptyGroup (Escalation.assigned v)).
  { destruct (EscalationMore.noEmptyGroup_fold_classify cfg found Escalation.noVerdicts)
      as (Ha & _); try (intros k l'; simpl; by rewrite lookup_empty); done. }
  unfold Escalation.assigneeLines.
  set (piece := λ '(assignee, bugs),
         if Z.eqb (len bugs) 1 then []
         else ["> :red-siren: " +:+ assignee +:+ ": "
               +:+ strings_Join (map GetBugURL bugs) " "]).
  assert (Hlisted : flat_map piece (map_to_list (Escalation.assigned v)) = []
                    ↔ ∀ a, (length (at_key (Escalation.assigned v) a) ≤ 1)%nat).
  { rewrite flat_map_nil_iff. split.
    - intros Hall a. unfold at_key.
      destruct (Escalation.assigned v !! a) as [l|] eqn:Hl; [|simpl; lia].
      specialize (Hall (a, l)). rewrite elem_of_map_to_list in Hall.
      specialize (Hall Hl). unfold piece, len in Hall. cbn [default from_option id].
      destruct (Z.eqb_spec (Z.of_nat (length l)) 1); [lia|discriminate Hall].
    - intros Hall [a l] Hin. apply elem_of_map_to_list in Hin.
      specialize (Hall a). unfold at_key in Hall. rewrite Hin in Hall.
      cbn [default from_option id] in Hall.
      pose proof (Hnonempty a l Hin) as Hne.
      unfold piece, len. destruct l as [|b l]; [done|]. simpl in Hall.
      destruct (Z.eqb_spec (Z.of_nat (length (b :: l))) 1) as [|Hn]; [done|].
      simpl in Hn. lia. }
  split.
  - intros Hlines.
    destruct (decide (Forall (λ a, length (at_key (Escalation.assigned v) a) ≤ 1)%nat
                        (AssignedTo <$> found))) as [Hall|Hsome].
    + destruct Hlines. rewrite Forall_forall in Hall.
      assert (Hnil : flat_map piece (map_to_list (Escalation.assigned v)) = []).
      { apply Hlisted. intros a.
        destruct (decide (a ∈ AssignedTo <$> found)) as [Hin|Hout]; [by apply Hall|].
        rewrite Hbucket, PerPerson.filter_none; [simpl; lia|].
        intros b Hb [_ Ha]. apply Hout. rewrite <- Ha.
        apply list_elem_of_fmap. by exists b. }
      by rewrite Hnil.
    + apply not_Forall_Exists in Hsome; [|apply _].
      apply Exists_exists in Hsome as (a & _ & Ha).
      exists a. rewrite <- Hbucket. unfold compose in Ha. lia.
  - intros [a Ha] Hlines. rewrite <- Hbucket in Ha.
    assert (Hnil : flat_map piece (map_to_list (Escalation.assigned v)) = [])
      by (by destruct (flat_map piece _)).
    rewrite Hlisted in Hnil. specialize (Hnil a). lia.
Qed.

(** X27.  When the search succeeds and some bug is attributed to a lead or
    silenced, the escalation report has, between the lines of the leads and
    the line of the silenced bugs, the section on assignees with more than
    one escalation exactly when some assignee has at least two eligible
    bugs; the section opens with an empty line and its heading.  When no bug
    is attributed to a lead and none is silenced the report is empty,
    whatever the assignees have. *)
Theorem assignee_section (env : Env) (slack : bool) (cfg : OperatorConfig)
    (components : list string) (w : World) (found : list Bug) :
  tracker env (Escalation.getSeverityUrgentBugsQuery components) = Ok found →
  let v := Escalation.classifyAll cfg found in
  let section := Escalation.assigneeLines GetBugURL (Escalation.assigned v) in
  let crowded :=
    ∃ a, (2 ≤ length (filter (λ b, eligible b ∧ AssignedTo b = a) found))%nat in
  fst (Escalation.Report GetBugURL ExpandGroups env slack cfg components w)
  = Ok (if bool_decide (Escalation.leadsBugs v = ∅ ∧ Escalation.silenced v = []) then ""
        else strings_Join
               (["Escalation report:"; ""]
                ++ Escalation.leadLines GetBugURL ExpandGroups cfg (Escalation.leadsBugs v)
                ++ section
                ++ Escalation.silencedLines GetBugURL (Escalation.silenced v)) nl)
  ∧ (crowded →
     ∃ listed, listed ≠ []
               ∧ section = "" :: "Assignees with more than one escalation:" :: listed)
  ∧ (¬ crowded → section = []).
Proof.
  intros Hfound v section crowded.
  split.
  { rewrite EscalationCycle.escalation_Report_run. cbn zeta. by rewrite Hfound. }
  pose proof (assigneeLines_listed cfg found) as Hlisted. fold v section crowded in Hlisted.
  split.
  - intros Hcrowded. apply Hlisted in Hcrowded.
    unfold section, Escalation.assigneeLines in *.
    destruct (flat_map _ _) as [|line listed]; [done|].
    by exists (line :: listed).
  - intros Hnot. destruct section as [|line rest] eqn:Hsection; [done|].
    destruct Hnot. apply Hlisted. done.
Qed.

End Lines.
End ReportLines.

Lemma assignee_section_witness :
  let found := [Samples.escalatedHigh 1; Samples.escalatedHigh 2] in
  let env := Tracker.reliable found in
  let GetBugURL := λ b : Bug, "#" +:+ Itoa (ID b) in
  let v := Escalation.classifyAll Samples.teamConfig found in
  tracker env (Escalation.getSeverityUrgentBugsQuery ["etcd"]) = Ok found
  ∧ (2 ≤ length (filter (λ b, Rules.eligible b ∧ AssignedTo b = "alice") found))%nat
  ∧ ∃ listed,
      listed ≠ []
      ∧ fst (Escalation.Report GetBugURL Samples.noGroups env true Samples.teamConfig
               ["etcd"] Tracker.newWorld)
        = Ok (strings_Join
                (["Escalation report:"; ""]
                 ++ Escalation.leadLines GetBugURL Samples.noGroups Samples.teamConfig
                      (Escalation.leadsBugs v)
                 ++ ("" :: "Assignees with more than one escalation:" :: listed)
                 ++ Escalation.silencedLines GetBugURL (Escalation.silenced v)) nl).
Proof.
  cbn zeta.
  assert (H1 : tracker (Tracker.reliable [Samples.escalatedHigh 1; Samples.escalatedHigh 2])
                 (Escalation.getSeverityUrgentBugsQuery ["etcd"])
               = Ok [Samples.escalatedHigh 1; Samples.escalatedHigh 2])
    by (vm_compute; reflexivity).
  assert (H2 : (2 ≤ length (filter (λ b, Rules.eligible b ∧ AssignedTo b = "alice")
                              [Samples.escalatedHigh 1; Samples.escalatedHigh 2]))%nat)
    by (vm_compute; lia).
  assert (Hlead : Escalation.leadsBugs
                    (Escalation.classifyAll Samples.teamConfig
                       [Samples.escalatedHigh 1; Samples.escalatedHigh 2]) !! "carol"
                  = Some [Samples.escalatedHigh 1; Samples.escalatedHigh 2])
    by (vm_compute; reflexivity).
  destruct (ReportLines.assignee_section (λ b : Bug, "#" +:+ Itoa (ID b)) Samples.noGroups
              _ true Samples.teamConfig ["etcd"] Tracker.newWorld _ H1)
    as (Hreport & Hsection & _).
  destruct (Hsection (ex_intro _ "alice" H2)) as (listed & Hne & Heq).
  split; [exact H1|]. split; [exact H2|].
  exists listed. split; [exact Hne|].
  rewrite Hreport, Heq.
  rewrite bool_decide_eq_false_2; [reflexivity|].
  intros [Hempty _]. rewrite Hempty, lookup_empty in Hlead. discriminate Hlead.
Defined.
